(** * The YAML schema migration engine of meroku (app/migrations.go)

    A shallow embedding of the version detector, the eleven migration steps,
    the migration runner and the document loader, followed by the properties
    established about them.

    Conventions of the embedding:
    - a configuration document is what yaml.v2 decodes into
      [map[string]interface{}]: the top level is a finite map keyed by
      strings, nested mappings are [map[interface{}]interface{}], sequences
      are [[]interface{}], scalars are nil, bool, int, float64 and string;
    - Go maps are reference values that the steps mutate in place; yaml.v2
      never shares a node between two places of a decoded document, so an
      in-place update of a nested map is written as the update of the nested
      value followed by its re-insertion under the same key;
    - [data] itself is an allocated map (what yaml.v2 hands back for a
      mapping document);
    - console output is not part of the embedding, except for the counter
      that [migrateToV11] reports;
    - a Go run-time panic is an outcome of its own, distinct from returning
      an error. *)

From stdpp Require Import gmap strings list fin_maps pretty.
From Stdlib Require Import ZArith.

Set Warnings "-register-all".
Local Open Scope Z_scope.

(** ** Dynamic values *)

(** Keys of a [map[interface{}]interface{}] produced by the YAML decoder. *)
Inductive key :=
  | KStr (s : string)
  | KInt (n : Z)
  | KBool (b : bool)
  | KNil.

#[global] Instance key_eq_dec : EqDecision key.
Proof. solve_decision. Defined.

#[global] Instance key_countable : Countable key.
Proof.
  refine (inj_countable'
    (fun k => match k with
              | KStr s => inl s
              | KInt n => inr (inl n)
              | KBool b => inr (inr (inl b))
              | KNil => inr (inr (inr tt))
              end)
    (fun x => match x with
              | inl s => KStr s
              | inr (inl n) => KInt n
              | inr (inr (inl b)) => KBool b
              | inr (inr (inr _)) => KNil
              end) _).
  by intros [].
Defined.

(** A float64 is carried as its IEEE-754 bit pattern; only [==] is needed. *)
Definition float64 := Z.

Definition f64_isNaN (b : float64) : bool :=
  (Z.land (Z.shiftr b 52) 0x7FF =? 0x7FF) && negb (Z.land b 0xFFFFFFFFFFFFF =? 0).

Definition f64_isZero (b : float64) : bool :=
  Z.land b 0x7FFFFFFFFFFFFFFF =? 0.

Definition f64_eq (a b : float64) : bool :=
  negb (f64_isNaN a) && negb (f64_isNaN b) &&
  ((a =? b) || (f64_isZero a && f64_isZero b)).

(** 0.5 and 1.0 *)
Definition f64_half : float64 := 0x3FE0000000000000.
Definition f64_one : float64 := 0x3FF0000000000000.

(** The dynamic type [interface{}].  [VMap] is [map[interface{}]interface{}]
    (a YAML mapping below the top level), [VStrMap] is
    [map[string]interface{}] (only ever built by the migration steps). *)
Inductive value :=
  | VNil
  | VBool (b : bool)
  | VInt (n : Z)
  | VFloat (bits : float64)
  | VStr (s : string)
  | VList (l : list value)
  | VMap (m : gmap key value)
  | VStrMap (m : gmap string value).

Abbreviation doc := (gmap string value).

(** [a == b] on two interface values: values of different dynamic types are
    unequal, values of the same comparable type are compared, and two values
    of the same uncomparable type (slice or map) make the comparison panic,
    which is [None] here. *)
Definition iface_eq (a b : value) : option bool :=
  match a, b with
  | VNil, VNil => Some true
  | VBool x, VBool y => Some (eqb x y)
  | VInt x, VInt y => Some (x =? y)
  | VFloat x, VFloat y => Some (f64_eq x y)
  | VStr x, VStr y => Some (String.eqb x y)
  | VList _, VList _ => None
  | VMap _, VMap _ => None
  | VStrMap _, VStrMap _ => None
  | _, _ => Some false
  end.

(** [v == "s"] against a string constant: never panics. *)
Definition eq_string (v : value) (s : string) : bool :=
  match v with
  | VStr x => String.eqb x s
  | _ => false
  end.

(** [v == nil] *)
Definition is_nil (v : value) : bool :=
  match v with
  | VNil => true
  | _ => false
  end.

(** ** Outcomes *)

(** A Go [error]: [None] is nil, [Some msg] an error whose text is [msg]. *)
Definition error := option string.

(** What a call [f(data)] of type [func(map[string]interface{}) error]
    leaves behind: the (mutated) document and the returned error, or a
    run-time panic. *)
Inductive outcome :=
  | Returned (data : doc) (err : error)
  | Panicked.

(** ** Schema versions and the registry *)

Definition CurrentSchemaVersion : Z := 12.

Record Migration := {
  Version : Z;
  Description : string;
  Apply : doc -> outcome
}.

(** ** Small map idioms used by the steps *)

(** [if _, exists := m[k]; !exists { m[k] = v }] *)
Definition setIfAbsent `{Countable K} (k : K) (v : value)
    (m : gmap K value) : gmap K value :=
  match m !! k with
  | None => <[k := v]> m
  | Some _ => m
  end.

(** [if _, exists := m[k]; exists { delete(m, k) }] *)
Definition deleteIfPresent `{Countable K} (k : K)
    (m : gmap K value) : gmap K value :=
  match m !! k with
  | Some _ => delete k m
  | None => m
  end.

(** [if sub, ok := data[k].(map[interface{}]interface{}); ok { body }],
    where [body] mutates [sub] in place. *)
Definition withMap (k : string) (body : gmap key value -> gmap key value)
    (data : doc) : doc :=
  match data !! k with
  | Some (VMap sub) => <[k := VMap (body sub)]> data
  | _ => data
  end.

(** [if x, exists := m[k]; !exists { m[k] = d } else if n, ok := x.(int);
    ok && n == 0 { m[k] = d }] *)
Definition fixZeroInt (k : key) (d : Z) (m : gmap key value) : gmap key value :=
  match m !! k with
  | None => <[k := VInt d]> m
  | Some (VInt 0) => <[k := VInt d]> m
  | Some _ => m
  end.

(** [if x, exists := m[k]; !exists || x == "" { m[k] = d }] *)
Definition fixEmptyString (k : key) (d : string) (m : gmap key value)
    : gmap key value :=
  match m !! k with
  | None => <[k := VStr d]> m
  | Some x => if eq_string x "" then <[k := VStr d]> m else m
  end.

(** ** The version detector *)

Definition detectSchemaVersion (data : doc) : Z :=
  match data !! "schema_version" with
  | Some (VInt version) =>
      if version =? 6 then
        match data !! "az_count" with
        | Some _ => 5
        | None =>
            match data !! "create_private_subnets" with
            | Some _ => 5
            | None =>
                match data !! "enable_nat_gateway" with
                | Some _ => 5
                | None => version
                end
            end
        end
      else version
  | _ =>
      match data !! "account_id" with
      | Some _ => 5
      | None =>
          let v4 :=
            match data !! "workload" with
            | Some (VMap workload) =>
                bool_decide (is_Some (workload !! KStr "backend_desired_count"))
            | _ => false
            end in
          if v4 then 4 else
          let v3 :=
            match data !! "domain" with
            | Some (VMap domain) => bool_decide (is_Some (domain !! KStr "zone_id"))
            | _ => false
            end in
          if v3 then 3 else
          let v2 :=
            match data !! "postgres" with
            | Some (VMap postgres) => bool_decide (is_Some (postgres !! KStr "aurora"))
            | _ => false
            end in
          if v2 then 2 else 1
      end
  end.

(** ** The migration steps *)

Definition migrateToV2 (data : doc) : outcome :=
  let data :=
    withMap "postgres" (fun postgres =>
      match postgres !! KStr "aurora" with
      | None =>
          let postgres := <[KStr "aurora" := VBool false]> postgres in
          let postgres := <[KStr "min_capacity" := VFloat f64_half]> postgres in
          <[KStr "max_capacity" := VFloat f64_one]> postgres
      | Some _ => postgres
      end) data in
  let data :=
    setIfAbsent "alb" (VStrMap {["enabled" := VBool false]}) data in
  Returned data None.

Definition migrateToV3 (data : doc) : outcome :=
  let data :=
    withMap "domain" (fun domain =>
      let createDomainZone :=
        match domain !! KStr "create_domain_zone" with
        | Some (VBool boolVal) => boolVal
        | _ => true
        end in
      let domain :=
        if negb createDomainZone
        then setIfAbsent (KStr "zone_id") (VStr "") domain
        else domain in
      let domain := setIfAbsent (KStr "root_zone_id") (VStr "") domain in
      let domain := setIfAbsent (KStr "root_account_id") (VStr "") domain in
      let domain := setIfAbsent (KStr "is_dns_root") (VBool false) domain in
      let domain := setIfAbsent (KStr "dns_root_account_id") (VStr "") domain in
      let domain := setIfAbsent (KStr "delegation_role_arn") (VStr "") domain in
      let domain := setIfAbsent (KStr "api_domain_prefix") (VStr "") domain in
      setIfAbsent (KStr "add_env_domain_prefix") (VBool false) domain) data in
  Returned data None.

Definition migrateToV4 (data : doc) : outcome :=
  let data :=
    withMap "workload" (fun workload =>
      let workload := fixZeroInt (KStr "backend_desired_count") 1 workload in
      let workload :=
        setIfAbsent (KStr "backend_autoscaling_enabled") (VBool false) workload in
      let workload :=
        fixZeroInt (KStr "backend_autoscaling_min_capacity") 1 workload in
      let workload :=
        fixZeroInt (KStr "backend_autoscaling_max_capacity") 4 workload in
      let workload := fixEmptyString (KStr "backend_cpu") "256" workload in
      let workload := fixEmptyString (KStr "backend_memory") "512" workload in
      setIfAbsent (KStr "backend_alb_domain_name") (VStr "") workload) data in
  Returned data None.

Definition migrateToV5 (data : doc) : outcome :=
  let data := setIfAbsent "account_id" (VStr "") data in
  let data := setIfAbsent "aws_profile" (VStr "") data in
  Returned data None.

Definition migrateToV6 (data : doc) : outcome :=
  let data := setIfAbsent "use_default_vpc" (VBool true) data in
  let data :=
    match data !! "vpc_cidr" with
    | Some vpcCIDR =>
        if eq_string vpcCIDR "" then <["vpc_cidr" := VStr "10.0.0.0/16"]> data
        else data
    | None => data
    end in
  let data := deleteIfPresent "az_count" data in
  let data := deleteIfPresent "create_private_subnets" data in
  let data := deleteIfPresent "enable_nat_gateway" data in
  Returned data None.

Definition migrateToV7 (data : doc) : outcome :=
  let data :=
    match data !! "ecr_strategy" with
    | None =>
        let env := match data !! "env" with Some (VStr s) => s | _ => "" end in
        if String.eqb env "dev" then <["ecr_strategy" := VStr "local"]> data
        else
          match data !! "ecr_account_id" with
          | Some ecrAccountID =>
              if negb (is_nil ecrAccountID) && negb (eq_string ecrAccountID "")
              then <["ecr_strategy" := VStr "cross_account"]> data
              else <["ecr_strategy" := VStr "local"]> data
          | None => <["ecr_strategy" := VStr "local"]> data
          end
    | Some _ => data
    end in
  let data := setIfAbsent "ecr_account_id" VNil data in
  let data := setIfAbsent "ecr_account_region" VNil data in
  Returned data None.

Definition migrateToV8 (data : doc) : outcome :=
  let data := setIfAbsent "ecr_trusted_accounts" (VList []) data in
  Returned data None.

(** The body of the loop in the helper closure [addDefaultECRConfig] of
    [migrateV8ToV9]: the item after the iteration and the increment of
    [count]. *)
Definition ensureECRConfig (itemRaw : value) : value * Z :=
  match itemRaw with
  | VMap itemMap =>
      match itemMap !! KStr "ecr_config" with
      | None =>
          (VMap (<[KStr "ecr_config" :=
                     VStrMap {["mode" := VStr "create_ecr"]}]> itemMap), 1)
      | Some _ => (itemRaw, 0)
      end
  | _ => (itemRaw, 0)
  end.

(** The helper closure itself: the items after the loop and [count]. *)
Fixpoint addDefaultECRConfig (items : list value) : list value * Z :=
  match items with
  | [] => ([], 0)
  | itemRaw :: rest =>
      let (item', added) := ensureECRConfig itemRaw in
      let (rest', count) := addDefaultECRConfig rest in
      (item' :: rest', added + count)
  end.

(** One of the three blocks
    [if raw, exists := data[k]; exists { if items, ok := raw.([]interface{}); ok {...} }]:
    the document and the block's [count]. *)
Definition migrateECRList (k : string) (data : doc) : doc * Z :=
  match data !! k with
  | Some (VList items) =>
      let (items', count) := addDefaultECRConfig items in
      (<[k := VList items']> data, count)
  | _ => (data, 0)
  end.

(** Registered for target version 10 (the name is the source's). *)
Definition migrateV8ToV9 (data : doc) : outcome :=
  let totalMigrated := 0 in
  let (data, count) := migrateECRList "services" data in
  let totalMigrated := totalMigrated + count in
  let (data, count) := migrateECRList "event_processor_tasks" data in
  let totalMigrated := totalMigrated + count in
  let (data, count) := migrateECRList "scheduled_tasks" data in
  let totalMigrated := totalMigrated + count in
  Returned data None.

(** Go strings are byte strings: [len] counts bytes and [s[i:j]] cuts bytes,
    as [String.length] and [substring] do. *)
Definition slice_from (s : string) (i : nat) : string :=
  String.substring i (String.length s - i) s.

Definition slice_to (s : string) (j : nat) : string :=
  String.substring 0 j s.

(** The prefix computation in the body of [migrateToV9]'s loop, for a
    non-empty [customDomain] and [domainName]. *)
Definition subdomainPrefix (customDomain domainName env : string)
    (addEnvPrefix : bool) : string :=
  let prefix := customDomain in
  let prefix :=
    if (String.length domainName <? String.length customDomain)%nat &&
       String.eqb
         (slice_from customDomain
            (String.length customDomain - String.length domainName))
         domainName
    then slice_to customDomain
           (String.length customDomain - String.length domainName - 1)
    else prefix in
  if addEnvPrefix && negb (String.eqb env "") && negb (String.eqb env "prod")
  then
    let envPrefix := env +:+ "." in
    if (String.length envPrefix <? String.length prefix)%nat &&
       String.eqb
         (slice_from prefix (String.length prefix - String.length envPrefix))
         envPrefix
    then slice_to prefix (String.length prefix - String.length envPrefix - 1)
    else prefix
  else prefix.

(** The body of [migrateToV9]'s loop for one element of [amplify_apps]: the
    element after the iteration and whether [migrationCount] was bumped. *)
Definition migrateAmplifyApp (domainName env : string) (addEnvPrefix : bool)
    (appRaw : value) : value * Z :=
  match appRaw with
  | VMap appMap =>
      let (customDomain, hasCustomDomain) :=
        match appMap !! KStr "custom_domain" with
        | Some (VStr s) => (s, true)
        | _ => (""%string, false)
        end in
      let hasEnableRoot := bool_decide (is_Some (appMap !! KStr "enable_root_domain")) in
      if negb hasCustomDomain && negb hasEnableRoot then (appRaw, 0)
      else
        let appMap :=
          if hasEnableRoot then delete (KStr "enable_root_domain") appMap
          else appMap in
        if negb (String.eqb customDomain "") && negb (String.eqb domainName "")
        then
          let prefix := subdomainPrefix customDomain domainName env addEnvPrefix in
          let appMap :=
            if negb (String.eqb prefix "")
            then <[KStr "subdomain_prefix" := VStr prefix]> appMap
            else appMap in
          let appMap := delete (KStr "custom_domain") appMap in
          (VMap appMap, 1)
        else (VMap appMap, 0)
  | _ => (appRaw, 0)
  end.

Fixpoint migrateAmplifyApps (domainName env : string) (addEnvPrefix : bool)
    (amplifyApps : list value) : list value * Z :=
  match amplifyApps with
  | [] => ([], 0)
  | appRaw :: rest =>
      let (app', n) := migrateAmplifyApp domainName env addEnvPrefix appRaw in
      let (rest', migrationCount) :=
        migrateAmplifyApps domainName env addEnvPrefix rest in
      (app' :: rest', n + migrationCount)
  end.

Definition migrateToV9 (data : doc) : outcome :=
  match data !! "amplify_apps" with
  | None => Returned data None
  | Some VNil => Returned data None
  | Some (VList amplifyApps) =>
      let domainName :=
        match data !! "domain" with
        | Some (VMap domainMap) =>
            match domainMap !! KStr "domain_name" with
            | Some (VStr dn) => dn
            | _ => ""%string
            end
        | _ => ""%string
        end in
      let addEnvPrefix :=
        match data !! "domain" with
        | Some (VMap domainMap) =>
            match domainMap !! KStr "add_env_domain_prefix" with
            | Some (VBool aep) => aep
            | _ => false
            end
        | _ => false
        end in
      let env :=
        match data !! "env" with
        | Some (VStr e) => e
        | _ => ""%string
        end in
      let (amplifyApps', migrationCount) :=
        migrateAmplifyApps domainName env addEnvPrefix amplifyApps in
      Returned (<["amplify_apps" := VList amplifyApps']> data) None
  | Some _ => Returned data None
  end.

(** The body of [migrateToV11]'s loop for one service: the service after the
    iteration and whether [fixedCount] was bumped; [None] when the
    comparison [hostPort != containerPort] panics. *)
Definition fixHostPort (serviceRaw : value) : option (value * Z) :=
  match serviceRaw with
  | VMap serviceMap =>
      match serviceMap !! KStr "container_port" with
      | None => Some (serviceRaw, 0)
      | Some containerPort =>
          match serviceMap !! KStr "host_port" with
          | None =>
              Some (VMap (<[KStr "host_port" := containerPort]> serviceMap), 1)
          | Some hostPort =>
              match iface_eq hostPort containerPort with
              | None => None
              | Some true => Some (serviceRaw, 0)
              | Some false =>
                  Some (VMap (<[KStr "host_port" := containerPort]> serviceMap), 1)
              end
          end
      end
  | _ => Some (serviceRaw, 0)
  end.

(** The loop of [migrateToV11]: the services after it and [fixedCount]. *)
Fixpoint fixHostPorts (services : list value) : option (list value * Z) :=
  match services with
  | [] => Some ([], 0)
  | serviceRaw :: rest =>
      match fixHostPort serviceRaw with
      | None => None
      | Some (service', n) =>
          match fixHostPorts rest with
          | None => None
          | Some (rest', fixedCount) => Some (service' :: rest', n + fixedCount)
          end
      end
  end.

(** [fixedCount] as [migrateToV11] reports it in its closing line; [None]
    when the step returns before the loop or panics in it. *)
Definition migrateToV11_fixedCount (data : doc) : option Z :=
  match data !! "services" with
  | Some (VList services) => snd <$> fixHostPorts services
  | _ => None
  end.

Definition migrateToV11 (data : doc) : outcome :=
  match data !! "services" with
  | None => Returned data None
  | Some VNil => Returned data None
  | Some (VList services) =>
      match fixHostPorts services with
      | None => Panicked
      | Some (services', fixedCount) =>
          Returned (<["services" := VList services']> data) None
      end
  | Some _ => Returned data None
  end.

(** The default table of [migrateToV12].  The source ranges over a Go map,
    whose order is unspecified; the keys are distinct and each is written
    only when absent, so the order does not show in the result. *)
Definition booleanDefaults : list (string * value) :=
  [ ("multi_az", VBool false);
    ("storage_encrypted", VBool true);
    ("deletion_protection", VBool false);
    ("skip_final_snapshot", VBool true);
    ("iam_database_authentication_enabled", VBool false) ].

Definition addBooleanDefaults (defaults : list (string * value))
    (postgres : gmap key value) : gmap key value :=
  foldl (fun postgres fd => setIfAbsent (KStr fd.1) fd.2 postgres)
        postgres defaults.

Definition migrateToV12 (data : doc) : outcome :=
  match data !! "postgres" with
  | None => Returned data None
  | Some VNil => Returned data None
  | Some (VMap postgres) =>
      Returned
        (<["postgres" := VMap (addBooleanDefaults booleanDefaults postgres)]> data)
        None
  | Some _ => Returned data None
  end.

Definition AllMigrations : list Migration :=
  [ {| Version := 2;
       Description := "Add Aurora Serverless v2 support and ALB configuration";
       Apply := migrateToV2 |};
    {| Version := 3;
       Description := "Add DNS management fields";
       Apply := migrateToV3 |};
    {| Version := 4;
       Description := "Add backend scaling configuration";
       Apply := migrateToV4 |};
    {| Version := 5;
       Description := "Add Account ID and AWS Profile fields";
       Apply := migrateToV5 |};
    {| Version := 6;
       Description := "Add custom VPC configuration";
       Apply := migrateToV6 |};
    {| Version := 7;
       Description := "Add ECR strategy configuration";
       Apply := migrateToV7 |};
    {| Version := 8;
       Description := "Add ECR trusted accounts for cross-account access";
       Apply := migrateToV8 |};
    {| Version := 9;
       Description := "Simplify Amplify domain configuration";
       Apply := migrateToV9 |};
    {| Version := 10;
       Description := "Add per-service ECR configuration";
       Apply := migrateV8ToV9 |};
    {| Version := 11;
       Description := "Ensure host_port matches container_port for services (awsvpc compatibility)";
       Apply := migrateToV11 |};
    {| Version := 12;
       Description := "Ensure all postgres boolean fields have explicit default values";
       Apply := migrateToV12 |} ].

(** ** The migration runner *)

(** [fmt.Errorf("migration to v%d failed: %w", version, err)] *)
Definition stepError (version : Z) (err : string) : string :=
  "migration to v" +:+ pretty version +:+ " failed: " +:+ err.

(** The [for _, migration := range ...] loop of [applyMigrations] over the
    remaining steps. *)
Fixpoint runMigrations (steps : list Migration) (data : doc)
    (currentVersion : Z) : outcome :=
  match steps with
  | [] => Returned data None
  | migration :: rest =>
      if currentVersion <? Version migration then
        match Apply migration data with
        | Returned data' None => runMigrations rest data' currentVersion
        | Returned data' (Some err) =>
            Returned data' (Some (stepError (Version migration) err))
        | Panicked => Panicked
        end
      else runMigrations rest data currentVersion
  end.

(** [applyMigrations] with the package-level registry made a parameter. *)
Definition applyMigrationsWith (registry : list Migration) (data : doc)
    (currentVersion : Z) : outcome :=
  if CurrentSchemaVersion <=? currentVersion then Returned data None
  else
    match runMigrations registry data currentVersion with
    | Returned data' None =>
        Returned (<["schema_version" := VInt CurrentSchemaVersion]> data') None
    | other => other
    end.

Definition applyMigrations (data : doc) (currentVersion : Z) : outcome :=
  applyMigrationsWith AllMigrations data currentVersion.

(** The detect-then-migrate pipeline that both [loadEnvWithMigration] and
    [MigrateYAMLFile] run on the decoded document. *)
Definition migrate (data : doc) : outcome :=
  applyMigrations data (detectSchemaVersion data).

(** ** The document loader *)

Definition bytes := list Byte.byte.

(** Result of a call that returns [(A, error)] and whose value is only used
    when the error is nil. *)
Inductive res (A : Type) :=
  | Ok (a : A)
  | Err (msg : string).
Arguments Ok {A} a.
Arguments Err {A} msg.

(** The collaborators of the loader that live outside [migrations.go]: the
    file system behind package [os], the YAML codec, and
    [CreateProjectBackup], which is declared elsewhere in the package.
    [FS] is the state of the file system, [Env] the typed configuration. *)
Class Host := {
  FS : Type;
  Env : Type;
  zeroEnv : Env;
  os_ReadFile : FS -> string -> res bytes;
  os_WriteFile : FS -> string -> bytes -> FS * error;
  CreateProjectBackup : FS -> string -> FS * res string;
  yaml_Unmarshal_map : bytes -> res doc;
  yaml_Unmarshal_Env : bytes -> Env * error;
  yaml_Marshal : doc -> res bytes
}.

(** What a call of the loader leaves behind: the file system, the returned
    [Env] and error; or a panic raised by a migration step. *)
Inductive loaded `{Host} :=
  | Loaded (w : FS) (e : Env) (err : error)
  | LoadPanicked (w : FS).

Definition possiblePaths (name : string) : list string :=
  [ name +:+ ".yaml";
    "project/" +:+ name +:+ ".yaml";
    "../../project/" +:+ name +:+ ".yaml";
    "../" +:+ name +:+ ".yaml" ].

(** [%v] of an [error] *)
Definition fmt_error (err : error) : string :=
  match err with
  | Some msg => msg
  | None => "<nil>"
  end.

Section Loader.
Context `{Host}.

(** The resolution loop: the first readable candidate with its bytes, or
    the error of the last attempt. *)
Fixpoint readFirst (w : FS) (paths : list string) (lastErr : error)
    : (string * bytes) + error :=
  match paths with
  | [] => inr lastErr
  | path :: rest =>
      match os_ReadFile w path with
      | Err err => readFirst w rest (Some err)
      | Ok data => inl (path, data)
      end
  end.

(** [backupFile]: the backup path is only printed. *)
Definition backupFile (w : FS) (filepath : string) : FS * error :=
  match CreateProjectBackup w filepath with
  | (w', Err err) => (w', Some ("failed to create backup: " +:+ err))
  | (w', Ok backupPath) => (w', None)
  end.

(** The closing [yaml.Unmarshal(data, &e)] of the loader. *)
Definition decodeEnv (w : FS) (data : bytes) : loaded :=
  match yaml_Unmarshal_Env data with
  | (e, Some err) =>
      Loaded w e (Some ("error unmarshaling YAML to Env struct: " +:+ err))
  | (e, None) => Loaded w e None
  end.

(** [loadEnvWithMigration] with the package-level registry made a
    parameter. *)
Definition loadEnvWithMigrationWith (registry : list Migration) (w : FS)
    (name : string) : loaded :=
  match readFirst w (possiblePaths name) None with
  | inr lastErr =>
      Loaded w zeroEnv
        (Some ("error reading YAML file from any location: " +:+ fmt_error lastErr))
  | inl (yamlPath, data) =>
      match yaml_Unmarshal_map data with
      | Err err => Loaded w zeroEnv (Some ("error unmarshaling YAML: " +:+ err))
      | Ok dataMap =>
          let currentVersion := detectSchemaVersion dataMap in
          if currentVersion <? CurrentSchemaVersion then
            match backupFile w yamlPath with
            | (w1, Some err) =>
                Loaded w1 zeroEnv (Some ("failed to create backup: " +:+ err))
            | (w1, None) =>
                match applyMigrationsWith registry dataMap currentVersion with
                | Panicked => LoadPanicked w1
                | Returned _ (Some err) =>
                    Loaded w1 zeroEnv (Some ("migration failed: " +:+ err))
                | Returned dataMap' None =>
                    match yaml_Marshal dataMap' with
                    | Err err =>
                        Loaded w1 zeroEnv
                          (Some ("error marshaling migrated data: " +:+ err))
                    | Ok migratedData =>
                        match os_WriteFile w1 yamlPath migratedData with
                        | (w2, Some err) =>
                            Loaded w2 zeroEnv
                              (Some ("error writing migrated file: " +:+ err))
                        | (w2, None) => decodeEnv w2 migratedData
                        end
                    end
                end
            end
          else decodeEnv w data
      end
  end.

Definition loadEnvWithMigration (w : FS) (name : string) : loaded :=
  loadEnvWithMigrationWith AllMigrations w name.
End Loader.

(** ** Vocabulary of the properties *)

(** One step down into a value: a key of a YAML mapping, an index of a
    sequence, or a key of a [map[string]interface{}]. *)
Inductive sel :=
  | Key (k : key)
  | Idx (i : nat)
  | Fld (s : string).

(** Follow the selectors of [p] down from [v]; [None] when a selector does
    not fit the shape it meets or the entry is missing. *)
Fixpoint get_in (p : list sel) (v : value) : option value :=
  match p with
  | [] => Some v
  | s :: p' =>
      match s, v with
      | Key k, VMap m => m !! k ≫= get_in p'
      | Idx i, VList l => l !! i ≫= get_in p'
      | Fld f, VStrMap m => m !! f ≫= get_in p'
      | _, _ => None
      end
  end.

(** The value found under top-level key [k] and then along [p]. *)
Definition field (data : doc) (k : string) (p : list sel) : option value :=
  data !! k ≫= get_in p.

(** A structural marker: [sub] is a YAML mapping that has key [f]. *)
Definition marker (data : doc) (sub f : string) : Prop :=
  ∃ m, data !! sub = Some (VMap m) ∧ is_Some (m !! KStr f).

(** The top-level keys a step may write or delete, by target version. *)
Definition touched (version : Z) : list string :=
  match version with
  | 2 => ["postgres"; "alb"]
  | 3 => ["domain"]
  | 4 => ["workload"]
  | 5 => ["account_id"; "aws_profile"]
  | 6 => ["use_default_vpc"; "vpc_cidr"; "az_count";
          "create_private_subnets"; "enable_nat_gateway"]
  | 7 => ["ecr_strategy"; "ecr_account_id"; "ecr_account_region"]
  | 8 => ["ecr_trusted_accounts"]
  | 9 => ["amplify_apps"]
  | 10 => ["services"; "event_processor_tasks"; "scheduled_tasks"]
  | 11 => ["services"]
  | 12 => ["postgres"]
  | _ => []
  end.

(** The three networking keys that the step for version 6 deletes. *)
Definition deprecatedKeys : list string :=
  ["az_count"; "create_private_subnets"; "enable_nat_gateway"].

(** The registered steps whose target version is above [v]. *)
Definition stepsAfter (v : Z) : list Migration :=
  List.filter (fun m => v <? Version m) AllMigrations.

(** [d] carries [use_default_vpc] (the value [data] had, or [true] when
    [data] had none) and none of the deprecated keys. *)
Definition vpcCleaned (data d : doc) : Prop :=
  d !! "use_default_vpc" = Some (default (VBool true) (data !! "use_default_vpc")) ∧
  ∀ k, k ∈ deprecatedKeys → d !! k = None.

(** The comparison [hostPort != containerPort] of [migrateToV11] does not
    panic on this service. *)
Definition comparablePorts (serviceRaw : value) : bool :=
  match serviceRaw with
  | VMap serviceMap =>
      match serviceMap !! KStr "container_port", serviceMap !! KStr "host_port" with
      | Some containerPort, Some hostPort =>
          bool_decide (is_Some (iface_eq hostPort containerPort))
      | _, _ => true
      end
  | _ => true
  end.

(** No element of [services] makes that comparison panic. *)
Definition servicesComparable (data : doc) : bool :=
  match data !! "services" with
  | Some (VList services) => forallb comparablePorts services
  | _ => true
  end.

(** A YAML sequence or mapping, the two shapes a step may look into. *)
Definition isContainer (v : value) : bool :=
  match v with
  | VList _ | VMap _ => true
  | _ => false
  end.

(** The empty path: the value under the top-level key itself. *)
Definition isRoot (p : list sel) : bool :=
  match p with
  | [] => true
  | _ => false
  end.

(** The string key a path starts with, if it starts with one. *)
Definition headKey (p : list sel) : option string :=
  match p with
  | Key (KStr f) :: _ => Some f
  | _ => None
  end.

(** The string key of a path that is exactly one key long. *)
Definition leafKey (p : list sel) : option string :=
  match p with
  | [Key (KStr f)] => Some f
  | _ => None
  end.

(** Membership of a name in a list of names, as a boolean. *)
Definition inList (s : string) (l : list string) : bool :=
  existsb (String.eqb s) l.

(** The places a default-adding step looks into in order to write below
    them, by target version: the mapping it extends, or the list and the
    list items it extends. *)
Definition descends (version : Z) (k : string) (p : list sel) : bool :=
  match version with
  | 2 | 12 => String.eqb k "postgres" && isRoot p
  | 3 => String.eqb k "domain" && isRoot p
  | 4 => String.eqb k "workload" && isRoot p
  | 10 =>
      inList k ["services"; "event_processor_tasks"; "scheduled_tasks"] &&
      match p with
      | [] | [Idx _] => true
      | _ => false
      end
  | _ => false
  end.

(** The values a step replaces or removes on purpose, by target version:
    version 4 repairs an integer zero in the three count fields of
    [workload] and an empty string in its CPU and memory fields; version 6
    repairs an empty [vpc_cidr] and deletes the deprecated keys. *)
Definition repairs (version : Z) (k : string) (p : list sel) (v : value) : bool :=
  match version with
  | 4 =>
      String.eqb k "workload" &&
      match leafKey p, v with
      | Some f, VInt n =>
          (n =? 0) &&
          inList f ["backend_desired_count"; "backend_autoscaling_min_capacity";
                    "backend_autoscaling_max_capacity"]
      | Some f, VStr s =>
          String.eqb s "" && inList f ["backend_cpu"; "backend_memory"]
      | _, _ => false
      end
  | 6 =>
      (String.eqb k "vpc_cidr" && isRoot p && eq_string v "") ||
      inList k deprecatedKeys
  | _ => false
  end.

(** The two capacity fields of a [postgres] mapping without [aurora], which
    the step for version 2 writes together with [aurora]. *)
Definition besideAurora (version : Z) (data : doc) (k : string)
    (p : list sel) : bool :=
  (version =? 2) && String.eqb k "postgres" &&
  match headKey p with
  | Some f => inList f ["min_capacity"; "max_capacity"]
  | None => false
  end &&
  match data !! "postgres" with
  | Some (VMap postgres) => bool_decide (postgres !! KStr "aurora" = None)
  | _ => false
  end.

(** [msg] contains [part] *)
Definition mentions (msg part : string) : bool :=
  bool_decide (is_Some (String.index 0 part msg)).

(** ** Sample documents and a sample host *)

(** A document with no version stamp whose only marker is the scaling field
    of [workload]; its [domain] is a scalar, its [postgres] is missing. *)
Definition doc_v4_markers : doc :=
  {[ "workload" := VMap {[ KStr "backend_desired_count" := VInt 2 ]};
     "domain" := VStr "example.com" ]}.

(** A [workload] whose desired count is the integer zero. *)
Definition doc_zero_count : doc :=
  {[ "workload" := VMap {[ KStr "backend_desired_count" := VInt 0 ]} ]}.

(** A [postgres] mapping with falsy values already set. *)
Definition doc_falsy_postgres : doc :=
  {[ "postgres" := VMap {[ KStr "storage_encrypted" := VBool false;
                           KStr "skip_final_snapshot" := VBool false;
                           KStr "engine_version" := VStr "" ]} ]}.

(** A document stamped 6 that still carries one deprecated key, and has
    chosen its own [use_default_vpc]. *)
Definition doc_stale_v6 : doc :=
  {[ "schema_version" := VInt 6;
     "use_default_vpc" := VBool false;
     "enable_nat_gateway" := VBool true;
     "env" := VStr "prod" ]}.

(** A document stamped 13, one version above the current one. *)
Definition doc_newer_version : doc := {[ "schema_version" := VInt 13 ]}.

(** Base domain [example.com], environment [dev] with the environment
    prefix switched on, and one Amplify app in the legacy format. *)
Definition doc_env_prefixed : doc :=
  {[ "domain" := VMap {[ KStr "domain_name" := VStr "example.com";
                         KStr "add_env_domain_prefix" := VBool true ]};
     "env" := VStr "dev";
     "amplify_apps" :=
       VList [ VMap {[ KStr "custom_domain" := VStr "app.dev.example.com" ]} ] ]}.

(** Base domain [example.com] and one Amplify app whose legacy domain does
    not end in it. *)
Definition doc_unrelated_domain : doc :=
  {[ "domain" := VMap {[ KStr "domain_name" := VStr "example.com" ]};
     "amplify_apps" :=
       VList [ VMap {[ KStr "custom_domain" := VStr "totallyunrelated.net" ]} ] ]}.

(** Three services: matching ports, a mismatched host port, no host port. *)
Definition svc_api : gmap key value :=
  {[ KStr "name" := VStr "api";
     KStr "container_port" := VInt 8080;
     KStr "host_port" := VInt 8080 ]}.

Definition svc_web : gmap key value :=
  {[ KStr "name" := VStr "web";
     KStr "container_port" := VInt 3000;
     KStr "host_port" := VInt 80 ]}.

Definition svc_worker : gmap key value :=
  {[ KStr "name" := VStr "worker";
     KStr "container_port" := VInt 9000 ]}.

Definition doc_three_services : doc :=
  {[ "services" := VList [VMap svc_api; VMap svc_web; VMap svc_worker] ]}.

(** One service whose two ports are both YAML sequences. *)
Definition doc_uncomparable_ports : doc :=
  {[ "services" :=
       VList [ VMap {[ KStr "container_port" := VList [VInt 80];
                       KStr "host_port" := VList [VInt 80] ]} ] ]}.

(** A step for version 2 that fails, for a registry other than the
    package's own. *)
Definition failingStep : Migration :=
  {| Version := 2;
     Description := "always fails";
     Apply := fun data => Returned data (Some "boom"%string) |}.

(** A host for the examples: the file system is a finite map from paths to
    contents, a missing file gives the error text of package [os], every
    file decodes to the empty document, and the backup copies the file to
    [<path>.backup]. *)
Definition mapHost : Host := {|
  FS := gmap string bytes;
  Env := unit;
  zeroEnv := tt;
  os_ReadFile := fun w path =>
    match w !! path with
    | Some data => Ok data
    | None => Err ("open " +:+ path +:+ ": no such file or directory")
    end;
  os_WriteFile := fun w path data => (<[path := data]> w, None);
  CreateProjectBackup := fun w path =>
    match w !! path with
    | Some data => (<[path +:+ ".backup" := data]> w, Ok (path +:+ ".backup"))
    | None => (w, Err ("open " +:+ path +:+ ": no such file or directory"))
    end;
  yaml_Unmarshal_map := fun _ => Ok ∅;
  yaml_Unmarshal_Env := fun _ => (tt, None);
  yaml_Marshal := fun _ => Ok []
|}.

(** ** Proof tactics *)

(** Case analysis on membership in the registry. *)
Ltac registry_cases Hm :=
  unfold AllMigrations in Hm;
  repeat (apply elem_of_cons in Hm as [-> | Hm]);
  [ .. | by apply elem_of_nil in Hm ]; simpl in *.

(** Turn [k ∉ [k1; ...; kn]] into the disequalities [k ≠ k1], ... *)
Ltac split_notin H :=
  simpl in H; repeat (apply not_elem_of_cons in H as [? H]); clear H.

(** ** Further vocabulary *)

(** Every top-level key that some step or the runner may write or delete. *)
Definition managedKeys : list string :=
  "schema_version" ::
  touched 2 ++ touched 3 ++ touched 4 ++ touched 5 ++ touched 6 ++ touched 7 ++
  touched 8 ++ touched 9 ++ touched 10 ++ touched 11 ++ touched 12.

(** A document with keys of its own next to the ones the steps manage. *)
Definition doc_with_project : doc :=
  {[ "project" := VStr "shop";
     "region" := VStr "eu-central-1";
     "az_count" := VInt 3;
     "services" := VList [VMap svc_web] ]}.

(** A document whose stamp is a string, not an integer. *)
Definition doc_string_stamp : doc :=
  {[ "schema_version" := VStr "12"; "account_id" := VStr "123456789012" ]}.

(** A document stamped 8 that still carries a deprecated key. *)
Definition doc_stale_v8 : doc :=
  {[ "schema_version" := VInt 8; "az_count" := VInt 3 ]}.

(** The seven fields that the step for version 3 adds to every [domain]
    mapping, with their defaults. *)
Definition dnsDefaults : list (string * value) :=
  [ ("root_zone_id", VStr "");
    ("root_account_id", VStr "");
    ("is_dns_root", VBool false);
    ("dns_root_account_id", VStr "");
    ("delegation_role_arn", VStr "");
    ("api_domain_prefix", VStr "");
    ("add_env_domain_prefix", VBool false) ].

(** The three lists whose items the step for version 10 completes. *)
Definition ecrLists : list string :=
  ["services"; "event_processor_tasks"; "scheduled_tasks"].

(** An existing zone: [create_domain_zone] is the boolean false. *)
Definition doc_existing_zone : doc :=
  {[ "domain" := VMap {[ KStr "domain_name" := VStr "example.com";
                         KStr "create_domain_zone" := VBool false;
                         KStr "is_dns_root" := VBool true ]} ]}.


(** A task list with a mapping that lacks [ecr_config], one that has it,
    and an item that is not a mapping. *)
Definition mixed_tasks : list value :=
  [ VMap {[ KStr "name" := VStr "nightly" ]};
    VMap {[ KStr "name" := VStr "hourly"; KStr "ecr_config" := VStr "custom" ]};
    VStr "not a mapping" ].

Definition doc_mixed_tasks : doc :=
  {[ "scheduled_tasks" := VList mixed_tasks ]}.

(** An Amplify app in the legacy format, on a base domain without
    environment prefix. *)
Definition doc_plain_amplify : doc :=
  {[ "domain" := VMap {[ KStr "domain_name" := VStr "sava-p.com" ]};
     "amplify_apps" :=
       VList [ VMap {[ KStr "custom_domain" := VStr "app.sava-p.com";
                       KStr "enable_root_domain" := VBool true ]} ] ]}.

(** The same app in a document without a base domain. *)
Definition doc_no_base_domain : doc :=
  {[ "amplify_apps" :=
       VList [ VMap {[ KStr "custom_domain" := VStr "app.sava-p.com";
                       KStr "enable_root_domain" := VBool true ]} ] ]}.

(** The local [createDomainZone] of [migrateToV3]: true unless
    [create_domain_zone] holds a boolean, which is then taken. *)
Definition createDomainZone (domain : gmap key value) : bool :=
  match domain !! KStr "create_domain_zone" with
  | Some (VBool boolVal) => boolVal
  | _ => true
  end.


(** The default that the step for version 10 gives an item without one. *)
Definition defaultECRConfig : value :=
  VStrMap {["mode" := VStr "create_ecr"]}.

(** What the step for version 10 makes of one list item. *)
Definition ecrCompleted (item item' : value) : Prop :=
  match item with
  | VMap m =>
      ∃ m', item' = VMap m' ∧
        m' !! KStr "ecr_config"
          = Some (default defaultECRConfig (m !! KStr "ecr_config")) ∧
        ∀ kk, kk ≠ KStr "ecr_config" → m' !! kk = m !! kk
  | _ => item' = item
  end.

(** What the step for version 11 makes of one service: nothing when it is
    not a mapping or has no [container_port]; otherwise only [host_port] may
    change, and it ends up identical to [container_port] or is the old
    value, which compared equal to it. *)
Definition portsSynced (s s' : value) : Prop :=
  match s with
  | VMap m =>
      ∃ m', s' = VMap m' ∧
        (∀ kk, kk ≠ KStr "host_port" → m' !! kk = m !! kk) ∧
        match m !! KStr "container_port" with
        | None => m' = m
        | Some c =>
            ∃ h, m' !! KStr "host_port" = Some h ∧
              (h = c ∨ (m !! KStr "host_port" = Some h ∧
                        iface_eq h c = Some true))
        end
  | _ => s' = s
  end.

(** The local [domainName] of [migrateToV9]: [domain.domain_name] when it is
    a string, empty otherwise. *)
Definition baseDomain (data : doc) : string :=
  match data !! "domain" with
  | Some (VMap domainMap) =>
      match domainMap !! KStr "domain_name" with
      | Some (VStr dn) => dn
      | _ => ""%string
      end
  | _ => ""%string
  end.

(** The guard of the environment-prefix branch of [migrateToV9]:
    [domain.add_env_domain_prefix] is the boolean true and [env] is a string
    other than the empty one and [prod]. *)
Definition envPrefixOn (data : doc) : bool :=
  match data !! "domain" with
  | Some (VMap domainMap) =>
      match domainMap !! KStr "add_env_domain_prefix" with
      | Some (VBool aep) => aep
      | _ => false
      end
  | _ => false
  end &&
  match data !! "env" with
  | Some (VStr e) => negb (String.eqb e "") && negb (String.eqb e "prod")
  | _ => false
  end.

(** What the step for version 9 makes of one app, whatever the domain. *)
Definition appSimplified (dn : string) (app app' : value) : Prop :=
  match app with
  | VMap m =>
      ∃ m', app' = VMap m' ∧
        m' !! KStr "enable_root_domain" = None ∧
        (∀ kk, kk ≠ KStr "custom_domain" → kk ≠ KStr "enable_root_domain" →
               kk ≠ KStr "subdomain_prefix" → m' !! kk = m !! kk) ∧
        (dn = ""%string →
           m' !! KStr "custom_domain" = m !! KStr "custom_domain" ∧
           m' !! KStr "subdomain_prefix" = m !! KStr "subdomain_prefix")
  | _ => app' = app
  end.

(** A sequence of in-place updates of one map, each tagged with the key it
    is about. *)
Definition runOps `{Countable K}
    (ops : list (K * (gmap K value → gmap K value))) (m : gmap K value)
    : gmap K value :=
  foldl (fun m op => op.2 m) m ops.

(** The update [f] only writes key [k], and it leaves alone every map that
    already holds under [k] what [f] would put there. *)
Definition settles `{Countable K} (k : K)
    (f : gmap K value → gmap K value) : Prop :=
  (∀ m k', k' ≠ k → f m !! k' = m !! k') ∧
  (∀ m m', m' !! k = f m !! k → f m' = m').

(** A value that Go can compare with [==] against a value of its own type. *)
Definition isScalar (v : value) : bool :=
  match v with
  | VList _ | VMap _ | VStrMap _ => false
  | _ => true
  end.

(** Every service that is a mapping has a scalar [container_port], if it
    has one at all. *)
Definition scalarPort (serviceRaw : value) : bool :=
  match serviceRaw with
  | VMap serviceMap =>
      match serviceMap !! KStr "container_port" with
      | Some containerPort => isScalar containerPort
      | None => true
      end
  | _ => true
  end.

Definition scalarPorts (data : doc) : bool :=
  match data !! "services" with
  | Some (VList services) => forallb scalarPort services
  | _ => true
  end.

(** Split [Forall P [x1; ...; xn]] into the goals [P x1], ..., [P xn]. *)
Ltac split_ops :=
  repeat (apply Forall_cons_2; [simpl|]); [..|apply Forall_nil_2].

(** A service list whose ports are integers: a mismatch and a missing host
    port. *)
Definition doc_int_ports : doc :=
  {[ "services" := VList [VMap svc_web; VMap svc_worker; VStr "n/a"] ]}.

(** ** The migrate commands *)

(** What [MigrateYAMLFile] and [MigrateAllYAMLFiles] leave behind: the file
    system and the returned error, or a panic raised by a step. *)
Inductive ran `{Host} :=
  | Ran (w : FS) (err : error)
  | RanPanicked (w : FS).

Definition ranFS `{Host} (r : ran) : FS :=
  match r with
  | Ran w _ => w
  | RanPanicked w => w
  end.

Definition loadedFS `{Host} (r : loaded) : FS :=
  match r with
  | Loaded w _ _ => w
  | LoadPanicked w => w
  end.

Section Commands.
Context `{Host}.

Definition MigrateYAMLFile (w : FS) (filepath : string) : ran :=
  match os_ReadFile w filepath with
  | Err err => Ran w (Some ("failed to read file: " +:+ err))
  | Ok data =>
      match yaml_Unmarshal_map data with
      | Err err => Ran w (Some ("error unmarshaling YAML: " +:+ err))
      | Ok dataMap =>
          let currentVersion := detectSchemaVersion dataMap in
          if CurrentSchemaVersion <=? currentVersion then Ran w None
          else
            match backupFile w filepath with
            | (w1, Some err) =>
                Ran w1 (Some ("failed to create backup: " +:+ err))
            | (w1, None) =>
                match applyMigrations dataMap currentVersion with
                | Panicked => RanPanicked w1
                | Returned _ (Some err) =>
                    Ran w1 (Some ("migration failed: " +:+ err))
                | Returned dataMap' None =>
                    match yaml_Marshal dataMap' with
                    | Err err =>
                        Ran w1 (Some ("error marshaling migrated data: " +:+ err))
                    | Ok migratedData =>
                        match os_WriteFile w1 filepath migratedData with
                        | (w2, Some err) =>
                            Ran w2 (Some ("error writing migrated file: " +:+ err))
                        | (w2, None) => Ran w2 None
                        end
                    end
                end
            end
      end
  end.

(** The loop of [MigrateAllYAMLFiles]: a file that fails is reported on the
    console and the loop goes on. *)
Fixpoint migrateFiles (w : FS) (files : list string) : ran :=
  match files with
  | [] => Ran w None
  | file :: rest =>
      match MigrateYAMLFile w file with
      | Ran w' _ => migrateFiles w' rest
      | RanPanicked w' => RanPanicked w'
      end
  end.
End Commands.

(** [filepath.Join(dir, name)] for a one-element directory and a file name:
    joining with ["."] gives the bare name. *)
Definition filepath_Join (dir name : string) : string :=
  if String.eqb dir "." then name else dir +:+ "/" +:+ name.

(** A host that can also tell whether a path is missing ([os.Stat] followed
    by [os.IsNotExist]) and expand a glob pattern ([filepath.Glob]). *)
Class BatchHost := {
  batch_host :: Host;
  os_Stat_notExist : FS -> string -> bool;
  filepath_Glob : FS -> string -> res (list string)
}.

Definition MigrateAllYAMLFiles `{BatchHost} (w : FS) : ran :=
  let projectDir :=
    if os_Stat_notExist w "project" then "."%string else "project"%string in
  match filepath_Glob w (filepath_Join projectDir "*.yaml") with
  | Err err => Ran w (Some ("failed to find YAML files: " +:+ err))
  | Ok files =>
      match files with
      | [] => Ran w None
      | _ => migrateFiles w files
      end
  end.

(** A host for the examples whose codec knows two documents: empty bytes
    decode to the empty document, anything else to a document stamped 12;
    every document encodes to one byte; the typed configuration is the
    number of bytes decoded. *)
Definition stampHost : Host := {|
  FS := gmap string bytes;
  Env := nat;
  zeroEnv := 0%nat;
  os_ReadFile := fun w path =>
    match w !! path with
    | Some data => Ok data
    | None => Err ("open " +:+ path +:+ ": no such file or directory")
    end;
  os_WriteFile := fun w path data => (<[path := data]> w, None);
  CreateProjectBackup := fun w path =>
    match w !! path with
    | Some data => (<["backup/" +:+ path := data]> w, Ok ("backup/" +:+ path))
    | None => (w, Err ("open " +:+ path +:+ ": no such file or directory"))
    end;
  yaml_Unmarshal_map := fun raw =>
    match raw with
    | [] => Ok ∅
    | _ => Ok {[ "schema_version" := VInt 12 ]}
    end;
  yaml_Unmarshal_Env := fun raw => (length raw, None);
  yaml_Marshal := fun _ => Ok [Byte.x01]
|}.

(** The same host with a [project] directory that is missing and a glob
    that lists two files of which only the first exists. *)
Definition stampBatchHost : BatchHost := {|
  batch_host := stampHost;
  os_Stat_notExist := fun _ _ => true;
  filepath_Glob := fun _ _ => Ok ["dev.yaml"; "prod.yaml"]
|}.

(** A host on which files can be read but no backup can be taken. *)
Definition noBackupHost : Host := {|
  FS := gmap string bytes;
  Env := nat;
  zeroEnv := 0%nat;
  os_ReadFile := fun w path =>
    match w !! path with
    | Some data => Ok data
    | None => Err ("open " +:+ path +:+ ": no such file or directory")
    end;
  os_WriteFile := fun w path data => (<[path := data]> w, None);
  CreateProjectBackup := fun w path => (w, Err "mkdir backup: permission denied");
  yaml_Unmarshal_map := fun _ => Ok ∅;
  yaml_Unmarshal_Env := fun raw => (length raw, None);
  yaml_Marshal := fun _ => Ok [Byte.x01]
|}.

(** Closes the three-part comparison of a loader result with a command
    result once both are in constructor form. *)
Ltac same_outcome :=
  split; [done|]; split;
  [ intros ? ? ?; by simplify_eq
  | intros ?; split; intros ?; by simplify_eq ].
(** * Properties *)

(** ** The map idioms *)

Section idioms.
Context `{Countable K}.
Implicit Types m : gmap K value.

Lemma lookup_setIfAbsent_Some m k k0 x y :
  m !! k = Some x → setIfAbsent k0 y m !! k = Some x.
Proof.
  intros Hk. unfold setIfAbsent. destruct (m !! k0) eqn:Hk0; [done|].
  rewrite lookup_insert_ne; [done|]. congruence.
Qed.

Lemma lookup_setIfAbsent_ne m k k0 y :
  k ≠ k0 → setIfAbsent k0 y m !! k = m !! k.
Proof.
  intros Hne. unfold setIfAbsent. destruct (m !! k0); [done|].
  by rewrite lookup_insert_ne.
Qed.

Lemma lookup_setIfAbsent_eq m k y :
  setIfAbsent k y m !! k = Some (default y (m !! k)).
Proof.
  unfold setIfAbsent. destruct (m !! k) eqn:Hk; simpl; [done|].
  apply lookup_insert_eq.
Qed.

Lemma lookup_deleteIfPresent_ne m k k0 :
  k ≠ k0 → deleteIfPresent k0 m !! k = m !! k.
Proof.
  intros Hne. unfold deleteIfPresent. destruct (m !! k0); [|done].
  by rewrite lookup_delete_ne.
Qed.

Lemma lookup_deleteIfPresent_eq m k : deleteIfPresent k m !! k = None.
Proof.
  unfold deleteIfPresent. destruct (m !! k) eqn:Hk; [|done].
  apply lookup_delete_eq.
Qed.
End idioms.

Lemma lookup_withMap_ne (data : doc) (k k0 : string) body :
  k ≠ k0 → withMap k0 body data !! k = data !! k.
Proof.
  intros Hne. unfold withMap. destruct (data !! k0) as [[]|]; try done.
  by rewrite lookup_insert_ne.
Qed.

Lemma lookup_fixZeroInt_Some (m : gmap key value) k k0 d x :
  m !! k = Some x → ¬ (k = k0 ∧ x = VInt 0) → fixZeroInt k0 d m !! k = Some x.
Proof.
  intros Hk Hex. unfold fixZeroInt.
  destruct (m !! k0) as [[| |[]| | | | |]|] eqn:Hk0; try done;
    (destruct (decide (k = k0)) as [->|];
      [ exfalso; apply Hex; split; congruence
      | by rewrite lookup_insert_ne ]).
Qed.

Lemma lookup_fixEmptyString_Some (m : gmap key value) k k0 d x :
  m !! k = Some x → ¬ (k = k0 ∧ x = VStr "") →
  fixEmptyString k0 d m !! k = Some x.
Proof.
  intros Hk Hex. unfold fixEmptyString.
  destruct (m !! k0) as [y|] eqn:Hk0.
  - destruct (eq_string y "") eqn:Hy; [|done].
    destruct (decide (k = k0)) as [->|]; [|by rewrite lookup_insert_ne].
    exfalso. apply Hex. split; [done|].
    destruct y; try done. simpl in Hy. apply String.eqb_eq in Hy. congruence.
  - destruct (decide (k = k0)) as [->|]; [congruence|].
    by rewrite lookup_insert_ne.
Qed.

(** ** The default table of version 12 in any order *)

Lemma setIfAbsent_comm `{Countable K} (m : gmap K value) (k1 k2 : K)
    (v1 v2 : value) :
  k1 ≠ k2 →
  setIfAbsent k1 v1 (setIfAbsent k2 v2 m) = setIfAbsent k2 v2 (setIfAbsent k1 v1 m).
Proof.
  intros Hne. unfold setIfAbsent.
  destruct (m !! k1) eqn:H1, (m !! k2) eqn:H2;
    rewrite ?lookup_insert_ne, ?H1, ?H2 by done; try done.
  by apply insert_insert_ne.
Qed.

(** Ranging over the table in another order gives the same mapping, so the
    unspecified iteration order of the Go map does not show. *)
Lemma addBooleanDefaults_order (defaults defaults' : list (string * value))
    (postgres : gmap key value) :
  NoDup defaults.*1 → defaults ≡ₚ defaults' →
  addBooleanDefaults defaults postgres = addBooleanDefaults defaults' postgres.
Proof.
  unfold addBooleanDefaults. intros Hnd Hperm. revert postgres Hnd.
  induction Hperm as [|fd l l' Hperm IH|fd1 fd2 l|l1 l2 l3 H12 IH12 H23 IH23];
    intros postgres Hnd.
  - done.
  - simpl. apply IH. by apply NoDup_cons in Hnd as [_ ?].
  - simpl. f_equal. apply setIfAbsent_comm.
    simpl in Hnd. apply NoDup_cons in Hnd as [Hnotin _].
    intros [= Heq]. apply Hnotin. rewrite Heq. apply list_elem_of_here.
  - rewrite IH12 by done. apply IH23.
    by rewrite <- H12.
Qed.

Lemma booleanDefaults_NoDup : NoDup booleanDefaults.*1.
Proof. apply (bool_decide_unpack _). by vm_compute. Qed.

(** ** What the steps return, and which top-level keys they leave alone *)

(** Every registered step except the one for version 11 returns nil on every
    document. *)
Lemma step_returns (m : Migration) (data : doc) :
  m ∈ AllMigrations → Version m ≠ 11 →
  ∃ data', Apply m data = Returned data' None.
Proof.
  intros Hm Hv. registry_cases Hm; try done.
  all: try (eexists; reflexivity).
  - unfold migrateToV9. repeat case_match; eauto.
  - unfold migrateV8ToV9. repeat case_match; eauto.
  - unfold migrateToV12. repeat case_match; eauto.
Qed.

(** The step for version 11 returns nil or panics. *)
Lemma migrateToV11_outcome (data : doc) :
  migrateToV11 data = Panicked ∨ ∃ data', migrateToV11 data = Returned data' None.
Proof. unfold migrateToV11. repeat case_match; eauto. Qed.

(** No registered step returns a non-nil error. *)
Lemma step_no_error (m : Migration) (data data' : doc) (err : error) :
  m ∈ AllMigrations → Apply m data = Returned data' err → err = None.
Proof.
  intros Hm Hr. destruct (decide (Version m = 11)) as [Hv|Hv].
  - registry_cases Hm; try done.
    destruct (migrateToV11_outcome data) as [Hp|[d Hd]]; congruence.
  - destruct (step_returns m data Hm Hv) as [d Hd]. congruence.
Qed.

Lemma lookup_migrateECRList_ne (data : doc) (k k0 : string) :
  k ≠ k0 → (migrateECRList k0 data).1 !! k = data !! k.
Proof.
  intros Hne. unfold migrateECRList.
  destruct (data !! k0) as [[]|]; try done.
  destruct (addDefaultECRConfig l). simpl. by rewrite lookup_insert_ne.
Qed.

(** A step leaves every top-level key outside its [touched] list as it
    found it. *)
Lemma step_frame (m : Migration) (data data' : doc) (err : error) (k : string) :
  m ∈ AllMigrations → Apply m data = Returned data' err →
  k ∉ touched (Version m) → data' !! k = data !! k.
Proof.
  intros Hm Hr Hk. registry_cases Hm; split_notin Hk.
  - unfold migrateToV2 in Hr. simplify_eq.
    by rewrite lookup_setIfAbsent_ne, lookup_withMap_ne.
  - unfold migrateToV3 in Hr. simplify_eq. by rewrite lookup_withMap_ne.
  - unfold migrateToV4 in Hr. simplify_eq. by rewrite lookup_withMap_ne.
  - unfold migrateToV5 in Hr. simplify_eq.
    by rewrite !lookup_setIfAbsent_ne.
  - unfold migrateToV6 in Hr. simplify_eq.
    rewrite !lookup_deleteIfPresent_ne by done.
    destruct (setIfAbsent _ _ _ !! "vpc_cidr") as [v|]; [destruct (eq_string v "")|];
      rewrite ?lookup_insert_ne by done; by rewrite lookup_setIfAbsent_ne.
  - unfold migrateToV7 in Hr. simplify_eq.
    rewrite !lookup_setIfAbsent_ne by done.
    repeat case_match; rewrite ?lookup_insert_ne by done; done.
  - unfold migrateToV8 in Hr. simplify_eq. by rewrite lookup_setIfAbsent_ne.
  - unfold migrateToV9 in Hr.
    repeat case_match; simplify_eq; rewrite ?lookup_insert_ne by done; done.
  - unfold migrateV8ToV9 in Hr.
    destruct (migrateECRList "services" data) as [d1 c1] eqn:E1.
    destruct (migrateECRList "event_processor_tasks" d1) as [d2 c2] eqn:E2.
    destruct (migrateECRList "scheduled_tasks" d2) as [d3 c3] eqn:E3.
    pose proof (lookup_migrateECRList_ne data k "services") as F1.
    pose proof (lookup_migrateECRList_ne d1 k "event_processor_tasks") as F2.
    pose proof (lookup_migrateECRList_ne d2 k "scheduled_tasks") as F3.
    rewrite E1 in F1. rewrite E2 in F2. rewrite E3 in F3. simpl in *.
    simplify_eq. rewrite F3, F2, F1 by done. done.
  - unfold migrateToV11 in Hr.
    repeat case_match; simplify_eq; rewrite ?lookup_insert_ne by done; done.
  - unfold migrateToV12 in Hr.
    repeat case_match; simplify_eq; rewrite ?lookup_insert_ne by done; done.
Qed.

(** ** Version detection *)

Lemma marker_spec (data : doc) (sub f : string) :
  marker data sub f ↔
  match data !! sub with
  | Some (VMap m) => bool_decide (is_Some (m !! KStr f))
  | _ => false
  end = true.
Proof.
  unfold marker. split.
  - intros (m & -> & Hm). by apply bool_decide_eq_true.
  - destruct (data !! sub) as [[]|]; try done.
    intros Hm%bool_decide_eq_true. eauto.
Qed.

Lemma not_marker_spec (data : doc) (sub f : string) :
  ¬ marker data sub f ↔
  match data !! sub with
  | Some (VMap m) => bool_decide (is_Some (m !! KStr f))
  | _ => false
  end = false.
Proof. rewrite marker_spec. apply not_true_iff_false. Qed.

(** C7. Without a [schema_version] key the detector answers 5 when
    [account_id] is present at the top level, else 4 when the [workload]
    mapping has [backend_desired_count], else 3 when the [domain] mapping has
    [zone_id], else 2 when the [postgres] mapping has [aurora], else 1.  A
    sub-map that is absent or is not a mapping counts as "no marker"
    ([marker] asks for a mapping); the detector is a total function, it has
    no panicking outcome. *)
Theorem detect_unversioned (data : doc) :
  data !! "schema_version" = None →
  (is_Some (data !! "account_id") → detectSchemaVersion data = 5) ∧
  (data !! "account_id" = None →
     (marker data "workload" "backend_desired_count" →
        detectSchemaVersion data = 4) ∧
     (¬ marker data "workload" "backend_desired_count" →
        (marker data "domain" "zone_id" → detectSchemaVersion data = 3) ∧
        (¬ marker data "domain" "zone_id" →
           (marker data "postgres" "aurora" → detectSchemaVersion data = 2) ∧
           (¬ marker data "postgres" "aurora" → detectSchemaVersion data = 1)))).
Proof.
  intros Hv. unfold detectSchemaVersion. rewrite Hv. split.
  - by intros [x ->].
  - intros ->. split.
    + by intros ->%marker_spec.
    + intros ->%not_marker_spec. split.
      * by intros ->%marker_spec.
      * intros ->%not_marker_spec. split.
        -- by intros ->%marker_spec.
        -- by intros ->%not_marker_spec.
Qed.

Lemma detect_unversioned_witness : detectSchemaVersion doc_v4_markers = 4.
Proof.
  refine (proj1 (proj2 (detect_unversioned doc_v4_markers _) _) _).
  - reflexivity.
  - reflexivity.
  - exists {[ KStr "backend_desired_count" := VInt 2 ]}. split.
    + reflexivity.
    + exists (VInt 2). reflexivity.
Defined.

(** ** Amplify domain simplification (target version 9) *)

(** C3. On base domain [example.com], environment [dev], environment prefix
    on and an app with [custom_domain: app.dev.example.com], the step removes
    [custom_domain] but sets [subdomain_prefix] to [app.dev]: once the base
    domain and its dot are cut, the rest ends in [.dev], which the step
    compares with [dev.]. *)
Theorem migrateToV9_keeps_env_label :
  subdomainPrefix "app.dev.example.com" "example.com" "dev" true = "app.dev" ∧
  ∃ data',
    migrateToV9 doc_env_prefixed = Returned data' None ∧
    field data' "amplify_apps" [Idx 0; Key (KStr "subdomain_prefix")]
      = Some (VStr "app.dev") ∧
    field data' "amplify_apps" [Idx 0; Key (KStr "custom_domain")] = None.
Proof.
  split; [reflexivity|].
  eexists. split; [reflexivity|]. split; reflexivity.
Qed.

(** Whenever both the legacy domain and the base domain are non-empty, the
    loop body deletes [custom_domain], whether or not the base domain is a
    suffix of it. *)
Lemma migrateAmplifyApp_drops_custom_domain
    (domainName env customDomain : string) (addEnvPrefix : bool)
    (appMap : gmap key value) :
  appMap !! KStr "custom_domain" = Some (VStr customDomain) →
  customDomain ≠ "" → domainName ≠ "" →
  ∃ appMap',
    migrateAmplifyApp domainName env addEnvPrefix (VMap appMap)
      = (VMap appMap', 1) ∧
    appMap' !! KStr "custom_domain" = None.
Proof.
  intros Hcd Hne1 Hne2. unfold migrateAmplifyApp. rewrite Hcd. simpl.
  apply String.eqb_neq in Hne1, Hne2. rewrite Hne1, Hne2. simpl.
  eexists. split; [reflexivity|]. apply lookup_delete_eq.
Qed.

(** C4. On base domain [example.com] and an app with
    [custom_domain: totallyunrelated.net], the step deletes [custom_domain]
    and sets [subdomain_prefix] to the whole legacy value. *)
Theorem migrateToV9_unrelated_domain_moved :
  ∃ data',
    migrateToV9 doc_unrelated_domain = Returned data' None ∧
    field data' "amplify_apps" [Idx 0; Key (KStr "custom_domain")] = None ∧
    field data' "amplify_apps" [Idx 0; Key (KStr "subdomain_prefix")]
      = Some (VStr "totallyunrelated.net").
Proof.
  eexists. split; [reflexivity|]. split; reflexivity.
Qed.

(** ** Port synchronisation (target version 11) *)

(** C8. Three services, the first with a host port equal to its container
    port, the second with a host port that differs, the third without a host
    port: the step returns nil, leaves the first service as it is, gives the
    other two a host port identical to their container port, and counts 2
    fixes. *)
Theorem migrateToV11_three_services (data : doc) (s1 s2 s3 : gmap key value)
    (p1 h1 p2 h2 p3 : value) :
  data !! "services" = Some (VList [VMap s1; VMap s2; VMap s3]) →
  s1 !! KStr "container_port" = Some p1 →
  s1 !! KStr "host_port" = Some h1 →
  iface_eq h1 p1 = Some true →
  s2 !! KStr "container_port" = Some p2 →
  s2 !! KStr "host_port" = Some h2 →
  iface_eq h2 p2 = Some false →
  s3 !! KStr "container_port" = Some p3 →
  s3 !! KStr "host_port" = None →
  ∃ data' t2 t3,
    migrateToV11 data = Returned data' None ∧
    data' !! "services" = Some (VList [VMap s1; VMap t2; VMap t3]) ∧
    (t2 !! KStr "container_port" = Some p2 ∧ t2 !! KStr "host_port" = Some p2) ∧
    (t3 !! KStr "container_port" = Some p3 ∧ t3 !! KStr "host_port" = Some p3) ∧
    migrateToV11_fixedCount data = Some 2.
Proof.
  intros Hs Hc1 Hh1 He1 Hc2 Hh2 He2 Hc3 Hh3.
  unfold migrateToV11, migrateToV11_fixedCount. rewrite Hs. simpl.
  rewrite Hc1, Hh1, He1, Hc2, Hh2, He2, Hc3, Hh3. simpl.
  eexists _, _, _. split; [reflexivity|].
  split; [apply lookup_insert_eq|].
  assert (KStr "host_port" ≠ KStr "container_port") by done.
  repeat split.
  - by rewrite lookup_insert_ne.
  - apply lookup_insert_eq.
  - by rewrite lookup_insert_ne.
  - apply lookup_insert_eq.
Qed.

Lemma migrateToV11_three_services_witness :
  ∃ data' t2 t3,
    migrateToV11 doc_three_services = Returned data' None ∧
    data' !! "services" = Some (VList [VMap svc_api; VMap t2; VMap t3]) ∧
    (t2 !! KStr "container_port" = Some (VInt 3000) ∧
     t2 !! KStr "host_port" = Some (VInt 3000)) ∧
    (t3 !! KStr "container_port" = Some (VInt 9000) ∧
     t3 !! KStr "host_port" = Some (VInt 9000)) ∧
    migrateToV11_fixedCount doc_three_services = Some 2.
Proof.
  apply (migrateToV11_three_services doc_three_services
           svc_api svc_web svc_worker
           (VInt 8080) (VInt 8080) (VInt 3000) (VInt 80) (VInt 9000));
    reflexivity.
Defined.

(** ** Outcomes of the steps *)

(** C10. A service whose [container_port] and [host_port] are both YAML
    sequences makes [migrateToV11] panic in [hostPort != containerPort]: the
    step does not return nil there, and neither does a run that reaches it. *)
Theorem migrateToV11_panics_on_uncomparable_ports :
  migrateToV11 doc_uncomparable_ports = Panicked ∧
  applyMigrations doc_uncomparable_ports
    (detectSchemaVersion doc_uncomparable_ports) = Panicked.
Proof. split; reflexivity. Qed.

(** ** The runner *)

Lemma runMigrations_app (a b : list Migration) (data : doc) (cur : Z) :
  runMigrations (a ++ b) data cur =
  match runMigrations a data cur with
  | Returned data' None => runMigrations b data' cur
  | other => other
  end.
Proof.
  revert data. induction a as [|m a IH]; intros data; simpl.
  - done.
  - destruct (cur <? Version m); [|apply IH].
    destruct (Apply m data) as [d [e|]|]; auto.
Qed.

Lemma runMigrations_total (I : doc → Prop) (steps : list Migration) (cur : Z) :
  (∀ m, m ∈ steps → ∀ d, I d → ∃ d', Apply m d = Returned d' None ∧ I d') →
  ∀ data, I data →
  ∃ data', runMigrations steps data cur = Returned data' None ∧ I data'.
Proof.
  induction steps as [|m steps IH]; intros Hstep data HI; simpl.
  - eauto.
  - assert (∀ d, I d →
              ∃ d', runMigrations steps d cur = Returned d' None ∧ I d') as IH'.
    { apply IH. intros m' Hm'. apply Hstep. by apply list_elem_of_further. }
    destruct (cur <? Version m); [|by apply IH'].
    destruct (Hstep m (list_elem_of_here _ _) data HI) as (d1 & -> & HI1).
    by apply IH'.
Qed.

Lemma runMigrations_preserves (P : doc → Prop) (steps : list Migration) (cur : Z) :
  (∀ m, m ∈ steps → cur < Version m →
     ∀ d d' e, P d → Apply m d = Returned d' e → P d') →
  ∀ data data' err,
    P data → runMigrations steps data cur = Returned data' err → P data'.
Proof.
  induction steps as [|m steps IH]; intros Hstep data data' err HP; simpl.
  - by intros [= <- _].
  - assert (∀ d, P d → runMigrations steps d cur = Returned data' err → P data')
      as IH'.
    { intros d. apply IH. intros m' Hm'. apply Hstep.
      by apply list_elem_of_further. }
    destruct (cur <? Version m) eqn:Hlt; [|by apply IH'].
    apply Z.ltb_lt in Hlt.
    destruct (Apply m data) as [d1 [e|]|] eqn:Hap; try done.
    + intros [= <- _]. eapply Hstep; eauto using list_elem_of_here.
    + apply IH'. eapply Hstep; eauto using list_elem_of_here.
Qed.

Lemma runMigrations_no_error (steps : list Migration) (cur : Z)
    (data data' : doc) (err : error) :
  (∀ m, m ∈ steps → m ∈ AllMigrations) →
  runMigrations steps data cur = Returned data' err → err = None.
Proof.
  revert data. induction steps as [|m steps IH]; intros data Hsub; simpl.
  - by intros [= _ <-].
  - assert (∀ m', m' ∈ steps → m' ∈ AllMigrations) as Hsub'.
    { intros m' Hm'. apply Hsub. by apply list_elem_of_further. }
    destruct (cur <? Version m); [|by apply IH].
    destruct (Apply m data) as [d1 [e|]|] eqn:Hap; try done.
    + apply step_no_error in Hap; [done|]. apply Hsub, list_elem_of_here.
    + by apply IH.
Qed.

(** The runner with the package's registry never returns a non-nil error. *)
Lemma applyMigrations_no_error (data data' : doc) (cur : Z) (err : error) :
  applyMigrations data cur = Returned data' err → err = None.
Proof.
  unfold applyMigrations, applyMigrationsWith.
  destruct (CurrentSchemaVersion <=? cur); [by intros [= _ <-]|].
  destruct (runMigrations AllMigrations data cur) as [d [e|]|] eqn:Hrun;
    try done.
  - by apply runMigrations_no_error in Hrun.
  - by intros [= _ <-].
Qed.

(** A successful run that had something to do ends with the stamp. *)
Lemma applyMigrations_stamps (data data' : doc) (cur : Z) (err : error) :
  cur < CurrentSchemaVersion →
  applyMigrations data cur = Returned data' err →
  data' !! "schema_version" = Some (VInt CurrentSchemaVersion).
Proof.
  intros Hlt Hap. pose proof (applyMigrations_no_error _ _ _ _ Hap) as ->.
  revert Hap. unfold applyMigrations, applyMigrationsWith.
  destruct (Z.leb_spec CurrentSchemaVersion cur); [lia|].
  destruct (runMigrations AllMigrations data cur) as [d [e|]|]; try done.
  intros [= <-]. apply lookup_insert_eq.
Qed.

Lemma detect_stamped (data : doc) (v : Z) :
  data !! "schema_version" = Some (VInt v) → v ≠ 6 →
  detectSchemaVersion data = v.
Proof.
  intros Hv Hne. unfold detectSchemaVersion. rewrite Hv.
  by destruct (Z.eqb_spec v 6).
Qed.

(** ** Running the pipeline twice *)

(** C5, as stated, fails on a document stamped above the current version:
    the first run leaves it alone and the second run detects 13, not 12. *)
Lemma rerun_detects_newer_version :
  migrate doc_newer_version = Returned doc_newer_version None ∧
  detectSchemaVersion doc_newer_version ≠ CurrentSchemaVersion.
Proof. split; [reflexivity|]. vm_compute. discriminate. Qed.

(** C5, amended. [applyMigrations] returns nil and leaves the document as it
    is whenever the given version is at least [CurrentSchemaVersion].  If a
    run of the pipeline returns a document, it returned nil; a second run on
    that document detects a version that is at least [CurrentSchemaVersion]
    (exactly [CurrentSchemaVersion] when the first run had a lower version
    to start from), returns nil and leaves the document identical. *)
Theorem migrate_twice :
  (∀ (data : doc) (v : Z),
     CurrentSchemaVersion ≤ v → applyMigrations data v = Returned data None) ∧
  (∀ (data data' : doc) (err : error),
     migrate data = Returned data' err →
     err = None ∧
     CurrentSchemaVersion ≤ detectSchemaVersion data' ∧
     (detectSchemaVersion data < CurrentSchemaVersion →
        detectSchemaVersion data' = CurrentSchemaVersion) ∧
     migrate data' = Returned data' None).
Proof.
  assert (∀ (data : doc) (v : Z),
            CurrentSchemaVersion ≤ v → applyMigrations data v = Returned data None)
    as Hnoop.
  { intros data v Hv. unfold applyMigrations, applyMigrationsWith.
    by destruct (Z.leb_spec CurrentSchemaVersion v); [|lia]. }
  split; [exact Hnoop|].
  intros data data' err Hrun. unfold migrate in *.
  pose proof (applyMigrations_no_error _ _ _ _ Hrun) as ->.
  destruct (Z.le_gt_cases CurrentSchemaVersion (detectSchemaVersion data))
    as [Hge|Hlt].
  - rewrite Hnoop in Hrun by done. injection Hrun as <-.
    split; [done|]. split; [done|]. split; [lia|]. by apply Hnoop.
  - apply applyMigrations_stamps in Hrun; [|lia].
    apply detect_stamped in Hrun; [|done].
    rewrite Hrun. split; [done|]. split; [done|]. split; [done|].
    by apply Hnoop.
Qed.

Lemma migrate_twice_witness :
  ∃ data',
    migrate doc_v4_markers = Returned data' None ∧
    CurrentSchemaVersion ≤ detectSchemaVersion data' ∧
    (detectSchemaVersion doc_v4_markers < CurrentSchemaVersion →
       detectSchemaVersion data' = CurrentSchemaVersion) ∧
    migrate data' = Returned data' None.
Proof.
  eexists. split.
  - vm_compute. reflexivity.
  - eapply (proj2 migrate_twice doc_v4_markers _ None).
    vm_compute. reflexivity.
Defined.

(** ** When a run returns *)

Lemma addDefaultECRConfig_fst (items : list value) :
  (addDefaultECRConfig items).1 = (fun item => (ensureECRConfig item).1) <$> items.
Proof.
  induction items as [|item items IH]; [done|]. simpl.
  destruct (ensureECRConfig item) as [item' n].
  destruct (addDefaultECRConfig items) as [rest' c]. simpl in *. by rewrite IH.
Qed.

Lemma lookup_migrateECRList_eq (data : doc) (k : string) :
  (migrateECRList k data).1 !! k =
  match data !! k with
  | Some (VList items) => Some (VList (addDefaultECRConfig items).1)
  | other => other
  end.
Proof.
  unfold migrateECRList. destruct (data !! k) as [[]|] eqn:Hk; try done.
  destruct (addDefaultECRConfig l). simpl. apply lookup_insert_eq.
Qed.

Lemma comparablePorts_ensureECRConfig (item : value) :
  comparablePorts (ensureECRConfig item).1 = comparablePorts item.
Proof.
  destruct item; try done. simpl.
  destruct (m !! KStr "ecr_config"); [done|]. simpl.
  by rewrite !lookup_insert_ne.
Qed.

Lemma forallb_comparablePorts_addDefaultECRConfig (items : list value) :
  forallb comparablePorts (addDefaultECRConfig items).1
  = forallb comparablePorts items.
Proof.
  induction items as [|item items IH]; [done|]. simpl.
  pose proof (comparablePorts_ensureECRConfig item) as Hitem.
  destruct (ensureECRConfig item) as [item' n].
  destruct (addDefaultECRConfig items) as [rest' c]. simpl in *.
  by rewrite Hitem, IH.
Qed.

Lemma comparablePorts_fixHostPort (serviceRaw : value) :
  comparablePorts serviceRaw = true → is_Some (fixHostPort serviceRaw).
Proof.
  destruct serviceRaw; simpl; try done.
  destruct (m !! KStr "container_port"); [|done].
  destruct (m !! KStr "host_port"); [|done].
  intros [[] ->]%bool_decide_eq_true; done.
Qed.

Lemma fixHostPorts_total (services : list value) :
  forallb comparablePorts services = true → is_Some (fixHostPorts services).
Proof.
  induction services as [|s services IH]; simpl; [done|].
  intros [Hs Hrest]%andb_prop.
  destruct (comparablePorts_fixHostPort s Hs) as [[s' n] ->].
  destruct (IH Hrest) as [[rest' c] ->]. done.
Qed.

Lemma migrateToV11_returns (data : doc) :
  servicesComparable data = true →
  ∃ data', migrateToV11 data = Returned data' None.
Proof.
  unfold servicesComparable, migrateToV11.
  destruct (data !! "services") as [[]|]; eauto.
  intros [[s' n] ->]%fixHostPorts_total. eauto.
Qed.

Lemma servicesComparable_migrateV8ToV9 (data data' : doc) (err : error) :
  migrateV8ToV9 data = Returned data' err →
  servicesComparable data' = servicesComparable data.
Proof.
  unfold migrateV8ToV9.
  destruct (migrateECRList "services" data) as [d1 c1] eqn:E1.
  destruct (migrateECRList "event_processor_tasks" d1) as [d2 c2] eqn:E2.
  destruct (migrateECRList "scheduled_tasks" d2) as [d3 c3] eqn:E3.
  pose proof (lookup_migrateECRList_eq data "services") as F1.
  pose proof (lookup_migrateECRList_ne d1 "services" "event_processor_tasks") as F2.
  pose proof (lookup_migrateECRList_ne d2 "services" "scheduled_tasks") as F3.
  rewrite E1 in F1. rewrite E2 in F2. rewrite E3 in F3. simpl in *.
  intros [= <- _]. unfold servicesComparable. rewrite F3, F2, F1 by done.
  destruct (data !! "services") as [[]|]; try done.
  by rewrite forallb_comparablePorts_addDefaultECRConfig.
Qed.

(** The steps before the one for version 11 return nil and keep the ports of
    every service comparable. *)
Lemma early_step_keeps_comparable (m : Migration) (data : doc) :
  m ∈ take 9 AllMigrations → servicesComparable data = true →
  ∃ data', Apply m data = Returned data' None ∧ servicesComparable data' = true.
Proof.
  intros Hm Hc.
  assert (m ∈ AllMigrations) as Hall.
  { eapply subseteq_take, Hm. }
  assert (Version m ≠ 11) as Hv.
  { simpl in Hm. repeat (apply elem_of_cons in Hm as [-> | Hm]); try done.
    by apply elem_of_nil in Hm. }
  destruct (step_returns m data Hall Hv) as [data' Hr].
  exists data'. split; [done|].
  destruct (decide (Version m = 10)) as [H10|H10].
  - simpl in Hm. repeat (apply elem_of_cons in Hm as [-> | Hm]); try done.
    + simpl in Hr. by rewrite (servicesComparable_migrateV8ToV9 _ _ _ Hr).
    + by apply elem_of_nil in Hm.
  - unfold servicesComparable.
    rewrite (step_frame m data data' None "services" Hall Hr); [done|].
    simpl in Hm. repeat (apply elem_of_cons in Hm as [-> | Hm]); simpl;
      try done; try (by apply elem_of_nil in Hm);
      repeat (apply not_elem_of_cons; split; [done|]); apply not_elem_of_nil.
Qed.

(** When no service has two ports of the same uncomparable type, the runner
    returns nil, whatever version it starts from. *)
Lemma applyMigrations_total (data : doc) (cur : Z) :
  servicesComparable data = true →
  ∃ data', applyMigrations data cur = Returned data' None.
Proof.
  intros Hc. unfold applyMigrations, applyMigrationsWith.
  destruct (CurrentSchemaVersion <=? cur); [eauto|].
  rewrite <- (take_drop 9 AllMigrations), runMigrations_app.
  destruct (runMigrations_total (fun d => servicesComparable d = true)
              (take 9 AllMigrations) cur) with (data := data)
    as (d9 & -> & Hc9);
    [intros m Hm d; by apply early_step_keeps_comparable|done|].
  simpl. destruct (migrateToV11_returns d9 Hc9) as [d11 H11].
  assert (∀ d, ∃ d12, migrateToV12 d = Returned d12 None) as H12.
  { intros d. unfold migrateToV12. repeat case_match; eauto. }
  destruct (cur <? 11); [rewrite H11|].
  - destruct (cur <? 12); [destruct (H12 d11) as [d12 ->]|]; eauto.
  - destruct (cur <? 12); [destruct (H12 d9) as [d12 ->]|]; eauto.
Qed.

(** ** Re-running the step for version 6 *)

Lemma migrateToV6_cleans (data : doc) :
  ∃ d6, migrateToV6 data = Returned d6 None ∧ vpcCleaned data d6.
Proof.
  eexists. split; [reflexivity|]. split.
  - rewrite !lookup_deleteIfPresent_ne by done.
    destruct (setIfAbsent _ _ _ !! "vpc_cidr") as [v|]; [destruct (eq_string v "")|];
      rewrite ?lookup_insert_ne by done; apply lookup_setIfAbsent_eq.
  - intros k Hk. unfold deprecatedKeys in Hk.
    repeat (apply elem_of_cons in Hk as [-> | Hk]).
    + rewrite !lookup_deleteIfPresent_ne by done. apply lookup_deleteIfPresent_eq.
    + rewrite lookup_deleteIfPresent_ne by done. apply lookup_deleteIfPresent_eq.
    + apply lookup_deleteIfPresent_eq.
    + by apply elem_of_nil in Hk.
Qed.

(** The steps for versions 7 to 12 write none of the keys that the step for
    version 6 settles. *)
Lemma later_step_keeps_vpc_keys (m : Migration) (d d' : doc) (err : error)
    (k : string) :
  m ∈ stepsAfter 6 → k ∈ "use_default_vpc" :: deprecatedKeys →
  Apply m d = Returned d' err → d' !! k = d !! k.
Proof.
  intros Hm Hk Hr.
  assert (m ∈ AllMigrations) as Hall.
  { unfold stepsAfter in Hm. apply list_elem_of_In, filter_In in Hm as [Hm _].
    by apply list_elem_of_In. }
  apply (step_frame m d d' err k Hall Hr).
  unfold deprecatedKeys in Hk. cbn in Hm.
  repeat (apply elem_of_cons in Hm as [-> | Hm]); [..|by apply elem_of_nil in Hm];
    repeat (apply elem_of_cons in Hk as [-> | Hk]); try (by apply elem_of_nil in Hk);
    simpl; repeat (apply not_elem_of_cons; split; [done|]); apply not_elem_of_nil.
Qed.

(** C2. A document whose [schema_version] is the integer 6 and that still
    has one of [az_count], [create_private_subnets], [enable_nat_gateway] is
    detected as version 5.  The run that follows applies [migrateToV6] to it
    and goes on with the steps for versions 7 to 12.  After the step, and
    after every run that returns, [use_default_vpc] is present (with the
    value it had, or [true] if it had none) and the three keys are gone; the
    run returns nil with the stamp set, and it does return whenever no
    service holds two ports of the same uncomparable type. *)
Theorem stale_v6_rerun (data : doc) :
  data !! "schema_version" = Some (VInt 6) →
  (∃ k, k ∈ deprecatedKeys ∧ is_Some (data !! k)) →
  detectSchemaVersion data = 5 ∧
  ∃ d6,
    migrateToV6 data = Returned d6 None ∧
    vpcCleaned data d6 ∧
    migrate data = applyMigrationsWith (stepsAfter 6) d6 5 ∧
    (∀ data' err,
       migrate data = Returned data' err →
       err = None ∧ vpcCleaned data data' ∧
       data' !! "schema_version" = Some (VInt CurrentSchemaVersion)) ∧
    (servicesComparable data = true →
       ∃ data', migrate data = Returned data' None).
Proof.
  intros Hv (k & Hk & [x Hx]).
  assert (detectSchemaVersion data = 5) as Hdet.
  { unfold detectSchemaVersion. rewrite Hv. simpl.
    unfold deprecatedKeys in Hk.
    repeat (apply elem_of_cons in Hk as [-> | Hk]);
      [..|by apply elem_of_nil in Hk]; rewrite ?Hx; repeat case_match; done. }
  split; [done|].
  destruct (migrateToV6_cleans data) as (d6 & H6 & Hclean).
  exists d6. split; [done|]. split; [done|].
  assert (migrate data = applyMigrationsWith (stepsAfter 6) d6 5) as Hrun.
  { unfold migrate, applyMigrations, applyMigrationsWith. rewrite Hdet.
    cbn -[migrateToV6 migrateToV7 migrateToV8 migrateToV9 migrateV8ToV9
          migrateToV11 migrateToV12]. by rewrite H6. }
  split; [done|]. split.
  - intros data' err Hret.
    pose proof Hret as Hret'. unfold migrate in Hret'. rewrite Hdet in Hret'.
    pose proof (applyMigrations_no_error _ _ _ _ Hret') as ->.
    split; [done|]. split; [|by apply applyMigrations_stamps in Hret'].
    rewrite Hrun in Hret. unfold applyMigrationsWith in Hret.
    change (CurrentSchemaVersion <=? 5) with false in Hret. cbv iota in Hret.
    destruct (runMigrations (stepsAfter 6) d6 5) as [d [e|]|] eqn:Hsteps;
      try done.
    injection Hret as <-.
    assert (∀ k, k ∈ "use_default_vpc" :: deprecatedKeys → d !! k = d6 !! k)
      as Hkeep.
    { eapply (runMigrations_preserves
                (fun d => ∀ k, k ∈ "use_default_vpc" :: deprecatedKeys →
                               d !! k = d6 !! k)); [|done|exact Hsteps].
      intros m Hm _ d0 d1 e HP Hap k' Hk'.
      rewrite <- (HP k' Hk').
      by apply (later_step_keeps_vpc_keys m d0 d1 e k'). }
    destruct Hclean as [Hvpc Hgone]. split.
    + rewrite lookup_insert_ne by done.
      rewrite Hkeep; [done|]. apply list_elem_of_here.
    + intros k' Hk'. unfold deprecatedKeys in Hk'.
      assert ("schema_version" ≠ k').
      { repeat (apply elem_of_cons in Hk' as [-> | Hk']); try done.
        by apply elem_of_nil in Hk'. }
      rewrite lookup_insert_ne by done.
      rewrite Hkeep; [by apply Hgone|]. by apply list_elem_of_further.
  - intros Hc. unfold migrate. by apply applyMigrations_total.
Qed.

Lemma stale_v6_rerun_witness :
  detectSchemaVersion doc_stale_v6 = 5 ∧
  ∃ d6,
    migrateToV6 doc_stale_v6 = Returned d6 None ∧
    vpcCleaned doc_stale_v6 d6 ∧
    migrate doc_stale_v6 = applyMigrationsWith (stepsAfter 6) d6 5 ∧
    (∀ data' err,
       migrate doc_stale_v6 = Returned data' err →
       err = None ∧ vpcCleaned doc_stale_v6 data' ∧
       data' !! "schema_version" = Some (VInt CurrentSchemaVersion)) ∧
    (servicesComparable doc_stale_v6 = true →
       ∃ data', migrate doc_stale_v6 = Returned data' None).
Proof.
  apply (stale_v6_rerun doc_stale_v6).
  - reflexivity.
  - exists "enable_nat_gateway". split.
    + unfold deprecatedKeys. do 2 apply list_elem_of_further.
      apply list_elem_of_here.
    + exists (VBool true). reflexivity.
Defined.

(** ** The loader *)

Section LoaderFacts.
Context `{Host}.

Lemma readFirst_found (w : FS) (paths : list string) (lastErr : error)
    (path : string) (raw : bytes) :
  readFirst w paths lastErr = inl (path, raw) →
  path ∈ paths ∧ os_ReadFile w path = Ok raw.
Proof.
  revert lastErr. induction paths as [|p paths IH]; intros lastErr; simpl.
  - done.
  - destruct (os_ReadFile w p) as [data|err] eqn:Hread.
    + intros [= <- <-]. split; [apply list_elem_of_here|done].
    + intros [Hin Hr]%IH. split; [by apply list_elem_of_further|done].
Qed.

(** C6. Let the registry be [pre ++ m :: post], let the steps of [pre]
    that apply return nil, and let [m] apply and return an error [e].
    Then [applyMigrations] returns the document as [m] left it (no stamp
    is added) together with the error
    ["migration to v<Version m> failed: <e>"]; the result is the same
    whatever steps follow [m].  A loader that resolved and decoded the
    file, detected that version and took its backup returns
    ["migration failed: ..."] around that error, with the file system as
    the backup left it: nothing is written afterwards, so when the backup
    leaves the original alone, the file still holds the bytes that were
    read. *)
Theorem step_failure_aborts (pre post : list Migration) (m : Migration)
    (data dpre dm : doc) (cur : Z) (e : string) :
  cur < CurrentSchemaVersion →
  runMigrations pre data cur = Returned dpre None →
  cur < Version m →
  Apply m dpre = Returned dm (Some e) →
  let failure := "migration to v" +:+ pretty (Version m) +:+ " failed: " +:+ e in
  applyMigrationsWith (pre ++ m :: post) data cur = Returned dm (Some failure) ∧
  (∀ post',
     applyMigrationsWith (pre ++ m :: post') data cur
     = applyMigrationsWith (pre ++ m :: post) data cur) ∧
  (∀ (w w1 : FS) (name yamlPath backupPath : string) (raw : bytes),
     readFirst w (possiblePaths name) None = inl (yamlPath, raw) →
     yaml_Unmarshal_map raw = Ok data →
     detectSchemaVersion data = cur →
     CreateProjectBackup w yamlPath = (w1, Ok backupPath) →
     os_ReadFile w1 yamlPath = os_ReadFile w yamlPath →
     loadEnvWithMigrationWith (pre ++ m :: post) w name
       = Loaded w1 zeroEnv (Some ("migration failed: " +:+ failure)) ∧
     os_ReadFile w1 yamlPath = Ok raw).
Proof.
  intros Hcur Hpre Hm Hap failure.
  assert (∀ post', applyMigrationsWith (pre ++ m :: post') data cur
                   = Returned dm (Some failure)) as Hrun.
  { intros post'. unfold applyMigrationsWith.
    destruct (Z.leb_spec CurrentSchemaVersion cur); [lia|].
    rewrite runMigrations_app, Hpre. simpl.
    destruct (Z.ltb_spec cur (Version m)); [|lia].
    by rewrite Hap. }
  split; [apply Hrun|]. split; [intros post'; by rewrite !Hrun|].
  intros w w1 name yamlPath backupPath raw Hread Hdec Hdet Hbak Hkeep.
  split.
  - unfold loadEnvWithMigrationWith. rewrite Hread, Hdec, Hdet.
    destruct (Z.ltb_spec cur CurrentSchemaVersion); [|lia].
    unfold backupFile. rewrite Hbak. by rewrite Hrun.
  - rewrite Hkeep. by apply readFirst_found in Hread as [_ ?].
Qed.

(** C9, amended. When none of the four candidate paths can be read, the
    loader returns the zero [Env] and the error
    ["error reading YAML file from any location: <e4>"], where [e4] is the
    error of the last attempt, the one on [../<name>.yaml]; the earlier
    errors are dropped and the file system is left as it was. *)
Theorem all_reads_fail (w : FS) (name : string) (e1 e2 e3 e4 : string) :
  os_ReadFile w (name +:+ ".yaml") = Err e1 →
  os_ReadFile w ("project/" +:+ name +:+ ".yaml") = Err e2 →
  os_ReadFile w ("../../project/" +:+ name +:+ ".yaml") = Err e3 →
  os_ReadFile w ("../" +:+ name +:+ ".yaml") = Err e4 →
  loadEnvWithMigration w name
  = Loaded w zeroEnv
      (Some ("error reading YAML file from any location: " +:+ e4)).
Proof.
  intros H1 H2 H3 H4.
  unfold loadEnvWithMigration, loadEnvWithMigrationWith, possiblePaths.
  simpl. by rewrite H1, H2, H3, H4.
Qed.
End LoaderFacts.

Lemma step_failure_aborts_witness :
  applyMigrationsWith ([] ++ failingStep :: AllMigrations) ∅ 1
    = Returned ∅ (Some "migration to v2 failed: boom") ∧
  @loadEnvWithMigrationWith mapHost ([] ++ failingStep :: AllMigrations)
      {[ "dev.yaml" := [] ]} "dev"
    = @Loaded mapHost {[ "dev.yaml.backup" := []; "dev.yaml" := [] ]} tt
        (Some "migration failed: migration to v2 failed: boom") ∧
  @os_ReadFile mapHost {[ "dev.yaml.backup" := []; "dev.yaml" := [] ]} "dev.yaml"
    = Ok [].
Proof.
  pose proof (@step_failure_aborts mapHost [] AllMigrations failingStep
                ∅ ∅ ∅ 1 "boom") as Hthm.
  destruct Hthm as (Hrun & _ & Hload).
  - vm_compute. reflexivity.
  - reflexivity.
  - vm_compute. reflexivity.
  - reflexivity.
  - split; [exact Hrun|].
    apply (Hload ({[ "dev.yaml" := [] ]} : gmap string bytes)
             ({[ "dev.yaml.backup" := []; "dev.yaml" := [] ]} : gmap string bytes)
             "dev" "dev.yaml" "dev.yaml.backup" []).
    + vm_compute. reflexivity.
    + reflexivity.
    + vm_compute. reflexivity.
    + vm_compute. reflexivity.
    + vm_compute. reflexivity.
Defined.

Lemma all_reads_fail_witness :
  @loadEnvWithMigration mapHost ∅ "dev"
  = @Loaded mapHost ∅ tt
      (Some "error reading YAML file from any location: open ../dev.yaml: no such file or directory").
Proof.
  apply (@all_reads_fail mapHost ∅ "dev"
           "open dev.yaml: no such file or directory"
           "open project/dev.yaml: no such file or directory"
           "open ../../project/dev.yaml: no such file or directory"
           "open ../dev.yaml: no such file or directory");
    reflexivity.
Defined.

(** C9, as stated, fails: with no file at all and the name [dev], every
    candidate is attempted and fails, and the message of the returned error
    names neither [project/dev.yaml] nor [../../project/dev.yaml]. *)
Lemma error_names_last_path_only :
  Forall (fun path => ∃ err, @os_ReadFile mapHost ∅ path = Err err)
         (possiblePaths "dev") ∧
  ∃ msg,
    @loadEnvWithMigration mapHost ∅ "dev" = @Loaded mapHost ∅ tt (Some msg) ∧
    mentions msg "../dev.yaml" = true ∧
    mentions msg "project/dev.yaml" = false ∧
    ¬ Forall (fun path => mentions msg path = true) (possiblePaths "dev").
Proof.
  split.
  - repeat constructor; eexists; reflexivity.
  - eexists. split; [reflexivity|]. split; [reflexivity|].
    split; [reflexivity|].
    intros Hall. apply Forall_cons in Hall as [_ Hall].
    apply Forall_cons in Hall as [Hproj _]. vm_compute in Hproj. discriminate.
Qed.

(** ** Fields already present *)

Lemma field_outside (data data' : doc) (k : string) (p : list sel) :
  data' !! k = data !! k → field data' k p = field data k p.
Proof. unfold field. by intros ->. Qed.

Lemma field_insert_absent (data : doc) (k0 k : string) (x v : value)
    (p : list sel) :
  data !! k0 = None → field data k p = Some v →
  field (<[k0 := x]> data) k p = Some v.
Proof.
  intros Habs Hf. rewrite <- Hf. apply field_outside.
  apply lookup_insert_ne. intros ->. unfold field in Hf. by rewrite Habs in Hf.
Qed.

Lemma field_setIfAbsent (data : doc) (k0 k : string) (x v : value)
    (p : list sel) :
  field data k p = Some v → field (setIfAbsent k0 x data) k p = Some v.
Proof.
  intros Hf. unfold setIfAbsent. destruct (data !! k0) eqn:Hk0; [done|].
  by apply field_insert_absent.
Qed.

Lemma get_in_scalar (p : list sel) (x v : value) :
  get_in p x = Some v → isContainer x = false →
  (∀ m, x ≠ VStrMap m) → p = [] ∧ v = x.
Proof.
  destruct p as [|s p]; simpl.
  - by intros [= <-].
  - destruct s, x; try done. intros _ _ Hx. by destruct (Hx m).
Qed.

(** A field under a mapping that a step extends in place survives when the
    body keeps the entry the field goes through. *)
Lemma field_withMap (data : doc) (k0 k : string) (p : list sel) (v : value)
    (body : gmap key value → gmap key value) :
  field data k p = Some v →
  (k = k0 → isRoot p = true → isContainer v = false) →
  (k = k0 → ∀ sub kk x p',
     data !! k0 = Some (VMap sub) → p = Key kk :: p' →
     sub !! kk = Some x → get_in p' x = Some v → body sub !! kk = Some x) →
  field (withMap k0 body data) k p = Some v.
Proof.
  intros Hf Hroot Hbody. destruct (decide (k = k0)) as [->|Hne].
  - unfold withMap. destruct (data !! k0) as [[]|] eqn:Hk0; try done.
    unfold field in *. rewrite Hk0 in Hf. rewrite lookup_insert_eq. simpl in *.
    destruct p as [|[kk|i|f] p']; simpl in *; try done.
    + injection Hf as <-. by specialize (Hroot eq_refl eq_refl).
    + destruct (m !! kk) as [x|] eqn:Hkk; [|done]. simpl in Hf.
      by rewrite (Hbody eq_refl m kk x p' eq_refl eq_refl Hkk Hf).
  - rewrite <- Hf. apply field_outside. by apply lookup_withMap_ne.
Qed.

Lemma lookup_addBooleanDefaults_Some (defaults : list (string * value))
    (postgres : gmap key value) (k : key) (x : value) :
  postgres !! k = Some x → addBooleanDefaults defaults postgres !! k = Some x.
Proof.
  unfold addBooleanDefaults. revert postgres.
  induction defaults as [|fd defaults IH]; intros postgres Hk; simpl; [done|].
  by apply IH, lookup_setIfAbsent_Some.
Qed.

(** A field under one of the three lists of version 10 survives. *)
Lemma field_migrateECRList (data : doc) (k0 k : string) (p : list sel)
    (v : value) :
  field data k p = Some v →
  (k = k0 → match p with [] | [Idx _] => isContainer v = false | _ => True end) →
  field (migrateECRList k0 data).1 k p = Some v.
Proof.
  intros Hf Hc. destruct (decide (k = k0)) as [->|Hne].
  - specialize (Hc eq_refl). unfold field in *.
    rewrite lookup_migrateECRList_eq.
    destruct (data !! k0) as [[]|] eqn:Hk0; try done. simpl in *.
    destruct p as [|[kk|i|f] p']; simpl in *; try done.
    + by injection Hf as <-.
    + rewrite addDefaultECRConfig_fst, list_lookup_fmap.
      destruct (l !! i) as [item|] eqn:Hi; [|done]. simpl in *.
      destruct item; try done. simpl.
      destruct (m !! KStr "ecr_config") eqn:Hecr; [done|]. simpl.
      destruct p' as [|[kk|j|f] p'']; simpl in *; try done.
      * by injection Hf as <-.
      * destruct (decide (kk = KStr "ecr_config")) as [->|Hkk].
        -- by rewrite Hecr in Hf.
        -- by rewrite lookup_insert_ne.
  - rewrite <- Hf. apply field_outside. by apply lookup_migrateECRList_ne.
Qed.

Lemma inList_true (s : string) (l : list string) : inList s l = true ↔ s ∈ l.
Proof.
  unfold inList. rewrite existsb_exists, list_elem_of_In. split.
  - by intros (x & Hin & <-%String.eqb_eq).
  - intros Hin. exists s. split; [done|]. apply String.eqb_refl.
Qed.

Lemma inList_false (s : string) (l : list string) : inList s l = false ↔ s ∉ l.
Proof. rewrite <- inList_true. symmetry. apply not_true_iff_false. Qed.

Lemma field_deleteIfPresent_ne (data : doc) (k0 k : string) (p : list sel) :
  k ≠ k0 → field (deleteIfPresent k0 data) k p = field data k p.
Proof. intros Hne. apply field_outside. by apply lookup_deleteIfPresent_ne. Qed.

Lemma migrateToV2_keeps (data : doc) (k : string) (p : list sel) (v : value) :
  field data k p = Some v →
  (descends 2 k p = true → isContainer v = false) →
  besideAurora 2 data k p = false →
  ∃ data', migrateToV2 data = Returned data' None ∧ field data' k p = Some v.
Proof.
  intros Hf Hdesc Hbes. eexists. split; [reflexivity|].
  apply field_setIfAbsent. apply field_withMap; [done|..].
  - intros -> Hroot. apply Hdesc. simpl. by rewrite Hroot.
  - intros -> sub kk x p' Hsub -> Hkk Hget.
    destruct (sub !! KStr "aurora") eqn:Haur; [done|].
    unfold besideAurora in Hbes. rewrite Hsub, Haur in Hbes. simpl in Hbes.
    assert (kk ≠ KStr "aurora") by congruence.
    assert (kk ≠ KStr "min_capacity") by (by intros ->).
    assert (kk ≠ KStr "max_capacity") by (by intros ->).
    simpl. by rewrite !lookup_insert_ne.
Qed.

Lemma migrateToV3_keeps (data : doc) (k : string) (p : list sel) (v : value) :
  field data k p = Some v →
  (descends 3 k p = true → isContainer v = false) →
  ∃ data', migrateToV3 data = Returned data' None ∧ field data' k p = Some v.
Proof.
  intros Hf Hdesc. eexists. split; [reflexivity|].
  apply field_withMap; [done|..].
  - intros -> Hroot. apply Hdesc. simpl. by rewrite Hroot.
  - intros -> sub kk x p' Hsub -> Hkk Hget.
    repeat apply lookup_setIfAbsent_Some.
    destruct (negb _); [by apply lookup_setIfAbsent_Some|done].
Qed.

Lemma migrateToV4_keeps (data : doc) (k : string) (p : list sel) (v : value) :
  field data k p = Some v →
  (descends 4 k p = true → isContainer v = false) →
  repairs 4 k p v = false →
  ∃ data', migrateToV4 data = Returned data' None ∧ field data' k p = Some v.
Proof.
  intros Hf Hdesc Hrep. eexists. split; [reflexivity|].
  apply field_withMap; [done|..].
  - intros -> Hroot. apply Hdesc. simpl. by rewrite Hroot.
  - intros -> sub kk x p' Hsub -> Hkk Hget.
    assert (∀ f d (m : gmap key value),
              inList f ["backend_desired_count";
                        "backend_autoscaling_min_capacity";
                        "backend_autoscaling_max_capacity"] = true →
              m !! kk = Some x → fixZeroInt (KStr f) d m !! kk = Some x) as Hzero.
    { intros f d m Hin Hm. apply lookup_fixZeroInt_Some; [done|].
      intros [-> ->]. apply get_in_scalar in Hget as [-> ->]; [|done..].
      cbn -[inList] in Hrep. by rewrite Hin in Hrep. }
    assert (∀ f d (m : gmap key value),
              inList f ["backend_cpu"; "backend_memory"] = true →
              m !! kk = Some x → fixEmptyString (KStr f) d m !! kk = Some x)
      as Hempty.
    { intros f d m Hin Hm. apply lookup_fixEmptyString_Some; [done|].
      intros [-> ->]. apply get_in_scalar in Hget as [-> ->]; [|done..].
      cbn -[inList] in Hrep. by rewrite Hin in Hrep. }
    apply lookup_setIfAbsent_Some.
    apply Hempty; [done|]. apply Hempty; [done|].
    apply Hzero; [done|]. apply Hzero; [done|].
    apply lookup_setIfAbsent_Some. by apply Hzero.
Qed.

Lemma migrateToV5_keeps (data : doc) (k : string) (p : list sel) (v : value) :
  field data k p = Some v →
  ∃ data', migrateToV5 data = Returned data' None ∧ field data' k p = Some v.
Proof.
  intros Hf. eexists. split; [reflexivity|]. by do 2 apply field_setIfAbsent.
Qed.

Lemma migrateToV6_keeps (data : doc) (k : string) (p : list sel) (v : value) :
  field data k p = Some v →
  repairs 6 k p v = false →
  ∃ data', migrateToV6 data = Returned data' None ∧ field data' k p = Some v.
Proof.
  intros Hf Hrep. eexists. split; [reflexivity|].
  cbn -[inList] in Hrep. apply orb_false_elim in Hrep as [Hcidr Hdep].
  apply inList_false in Hdep. unfold deprecatedKeys in Hdep.
  split_notin Hdep.
  rewrite !field_deleteIfPresent_ne by done.
  pose proof (field_setIfAbsent data "use_default_vpc" k (VBool true) v p Hf)
    as Hf1.
  destruct (setIfAbsent _ _ _ !! "vpc_cidr") as [c|] eqn:Hc; [|done].
  destruct (eq_string c "") eqn:Hempty; [|done].
  destruct (decide (k = "vpc_cidr")) as [->|Hne].
  - exfalso. unfold field in Hf1. rewrite Hc in Hf1. simpl in Hf1.
    destruct c; try done. simpl in Hempty.
    apply get_in_scalar in Hf1 as [-> ->]; [|done..].
    simpl in Hcidr. by rewrite Hempty in Hcidr.
  - rewrite <- Hf1. apply field_outside. by apply lookup_insert_ne.
Qed.

Lemma migrateToV7_keeps (data : doc) (k : string) (p : list sel) (v : value) :
  field data k p = Some v →
  ∃ data', migrateToV7 data = Returned data' None ∧ field data' k p = Some v.
Proof.
  intros Hf. eexists. split; [reflexivity|]. do 2 apply field_setIfAbsent.
  destruct (data !! "ecr_strategy") eqn:Hs; [done|].
  cbv zeta. repeat case_match; by apply field_insert_absent.
Qed.

Lemma migrateToV8_keeps (data : doc) (k : string) (p : list sel) (v : value) :
  field data k p = Some v →
  ∃ data', migrateToV8 data = Returned data' None ∧ field data' k p = Some v.
Proof.
  intros Hf. eexists. split; [reflexivity|]. by apply field_setIfAbsent.
Qed.

Lemma migrateV8ToV9_keeps (data : doc) (k : string) (p : list sel) (v : value) :
  field data k p = Some v →
  (descends 10 k p = true → isContainer v = false) →
  ∃ data', migrateV8ToV9 data = Returned data' None ∧ field data' k p = Some v.
Proof.
  intros Hf Hdesc.
  assert (∀ k0 d,
            k0 ∈ ["services"; "event_processor_tasks"; "scheduled_tasks"] →
            field d k p = Some v → field (migrateECRList k0 d).1 k p = Some v)
    as Hlist.
  { intros k0 d Hk0 Hd. apply field_migrateECRList; [done|].
    intros ->. apply inList_true in Hk0.
    destruct p as [|[kk|i|f] [|s p']]; try done;
      apply Hdesc; simpl in *; by rewrite Hk0. }
  unfold migrateV8ToV9.
  pose proof (Hlist "services" data) as F1.
  destruct (migrateECRList "services" data) as [d1 c1].
  pose proof (Hlist "event_processor_tasks" d1) as F2.
  destruct (migrateECRList "event_processor_tasks" d1) as [d2 c2].
  pose proof (Hlist "scheduled_tasks" d2) as F3.
  destruct (migrateECRList "scheduled_tasks" d2) as [d3 c3].
  simpl in *. eexists. split; [reflexivity|].
  apply F3; [set_solver|]. apply F2; [set_solver|]. apply F1; [set_solver|done].
Qed.

Lemma migrateToV12_withMap (data : doc) :
  migrateToV12 data
  = Returned (withMap "postgres" (addBooleanDefaults booleanDefaults) data) None.
Proof.
  unfold migrateToV12, withMap. by destruct (data !! "postgres") as [[]|].
Qed.

Lemma migrateToV12_keeps (data : doc) (k : string) (p : list sel) (v : value) :
  field data k p = Some v →
  (descends 12 k p = true → isContainer v = false) →
  ∃ data', migrateToV12 data = Returned data' None ∧ field data' k p = Some v.
Proof.
  intros Hf Hdesc. rewrite migrateToV12_withMap. eexists. split; [reflexivity|].
  apply field_withMap; [done|..].
  - intros -> Hroot. apply Hdesc. simpl. by rewrite Hroot.
  - intros -> sub kk x p' Hsub -> Hkk Hget.
    by apply lookup_addBooleanDefaults_Some.
Qed.

(** C1, as stated, fails: the step for version 4 finds
    [backend_desired_count: 0] and writes 1 over it. *)
Lemma migrateToV4_overwrites_zero :
  field doc_zero_count "workload" [Key (KStr "backend_desired_count")]
    = Some (VInt 0) ∧
  ∃ data',
    migrateToV4 doc_zero_count = Returned data' None ∧
    field data' "workload" [Key (KStr "backend_desired_count")] = Some (VInt 1).
Proof. split; [reflexivity|]. eexists. split; reflexivity. Qed.

(** C1, amended. Take any registered step other than the two that rewrite
    rather than add (versions 9 and 11), any document, and any field of it,
    at any depth, that holds a value [v].  Unless the field is a mapping or
    list that the step itself extends, the step returns nil and the field
    still holds [v] afterwards, for every [v] (false, zero and the empty
    string included), with these exceptions: version 4 replaces an integer
    zero in [backend_desired_count], [backend_autoscaling_min_capacity] and
    [backend_autoscaling_max_capacity] and an empty string in [backend_cpu]
    and [backend_memory]; version 6 replaces an empty [vpc_cidr] and deletes
    [az_count], [create_private_subnets] and [enable_nat_gateway].  Nothing
    is said about [min_capacity] and [max_capacity] of a [postgres] mapping
    that has no [aurora] under the step for version 2. *)
Theorem defaults_keep_fields (m : Migration) (data : doc) (k : string)
    (p : list sel) (v : value) :
  m ∈ AllMigrations → Version m ≠ 9 → Version m ≠ 11 →
  field data k p = Some v →
  (descends (Version m) k p = true → isContainer v = false) →
  repairs (Version m) k p v = false →
  besideAurora (Version m) data k p = false →
  ∃ data', Apply m data = Returned data' None ∧ field data' k p = Some v.
Proof.
  intros Hm H9 H11 Hf Hdesc Hrep Hbes. registry_cases Hm; try done.
  - by apply migrateToV2_keeps.
  - by apply migrateToV3_keeps.
  - by apply migrateToV4_keeps.
  - by apply migrateToV5_keeps.
  - by apply migrateToV6_keeps.
  - by apply migrateToV7_keeps.
  - by apply migrateToV8_keeps.
  - by apply migrateV8ToV9_keeps.
  - by apply migrateToV12_keeps.
Qed.

Lemma defaults_keep_fields_witness :
  ∃ data',
    migrateToV12 doc_falsy_postgres = Returned data' None ∧
    field data' "postgres" [Key (KStr "storage_encrypted")] = Some (VBool false).
Proof.
  apply (defaults_keep_fields
           {| Version := 12;
              Description := "Ensure all postgres boolean fields have explicit default values";
              Apply := migrateToV12 |}
           doc_falsy_postgres "postgres" [Key (KStr "storage_encrypted")]
           (VBool false)).
  - unfold AllMigrations. do 10 apply list_elem_of_further.
    apply list_elem_of_here.
  - simpl. lia.
  - simpl. lia.
  - reflexivity.
  - reflexivity.
  - reflexivity.
  - reflexivity.
Defined.

(** * Further properties *)

(** ** What a run touches, and when it returns *)

(** A step leaves every top-level key outside its own list exactly as it
    found it: present with the same value, or absent. *)
Theorem steps_touch_only_their_keys (m : Migration) (data data' : doc)
    (err : error) (k : string) :
  m ∈ AllMigrations → Apply m data = Returned data' err →
  k ∉ touched (Version m) → data' !! k = data !! k.
Proof. apply step_frame. Qed.

Lemma steps_touch_only_their_keys_witness :
  ∃ data',
    migrateToV6 doc_with_project = Returned data' None ∧
    data' !! "project" = doc_with_project !! "project".
Proof.
  eexists. split; [reflexivity|].
  apply (steps_touch_only_their_keys
           {| Version := 6;
              Description := "Add custom VPC configuration";
              Apply := migrateToV6 |}
           doc_with_project _ None "project").
  - unfold AllMigrations. do 4 apply list_elem_of_further.
    apply list_elem_of_here.
  - reflexivity.
  - simpl. repeat (apply not_elem_of_cons; split; [done|]).
    apply not_elem_of_nil.
Defined.

Lemma touched_managed (m : Migration) (k : string) :
  m ∈ AllMigrations → k ∉ managedKeys → k ∉ touched (Version m).
Proof.
  intros Hm Hk Hin. apply Hk. unfold managedKeys.
  apply list_elem_of_further.
  registry_cases Hm;
    repeat (apply elem_of_cons in Hin as [-> | Hin]);
    try (by apply elem_of_nil in Hin);
    apply (bool_decide_unpack _); by vm_compute.
Qed.

(** A run from any version leaves every key that no step manages (the
    user's own keys: project name, region, ...) exactly as it found it. *)
Theorem run_leaves_foreign_keys (data data' : doc) (cur : Z) (err : error)
    (k : string) :
  applyMigrations data cur = Returned data' err →
  k ∉ managedKeys → data' !! k = data !! k.
Proof.
  intros Hrun Hk. unfold applyMigrations, applyMigrationsWith in Hrun.
  destruct (CurrentSchemaVersion <=? cur); [by injection Hrun as <-|].
  destruct (runMigrations AllMigrations data cur) as [d e|] eqn:Hsteps;
    [|done].
  assert (d !! k = data !! k) as Hd.
  { eapply (runMigrations_preserves (fun d0 => d0 !! k = data !! k));
      [|done|exact Hsteps].
    intros m Hm _ d0 d1 e0 HP Hap. rewrite <- HP.
    apply (step_frame m d0 d1 e0 k Hm Hap). by apply touched_managed. }
  assert (k ≠ "schema_version") as Hsv.
  { intros ->. apply Hk. apply list_elem_of_here. }
  destruct e as [msg|]; injection Hrun as <-; [done|].
  by rewrite lookup_insert_ne.
Qed.

Lemma run_leaves_foreign_keys_witness :
  ∃ data',
    applyMigrations doc_with_project 1 = Returned data' None ∧
    data' !! "region" = doc_with_project !! "region".
Proof.
  eexists. split.
  - vm_compute. reflexivity.
  - apply (run_leaves_foreign_keys doc_with_project _ 1 None "region").
    + vm_compute. reflexivity.
    + apply (bool_decide_unpack _). by vm_compute.
Defined.





(** ** Detection without a usable stamp *)

(** A [schema_version] that does not hold an integer (a quoted number, a
    float, null, ...) is not an error: it is ignored, the version is sniffed
    from the markers as if the key were absent, and the answer lies between
    1 and 5, so the document is migrated. *)
Theorem detect_ignores_non_int_stamp (data : doc) :
  (∀ n, data !! "schema_version" ≠ Some (VInt n)) →
  detectSchemaVersion data = detectSchemaVersion (delete "schema_version" data) ∧
  1 ≤ detectSchemaVersion data ≤ 5.
Proof.
  intros Hstamp. split.
  - unfold detectSchemaVersion. rewrite lookup_delete_eq.
    rewrite !lookup_delete_ne by done.
    destruct (data !! "schema_version") as [[]|] eqn:Hs; try done.
    by destruct (Hstamp n).
  - unfold detectSchemaVersion.
    destruct (data !! "schema_version") as [[]|] eqn:Hs;
      try (by destruct (Hstamp n));
      (destruct (data !! "account_id"); [lia|]);
      repeat match goal with
             | |- context [if ?b then _ else _] => destruct b
             end; lia.
Qed.

Lemma detect_ignores_non_int_stamp_witness :
  detectSchemaVersion doc_string_stamp
    = detectSchemaVersion (delete "schema_version" doc_string_stamp) ∧
  1 ≤ detectSchemaVersion doc_string_stamp ≤ 5.
Proof.
  apply (detect_ignores_non_int_stamp doc_string_stamp).
  intros n. vm_compute. discriminate.
Defined.

(** ** The deprecated networking keys over a whole run *)

(** A run that starts from version 5 or lower and returns leaves none of
    [az_count], [create_private_subnets], [enable_nat_gateway] behind, and
    leaves [use_default_vpc] present: with the value the document had, or
    [true]. *)
Theorem run_from_5_down_cleans_vpc (data data' : doc) (cur : Z) (err : error) :
  cur ≤ 5 → applyMigrations data cur = Returned data' err →
  vpcCleaned data data'.
Proof.
  intros Hcur Hrun.
  pose proof (applyMigrations_no_error _ _ _ _ Hrun) as ->.
  unfold applyMigrations, applyMigrationsWith in Hrun.
  destruct (Z.leb_spec CurrentSchemaVersion cur); [unfold CurrentSchemaVersion in *; lia|].
  change AllMigrations with (take 4 AllMigrations ++ drop 4 AllMigrations) in Hrun.
  rewrite runMigrations_app in Hrun.
  destruct (runMigrations (take 4 AllMigrations) data cur) as [d4 [e4|]|]
    eqn:H4; try done.
  assert (∀ k, k ∈ "use_default_vpc" :: deprecatedKeys → d4 !! k = data !! k)
    as Hkeep4.
  { eapply (runMigrations_preserves
              (fun d => ∀ k, k ∈ "use_default_vpc" :: deprecatedKeys →
                             d !! k = data !! k)); [|done|exact H4].
    intros m Hm _ d0 d1 e HP Hap k Hk. rewrite <- (HP k Hk).
    assert (m ∈ AllMigrations) as Hall by (eapply subseteq_take, Hm).
    apply (step_frame m d0 d1 e k Hall Hap).
    unfold deprecatedKeys in Hk. simpl in Hm.
    repeat (apply elem_of_cons in Hm as [-> | Hm]);
      [..|by apply elem_of_nil in Hm];
      repeat (apply elem_of_cons in Hk as [-> | Hk]);
      try (by apply elem_of_nil in Hk);
      simpl; repeat (apply not_elem_of_cons; split; [done|]);
      apply not_elem_of_nil. }
  destruct (migrateToV6_cleans d4) as (d6 & H6 & [Hvpc6 Hgone6]).
  cbn -[migrateToV6 migrateToV7 migrateToV8 migrateToV9 migrateV8ToV9
        migrateToV11 migrateToV12 runMigrations] in Hrun.
  change (runMigrations ?l d4 cur) with
    (runMigrations ({| Version := 6;
                       Description := "Add custom VPC configuration";
                       Apply := migrateToV6 |} :: stepsAfter 6) d4 cur) in Hrun.
  cbn [runMigrations Version Apply] in Hrun.
  destruct (Z.ltb_spec cur 6); [|lia]. rewrite H6 in Hrun.
  destruct (runMigrations (stepsAfter 6) d6 cur) as [d [e|]|] eqn:Hrest;
    try done.
  injection Hrun as <-.
  assert (∀ k, k ∈ "use_default_vpc" :: deprecatedKeys → d !! k = d6 !! k)
    as Hkeep.
  { eapply (runMigrations_preserves
              (fun d => ∀ k, k ∈ "use_default_vpc" :: deprecatedKeys →
                             d !! k = d6 !! k)); [|done|exact Hrest].
    intros m Hm _ d0 d1 e HP Hap k Hk. rewrite <- (HP k Hk).
    by apply (later_step_keeps_vpc_keys m d0 d1 e k). }
  split.
  - rewrite lookup_insert_ne by done.
    rewrite Hkeep by apply list_elem_of_here.
    rewrite Hvpc6. by rewrite Hkeep4 by apply list_elem_of_here.
  - intros k Hk.
    assert ("schema_version" ≠ k).
    { unfold deprecatedKeys in Hk.
      repeat (apply elem_of_cons in Hk as [-> | Hk]); try done.
      by apply elem_of_nil in Hk. }
    rewrite lookup_insert_ne by done.
    rewrite Hkeep by (by apply list_elem_of_further). by apply Hgone6.
Qed.

Lemma run_from_5_down_cleans_vpc_witness :
  ∃ data',
    applyMigrations doc_with_project 1 = Returned data' None ∧
    vpcCleaned doc_with_project data'.
Proof.
  eexists. split.
  - vm_compute. reflexivity.
  - apply (run_from_5_down_cleans_vpc doc_with_project _ 1 None).
    + lia.
    + vm_compute. reflexivity.
Defined.

(** A run that starts from version 6 or higher never removes the deprecated
    keys: a document stamped 7 or more that still carries one keeps it (only
    the stamp 6 makes the detector fall back to 5). *)
Theorem run_from_6_up_keeps_residue (data data' : doc) (cur : Z) (err : error)
    (k : string) :
  6 ≤ cur → applyMigrations data cur = Returned data' err →
  k ∈ deprecatedKeys → data' !! k = data !! k.
Proof.
  intros Hcur Hrun Hk.
  assert (k ≠ "schema_version") as Hsv.
  { unfold deprecatedKeys in Hk.
    repeat (apply elem_of_cons in Hk as [-> | Hk]); try done.
    by apply elem_of_nil in Hk. }
  unfold applyMigrations, applyMigrationsWith in Hrun.
  destruct (CurrentSchemaVersion <=? cur); [by injection Hrun as <-|].
  destruct (runMigrations AllMigrations data cur) as [d e|] eqn:Hsteps;
    [|done].
  assert (d !! k = data !! k) as Hd.
  { eapply (runMigrations_preserves (fun d0 => d0 !! k = data !! k));
      [|done|exact Hsteps].
    intros m Hm Hv d0 d1 e0 HP Hap. rewrite <- HP.
    apply (step_frame m d0 d1 e0 k Hm Hap).
    unfold deprecatedKeys in Hk. clear Hsteps Hrun HP Hap.
    registry_cases Hm; try lia;
      repeat (apply elem_of_cons in Hk as [-> | Hk]);
      try (by apply elem_of_nil in Hk);
      repeat (apply not_elem_of_cons; split; [done|]); apply not_elem_of_nil. }
  destruct e as [msg|]; injection Hrun as <-; [done|].
  by rewrite lookup_insert_ne.
Qed.

Lemma run_from_6_up_keeps_residue_witness :
  detectSchemaVersion doc_stale_v8 = 8 ∧
  ∃ data',
    migrate doc_stale_v8 = Returned data' None ∧
    data' !! "az_count" = Some (VInt 3).
Proof.
  split; [reflexivity|]. eexists. split.
  - vm_compute. reflexivity.
  - change (Some (VInt 3)) with (doc_stale_v8 !! "az_count").
    apply (run_from_6_up_keeps_residue doc_stale_v8 _ 8 None "az_count").
    + lia.
    + vm_compute. reflexivity.
    + unfold deprecatedKeys. apply list_elem_of_here.
Defined.

(** ** Top-level defaults over a whole run *)

Lemma is_Some_setIfAbsent `{Countable K} (m : gmap K value) (k k0 : K)
    (v : value) :
  is_Some (m !! k) → is_Some (setIfAbsent k0 v m !! k).
Proof. intros [x Hx]. exists x. by apply lookup_setIfAbsent_Some. Qed.

Lemma is_Some_setIfAbsent_same `{Countable K} (m : gmap K value) (k : K)
    (v : value) :
  is_Some (setIfAbsent k v m !! k).
Proof. rewrite lookup_setIfAbsent_eq. eauto. Qed.

Lemma is_Some_withMap (data : doc) (k k0 : string) body :
  is_Some (data !! k) → is_Some (withMap k0 body data !! k).
Proof.
  intros Hk. unfold withMap. destruct (data !! k0) as [[]|] eqn:Hk0; try done.
  apply lookup_insert_is_Some. destruct (decide (k0 = k)); eauto.
Qed.

Lemma is_Some_insert (data : doc) (k k0 : string) (v : value) :
  is_Some (data !! k) → is_Some (<[k0 := v]> data !! k).
Proof.
  intros Hk. apply lookup_insert_is_Some. destruct (decide (k0 = k)); eauto.
Qed.

Lemma is_Some_migrateECRList (data : doc) (k k0 : string) :
  is_Some (data !! k) → is_Some ((migrateECRList k0 data).1 !! k).
Proof.
  intros Hk. unfold migrateECRList. destruct (data !! k0) as [[]|]; try done.
  destruct (addDefaultECRConfig l). simpl. by apply is_Some_insert.
Qed.

(** No step removes a top-level key, the three deprecated ones apart. *)
Lemma step_keeps_present (m : Migration) (data data' : doc) (err : error)
    (k : string) :
  m ∈ AllMigrations → Apply m data = Returned data' err →
  k ∉ deprecatedKeys → is_Some (data !! k) → is_Some (data' !! k).
Proof.
  intros Hm Hr Hdep Hk. registry_cases Hm.
  - unfold migrateToV2 in Hr. simplify_eq.
    by apply is_Some_setIfAbsent, is_Some_withMap.
  - unfold migrateToV3 in Hr. simplify_eq. by apply is_Some_withMap.
  - unfold migrateToV4 in Hr. simplify_eq. by apply is_Some_withMap.
  - unfold migrateToV5 in Hr. simplify_eq. by do 2 apply is_Some_setIfAbsent.
  - unfold migrateToV6 in Hr. simplify_eq.
    unfold deprecatedKeys in Hdep. split_notin Hdep.
    rewrite !lookup_deleteIfPresent_ne by done.
    repeat case_match; try apply is_Some_insert; by apply is_Some_setIfAbsent.
  - unfold migrateToV7 in Hr. simplify_eq. do 2 apply is_Some_setIfAbsent.
    cbv zeta. repeat case_match; try apply is_Some_insert; done.
  - unfold migrateToV8 in Hr. simplify_eq. by apply is_Some_setIfAbsent.
  - unfold migrateToV9 in Hr.
    repeat case_match; simplify_eq; try apply is_Some_insert; done.
  - unfold migrateV8ToV9 in Hr.
    pose proof (is_Some_migrateECRList data k "services" Hk) as F1.
    destruct (migrateECRList "services" data) as [d1 c1].
    pose proof (is_Some_migrateECRList d1 k "event_processor_tasks" F1) as F2.
    destruct (migrateECRList "event_processor_tasks" d1) as [d2 c2].
    pose proof (is_Some_migrateECRList d2 k "scheduled_tasks" F2) as F3.
    destruct (migrateECRList "scheduled_tasks" d2) as [d3 c3].
    by simplify_eq.
  - unfold migrateToV11 in Hr.
    repeat case_match; simplify_eq; try apply is_Some_insert; done.
  - unfold migrateToV12 in Hr.
    repeat case_match; simplify_eq; try apply is_Some_insert; done.
Qed.

Lemma runMigrations_establishes (Q : doc → Prop) (steps : list Migration)
    (cur : Z) (m0 : Migration) :
  m0 ∈ steps → cur < Version m0 →
  (∀ d d', Apply m0 d = Returned d' None → Q d') →
  (∀ m, m ∈ steps → ∀ d d' e, Q d → Apply m d = Returned d' e → Q d') →
  ∀ data data', runMigrations steps data cur = Returned data' None → Q data'.
Proof.
  intros Hin Hv Hest. induction steps as [|m steps IH]; intros Hkeep data data'.
  - by apply elem_of_nil in Hin.
  - assert (∀ d, Q d → runMigrations steps d cur = Returned data' None → Q data')
      as Hrest.
    { intros d HQ. apply (runMigrations_preserves Q steps cur); [|done].
      intros m' Hm' _. apply Hkeep. by apply list_elem_of_further. }
    simpl. apply elem_of_cons in Hin as [<-|Hin].
    + destruct (Z.ltb_spec cur (Version m0)); [|lia].
      destruct (Apply m0 data) as [d1 [e|]|] eqn:Hap; try done.
      apply Hrest. by eapply Hest.
    + assert (∀ d, runMigrations steps d cur = Returned data' None → Q data')
        as IH'.
      { intros d. apply IH; [done|]. intros m' Hm'. apply Hkeep.
        by apply list_elem_of_further. }
      destruct (cur <? Version m); [|apply IH'].
      destruct (Apply m data) as [d1 [e|]|]; try done. apply IH'.
Qed.

(** A returning run that includes the step for version [v] leaves the
    top-level defaults of that step present: [alb] from version 1,
    [account_id] and [aws_profile] from 4 or lower, [use_default_vpc] from 5
    or lower, the three ECR keys from 6 or lower, [ecr_trusted_accounts]
    from 7 or lower; and from 11 or lower the stamp is the integer 12. *)
Theorem run_establishes_defaults (data data' : doc) (cur : Z) (err : error) :
  applyMigrations data cur = Returned data' err →
  (cur < 2 → is_Some (data' !! "alb")) ∧
  (cur < 5 → is_Some (data' !! "account_id") ∧ is_Some (data' !! "aws_profile")) ∧
  (cur < 6 → is_Some (data' !! "use_default_vpc")) ∧
  (cur < 7 → is_Some (data' !! "ecr_strategy") ∧
             is_Some (data' !! "ecr_account_id") ∧
             is_Some (data' !! "ecr_account_region")) ∧
  (cur < 8 → is_Some (data' !! "ecr_trusted_accounts")) ∧
  (cur < 12 → data' !! "schema_version" = Some (VInt 12)).
Proof.
  intros Hrun.
  assert (∀ (n : nat) (m : Migration) (k : string),
            AllMigrations !! n = Some m →
            k ∈ ["alb"; "account_id"; "aws_profile"; "use_default_vpc";
                 "ecr_strategy"; "ecr_account_id"; "ecr_account_region";
                 "ecr_trusted_accounts"] →
            (∀ d d', Apply m d = Returned d' None → is_Some (d' !! k)) →
            cur < Version m → is_Some (data' !! k)) as Hkey.
  { intros n m k Hn Hk Hest Hv.
    assert (m ∈ AllMigrations) as Hin by (by eapply list_elem_of_lookup_2).
    assert (k ∉ deprecatedKeys) as Hdep.
    { clear -Hk. intros Hin. unfold deprecatedKeys in Hin.
      repeat (apply elem_of_cons in Hk as [-> | Hk]);
        try (by apply elem_of_nil in Hk);
        repeat (apply elem_of_cons in Hin as [? | Hin]); try done;
        by apply elem_of_nil in Hin. }
    assert (Version m ≤ 12) as Hle.
    { clear -Hin. registry_cases Hin; lia. }
    pose proof (applyMigrations_no_error _ _ _ _ Hrun) as ->.
    unfold applyMigrations, applyMigrationsWith in Hrun.
    destruct (Z.leb_spec CurrentSchemaVersion cur);
      [unfold CurrentSchemaVersion in *; lia|].
    destruct (runMigrations AllMigrations data cur) as [d [e|]|] eqn:Hsteps;
      try done.
    injection Hrun as <-. apply is_Some_insert.
    eapply (runMigrations_establishes (fun d0 => is_Some (d0 !! k))
              AllMigrations cur m Hin); [done|exact Hest| |exact Hsteps].
    intros m' Hm' d0 d1 e HQ Hap. by eapply step_keeps_present. }
  assert (∀ k l, bool_decide (k ∈ l) = true → k ∈ (l : list string)) as Hmem.
  { intros k l. apply bool_decide_eq_true_1. }
  split; [intros Hv|split; [intros Hv; split|split; [intros Hv|
    split; [intros Hv; split; [|split]|split; [intros Hv|intros Hv]]]]].
  - eapply (Hkey 0%nat); [reflexivity|by apply Hmem| |done].
    intros d d' [= <-]. apply is_Some_setIfAbsent_same.
  - eapply (Hkey 3%nat); [reflexivity|by apply Hmem| |done].
    intros d d' [= <-]. apply is_Some_setIfAbsent, is_Some_setIfAbsent_same.
  - eapply (Hkey 3%nat); [reflexivity|by apply Hmem| |done].
    intros d d' [= <-]. apply is_Some_setIfAbsent_same.
  - eapply (Hkey 4%nat); [reflexivity|by apply Hmem| |done].
    intros d d' Hd. destruct (migrateToV6_cleans d) as (d6 & H6 & [Hvpc _]).
    simpl in Hd. rewrite H6 in Hd. injection Hd as <-. rewrite Hvpc. eauto.
  - eapply (Hkey 5%nat); [reflexivity|by apply Hmem| |done].
    intros d d' [= <-]. do 2 apply is_Some_setIfAbsent.
    cbv zeta. repeat case_match; try (rewrite lookup_insert_eq); eauto.
  - eapply (Hkey 5%nat); [reflexivity|by apply Hmem| |done].
    intros d d' [= <-]. apply is_Some_setIfAbsent, is_Some_setIfAbsent_same.
  - eapply (Hkey 5%nat); [reflexivity|by apply Hmem| |done].
    intros d d' [= <-]. apply is_Some_setIfAbsent_same.
  - eapply (Hkey 6%nat); [reflexivity|by apply Hmem| |done].
    intros d d' [= <-]. apply is_Some_setIfAbsent_same.
  - eapply applyMigrations_stamps; [|exact Hrun].
    unfold CurrentSchemaVersion. lia.
Qed.

Lemma run_establishes_defaults_witness :
  ∃ data',
    applyMigrations doc_with_project 1 = Returned data' None ∧
    is_Some (data' !! "alb") ∧
    is_Some (data' !! "ecr_strategy") ∧
    data' !! "schema_version" = Some (VInt 12).
Proof.
  pose (data' := match applyMigrations doc_with_project 1 with
                 | Returned d _ => d
                 | Panicked => ∅
                 end).
  assert (applyMigrations doc_with_project 1 = Returned data' None) as Hrun.
  { vm_compute. reflexivity. }
  exists data'. split; [exact Hrun|].
  destruct (run_establishes_defaults doc_with_project data' 1 None Hrun)
    as (Halb & _ & _ & Hecr & _ & Hstamp).
  split; [apply Halb; lia|]. split; [apply Hecr; lia|apply Hstamp; lia].
Defined.

(** ** DNS fields (target version 3) *)

(** On a document whose [domain] is a mapping, the step returns nil and only
    rewrites [domain]: every entry of the mapping keeps its value, each of
    the seven DNS fields is present afterwards (with its default where it
    was missing), [zone_id] is added (empty) exactly when it was missing and
    [create_domain_zone] is the boolean false, and no other key appears.  A
    [create_domain_zone] that is missing or not a boolean counts as true. *)
Theorem migrateToV3_fields (data : doc) (domain : gmap key value) :
  data !! "domain" = Some (VMap domain) →
  ∃ domain',
    migrateToV3 data = Returned (<["domain" := VMap domain']> data) None ∧
    (∀ k x, domain !! k = Some x → domain' !! k = Some x) ∧
    (∀ f d, (f, d) ∈ dnsDefaults →
       domain' !! KStr f = Some (default d (domain !! KStr f))) ∧
    (createDomainZone domain = false ↔
       domain !! KStr "create_domain_zone" = Some (VBool false)) ∧
    domain' !! KStr "zone_id"
      = (if createDomainZone domain then domain !! KStr "zone_id"
         else Some (default (VStr "") (domain !! KStr "zone_id"))) ∧
    (∀ k, domain !! k = None → k ≠ KStr "zone_id" →
       (∀ f d, (f, d) ∈ dnsDefaults → k ≠ KStr f) → domain' !! k = None).
Proof.
  intros Hd. unfold migrateToV3, withMap. rewrite Hd.
  eexists. split; [reflexivity|]. cbv zeta.
  set (zoned := if negb _ then _ else _).
  assert (∀ k, k ≠ KStr "zone_id" → zoned !! k = domain !! k) as Hzne.
  { intros k Hk. subst zoned. destruct (negb _); [|done].
    by apply lookup_setIfAbsent_ne. }
  assert (∀ k x, domain !! k = Some x → zoned !! k = Some x) as Hzkeep.
  { intros k x Hk. subst zoned. destruct (negb _); [|done].
    by apply lookup_setIfAbsent_Some. }
  split; [|split; [|split; [|split]]].
  - intros k x Hk. repeat apply lookup_setIfAbsent_Some. by apply Hzkeep.
  - intros f d Hf. unfold dnsDefaults in Hf.
    repeat (apply elem_of_cons in Hf as [[= -> ->] | Hf]);
      [..|by apply elem_of_nil in Hf];
      rewrite ?lookup_setIfAbsent_ne by done;
      rewrite lookup_setIfAbsent_eq;
      rewrite ?lookup_setIfAbsent_ne by done;
      by rewrite Hzne.
  - unfold createDomainZone.
    destruct (domain !! KStr "create_domain_zone") as [[| [] | | | | | |]|];
      split; (done || congruence).
  - rewrite !lookup_setIfAbsent_ne by done. subst zoned.
    unfold createDomainZone.
    destruct (domain !! KStr "create_domain_zone") as [[| [] | | | | | |]|];
      simpl; try done; apply lookup_setIfAbsent_eq.
  - intros k Hk Hz Hf.
    assert (∀ f d, (f, d) ∈ dnsDefaults → k ≠ KStr f) as Hf' by done.
    rewrite !lookup_setIfAbsent_ne; [by rewrite Hzne|..];
      (eapply Hf'; unfold dnsDefaults;
       repeat first [apply list_elem_of_here | apply list_elem_of_further]).
Qed.

Lemma migrateToV3_fields_witness :
  ∃ domain',
    migrateToV3 doc_existing_zone
      = Returned (<["domain" := VMap domain']> doc_existing_zone) None ∧
    domain' !! KStr "zone_id" = Some (VStr "") ∧
    domain' !! KStr "is_dns_root" = Some (VBool true).
Proof.
  pose proof (migrateToV3_fields doc_existing_zone
                {[ KStr "domain_name" := VStr "example.com";
                   KStr "create_domain_zone" := VBool false;
                   KStr "is_dns_root" := VBool true ]} eq_refl) as Hthm.
  destruct Hthm as (domain' & Hrun & Hkeep & _ & _ & Hzone & _).
  exists domain'. split; [exact Hrun|]. split.
  - rewrite Hzone. reflexivity.
  - apply Hkeep. reflexivity.
Defined.

(** On a document whose [domain] is missing or is not a mapping, the step
    returns nil and changes nothing. *)
Theorem migrateToV3_without_domain_mapping (data : doc) :
  (∀ domain, data !! "domain" ≠ Some (VMap domain)) →
  migrateToV3 data = Returned data None.
Proof.
  intros Hd. unfold migrateToV3, withMap.
  destruct (data !! "domain") as [[]|] eqn:Hdom; try done.
  by destruct (Hd m).
Qed.

Lemma migrateToV3_without_domain_mapping_witness :
  migrateToV3 doc_with_project = Returned doc_with_project None.
Proof.
  apply (migrateToV3_without_domain_mapping doc_with_project).
  intros domain. vm_compute. discriminate.
Defined.

(** ** ECR strategy (target version 7) *)



(** ** Per-item ECR configuration (target version 10) *)

Lemma ensureECRConfig_spec (item : value) :
  ecrCompleted item (ensureECRConfig item).1 ∧
  (ensureECRConfig item).2 = 0 ∨
  ecrCompleted item (ensureECRConfig item).1 ∧
  (ensureECRConfig item).2 = 1.
Proof.
  destruct item; simpl; auto.
  destruct (m !! KStr "ecr_config") eqn:Hecr; simpl.
  - left. split; [|done]. exists m. by rewrite Hecr.
  - right. split; [|done]. eexists. split; [done|]. split.
    + by rewrite lookup_insert_eq.
    + intros kk Hkk. by rewrite lookup_insert_ne.
Qed.

Lemma addDefaultECRConfig_spec (items : list value) :
  length (addDefaultECRConfig items).1 = length items ∧
  0 ≤ (addDefaultECRConfig items).2 ≤ Z.of_nat (length items) ∧
  ∀ i item, items !! i = Some item →
    ∃ item', (addDefaultECRConfig items).1 !! i = Some item' ∧
             ecrCompleted item item'.
Proof.
  induction items as [|item items (IHlen & IHcount & IHitems)]; simpl.
  - repeat split; try lia. intros i item. by rewrite lookup_nil.
  - pose proof (ensureECRConfig_spec item) as Hitem.
    destruct (ensureECRConfig item) as [item' added].
    destruct (addDefaultECRConfig items) as [rest' count]. simpl in *.
    split; [by rewrite IHlen|]. split; [destruct Hitem as [[_ ->]|[_ ->]]; lia|].
    intros [|i] x Hx; simpl in *.
    + injection Hx as <-. exists item'. split; [done|].
      by destruct Hitem as [[? _]|[? _]].
    + by apply IHitems.
Qed.

(** For each of [services], [event_processor_tasks] and [scheduled_tasks]
    that holds a list, the step returns nil and leaves a list of the same
    length in which every mapping has an [ecr_config]: its own if it had
    one, the default [{mode: create_ecr}] otherwise.  The other entries of
    the mappings and the items that are not mappings are unchanged. *)
Theorem migrateV8ToV9_completes_lists (data : doc) (k : string)
    (items : list value) :
  k ∈ ecrLists → data !! k = Some (VList items) →
  ∃ data' items',
    migrateV8ToV9 data = Returned data' None ∧
    data' !! k = Some (VList items') ∧
    length items' = length items ∧
    ∀ i item, items !! i = Some item →
      ∃ item', items' !! i = Some item' ∧ ecrCompleted item item'.
Proof.
  intros Hk Hitems.
  destruct (addDefaultECRConfig_spec items) as (Hlen & _ & Hspec).
  unfold migrateV8ToV9.
  pose proof (lookup_migrateECRList_eq data "services") as E1.
  pose proof (fun k => lookup_migrateECRList_ne data k "services") as N1.
  destruct (migrateECRList "services" data) as [d1 c1].
  pose proof (lookup_migrateECRList_eq d1 "event_processor_tasks") as E2.
  pose proof (fun k => lookup_migrateECRList_ne d1 k "event_processor_tasks") as N2.
  destruct (migrateECRList "event_processor_tasks" d1) as [d2 c2].
  pose proof (lookup_migrateECRList_eq d2 "scheduled_tasks") as E3.
  pose proof (fun k => lookup_migrateECRList_ne d2 k "scheduled_tasks") as N3.
  destruct (migrateECRList "scheduled_tasks" d2) as [d3 c3].
  simpl in *. exists d3, (addDefaultECRConfig items).1.
  split; [done|]. split; [|done].
  unfold ecrLists in Hk.
  repeat (apply elem_of_cons in Hk as [-> | Hk]); [..|by apply elem_of_nil in Hk].
  - rewrite N3, N2, E1 by done. by rewrite Hitems.
  - rewrite N3, E2, N1 by done. by rewrite Hitems.
  - rewrite E3, N2, N1 by done. by rewrite Hitems.
Qed.

Lemma migrateV8ToV9_completes_lists_witness :
  ∃ data' items',
    migrateV8ToV9 doc_mixed_tasks = Returned data' None ∧
    data' !! "scheduled_tasks" = Some (VList items') ∧
    length items' = length mixed_tasks ∧
    ∀ i item,
      mixed_tasks !! i = Some item →
      ∃ item', items' !! i = Some item' ∧ ecrCompleted item item'.
Proof.
  apply (migrateV8ToV9_completes_lists doc_mixed_tasks "scheduled_tasks"
           mixed_tasks).
  - unfold ecrLists. do 2 apply list_elem_of_further. apply list_elem_of_here.
  - reflexivity.
Defined.

(** When none of the three keys holds a non-empty list (each is missing,
    null, not a list, or an empty list), the step returns nil and the
    document is unchanged. *)
Theorem migrateV8ToV9_nothing_to_do (data : doc) :
  (∀ k items, k ∈ ecrLists → data !! k = Some (VList items) → items = []) →
  migrateV8ToV9 data = Returned data None.
Proof.
  intros Hempty.
  assert (∀ k, k ∈ ecrLists → migrateECRList k data = (data, 0)) as Hskip.
  { intros k Hk. unfold migrateECRList.
    destruct (data !! k) as [[]|] eqn:Hdk; try done.
    rewrite (Hempty k l Hk Hdk). simpl. f_equal. apply insert_id.
    by rewrite Hdk, (Hempty k l Hk Hdk). }
  unfold migrateV8ToV9.
  rewrite !Hskip; [done|unfold ecrLists..];
    repeat first [apply list_elem_of_here | apply list_elem_of_further].
Qed.

Lemma migrateV8ToV9_nothing_to_do_witness :
  migrateV8ToV9 doc_existing_zone = Returned doc_existing_zone None.
Proof.
  apply (migrateV8ToV9_nothing_to_do doc_existing_zone).
  intros k items Hk. unfold ecrLists in Hk.
  repeat (apply elem_of_cons in Hk as [-> | Hk]);
    [..|by apply elem_of_nil in Hk]; vm_compute; discriminate.
Defined.

(** ** Postgres booleans (target version 12) *)

(** On a document whose [postgres] is a mapping, the step returns nil and
    only rewrites [postgres]: each of the five boolean fields is present
    afterwards, with the value it had (whatever its type) or else its
    default, and every other entry of the mapping is as before. *)
Theorem migrateToV12_fills_booleans (data : doc) (postgres : gmap key value) :
  data !! "postgres" = Some (VMap postgres) →
  ∃ postgres',
    migrateToV12 data = Returned (<["postgres" := VMap postgres']> data) None ∧
    (∀ f d, (f, d) ∈ booleanDefaults →
       postgres' !! KStr f = Some (default d (postgres !! KStr f))) ∧
    (∀ k, (∀ f d, (f, d) ∈ booleanDefaults → k ≠ KStr f) →
       postgres' !! k = postgres !! k).
Proof.
  intros Hp. unfold migrateToV12. rewrite Hp. eexists. split; [reflexivity|].
  unfold addBooleanDefaults, booleanDefaults. simpl. split.
  - intros f d Hf.
    repeat (apply elem_of_cons in Hf as [[= -> ->] | Hf]);
      [..|by apply elem_of_nil in Hf];
      rewrite ?lookup_setIfAbsent_ne by done;
      rewrite lookup_setIfAbsent_eq;
      by rewrite ?lookup_setIfAbsent_ne by done.
  - intros k Hk.
    rewrite !lookup_setIfAbsent_ne; [done|..];
      (eapply Hk;
       repeat first [apply list_elem_of_here | apply list_elem_of_further]).
Qed.

Lemma migrateToV12_fills_booleans_witness :
  ∃ postgres',
    migrateToV12 doc_falsy_postgres
      = Returned (<["postgres" := VMap postgres']> doc_falsy_postgres) None ∧
    postgres' !! KStr "storage_encrypted" = Some (VBool false) ∧
    postgres' !! KStr "multi_az" = Some (VBool false) ∧
    postgres' !! KStr "engine_version" = Some (VStr "").
Proof.
  destruct (migrateToV12_fills_booleans doc_falsy_postgres
              {[ KStr "storage_encrypted" := VBool false;
                 KStr "skip_final_snapshot" := VBool false;
                 KStr "engine_version" := VStr "" ]} eq_refl)
    as (postgres' & Hrun & Hfill & Hother).
  exists postgres'. split; [exact Hrun|]. split; [|split].
  - rewrite (Hfill "storage_encrypted" (VBool true)); [reflexivity|].
    unfold booleanDefaults. apply list_elem_of_further, list_elem_of_here.
  - rewrite (Hfill "multi_az" (VBool false)); [reflexivity|].
    unfold booleanDefaults. apply list_elem_of_here.
  - rewrite Hother; [reflexivity|].
    intros f d Hf. unfold booleanDefaults in Hf.
    repeat (apply elem_of_cons in Hf as [[= -> ->] | Hf]); try done.
    by apply elem_of_nil in Hf.
Defined.

(** On a document whose [postgres] is missing, null or not a mapping, the
    step returns nil and changes nothing. *)
Theorem migrateToV12_without_postgres_mapping (data : doc) :
  (∀ postgres, data !! "postgres" ≠ Some (VMap postgres)) →
  migrateToV12 data = Returned data None.
Proof.
  intros Hp. unfold migrateToV12.
  destruct (data !! "postgres") as [[]|] eqn:Hpg; try done.
  by destruct (Hp m).
Qed.

Lemma migrateToV12_without_postgres_mapping_witness :
  migrateToV12 doc_with_project = Returned doc_with_project None.
Proof.
  apply (migrateToV12_without_postgres_mapping doc_with_project).
  intros postgres. vm_compute. discriminate.
Defined.

Lemma addBooleanDefaults_order_witness :
  addBooleanDefaults booleanDefaults ∅
  = addBooleanDefaults (reverse booleanDefaults) ∅.
Proof.
  apply (addBooleanDefaults_order booleanDefaults (reverse booleanDefaults) ∅).
  - apply (bool_decide_unpack _). by vm_compute.
  - symmetry. apply reverse_Permutation.
Defined.

(** ** Port synchronisation in general (target version 11) *)

Lemma fixHostPort_spec (s s' : value) (n : Z) :
  fixHostPort s = Some (s', n) → portsSynced s s' ∧ (n = 0 ∨ n = 1).
Proof.
  destruct s; simpl; try (intros [= <- <-]; auto).
  destruct (m !! KStr "container_port") as [c|] eqn:Hc.
  - destruct (m !! KStr "host_port") as [h|] eqn:Hh.
    + destruct (iface_eq h c) as [[]|] eqn:Heq; [| |done]; intros [= <- <-].
      * split; [|auto]. exists m. repeat split; eauto.
      * split; [|auto]. eexists. split; [done|]. split.
        -- intros kk Hkk. by rewrite lookup_insert_ne.
        -- exists c. rewrite lookup_insert_eq. auto.
    + intros [= <- <-]. split; [|auto]. eexists. split; [done|]. split.
      * intros kk Hkk. by rewrite lookup_insert_ne.
      * exists c. rewrite lookup_insert_eq. auto.
  - intros [= <- <-]. split; [|auto]. by exists m.
Qed.

Lemma fixHostPorts_spec (services services' : list value) (fixedCount : Z) :
  fixHostPorts services = Some (services', fixedCount) →
  length services' = length services ∧
  0 ≤ fixedCount ≤ Z.of_nat (length services) ∧
  ∀ i s, services !! i = Some s →
    ∃ s', services' !! i = Some s' ∧ portsSynced s s'.
Proof.
  revert services' fixedCount.
  induction services as [|s services IH]; intros services' fixedCount; simpl.
  - intros [= <- <-]. repeat split; try done; intros i s; by rewrite lookup_nil.
  - destruct (fixHostPort s) as [[s1 n]|] eqn:Hs; [|done].
    destruct (fixHostPorts services) as [[rest' c]|] eqn:Hrest; [|done].
    intros [= <- <-].
    destruct (IH rest' c eq_refl) as (Hlen & Hcount & Hitems).
    apply fixHostPort_spec in Hs as [Hsync Hn]. simpl.
    split; [by rewrite Hlen|]. split; [lia|].
    intros [|i] x Hx; simpl in *.
    + injection Hx as <-. eauto.
    + by apply Hitems.
Qed.

(** Whenever the step returns on a document whose [services] is a list, it
    returns nil, the list keeps its length and order, and in every service
    that is a mapping with a [container_port] the [host_port] afterwards is
    identical to the [container_port] or is the old value, which compared
    equal to it; nothing else changes.  Services that are not mappings or
    have no [container_port] are left alone (no [host_port] is invented),
    and the reported count lies between 0 and the number of services. *)
Theorem migrateToV11_syncs_ports (data data' : doc) (services : list value)
    (err : error) :
  data !! "services" = Some (VList services) →
  migrateToV11 data = Returned data' err →
  ∃ services' fixedCount,
    err = None ∧
    data' = <["services" := VList services']> data ∧
    migrateToV11_fixedCount data = Some fixedCount ∧
    0 ≤ fixedCount ≤ Z.of_nat (length services) ∧
    length services' = length services ∧
    ∀ i s, services !! i = Some s →
      ∃ s', services' !! i = Some s' ∧ portsSynced s s'.
Proof.
  intros Hs. unfold migrateToV11, migrateToV11_fixedCount. rewrite Hs.
  destruct (fixHostPorts services) as [[services' fixedCount]|] eqn:Hfix;
    [|done].
  intros [= <- <-]. exists services', fixedCount.
  destruct (fixHostPorts_spec _ _ _ Hfix) as (Hlen & Hcount & Hitems).
  done.
Qed.

Lemma migrateToV11_syncs_ports_witness :
  ∃ data' services' fixedCount,
    migrateToV11 doc_three_services = Returned data' None ∧
    data' = <["services" := VList services']> doc_three_services ∧
    0 ≤ fixedCount ≤ 3 ∧
    length services' = 3%nat.
Proof.
  pose (data' := match migrateToV11 doc_three_services with
                 | Returned d _ => d
                 | Panicked => ∅
                 end).
  assert (migrateToV11 doc_three_services = Returned data' None) as Hrun.
  { vm_compute. reflexivity. }
  destruct (migrateToV11_syncs_ports doc_three_services data'
              [VMap svc_api; VMap svc_web; VMap svc_worker] None eq_refl Hrun)
    as (services' & fixedCount & _ & Hdata & _ & Hcount & Hlen & _).
  exists data', services', fixedCount. done.
Defined.

(** ** Amplify domain simplification in general (target version 9) *)

Lemma migrateAmplifyApp_spec (dn env : string) (aep : bool) (app : value) :
  appSimplified dn app (migrateAmplifyApp dn env aep app).1.
Proof.
  destruct app; simpl; try done.
  set (cd := match m !! KStr "custom_domain" with
             | Some (VStr s) => (s, true)
             | _ => (""%string, false)
             end).
  assert (cd.2 = false → cd.1 = ""%string) as Hcd.
  { subst cd. by destruct (m !! KStr "custom_domain") as [[]|]. }
  destruct cd as [customDomain hasCustomDomain]. simpl in Hcd.
  destruct (bool_decide (is_Some (m !! KStr "enable_root_domain"))) eqn:Her.
  - (* enable_root_domain present: it is deleted *)
    rewrite andb_false_r. simpl.
    destruct (negb (String.eqb customDomain "") && negb (String.eqb dn ""))
      eqn:Hparse; simpl.
    + eexists. split; [done|].
      apply andb_prop in Hparse as [_ Hdn].
      apply negb_true_iff, String.eqb_neq in Hdn.
      split; [|split; [|done]].
      * rewrite lookup_delete_ne by done.
        destruct (negb _); rewrite ?lookup_insert_ne by done;
          apply lookup_delete_eq.
      * intros kk H1 H2 H3. rewrite lookup_delete_ne by done.
        destruct (negb _); rewrite ?lookup_insert_ne by done;
          by rewrite lookup_delete_ne.
    + eexists. split; [done|]. split; [apply lookup_delete_eq|]. split.
      * intros kk H1 H2 H3. by rewrite lookup_delete_ne.
      * intros _. by rewrite !lookup_delete_ne.
  - (* enable_root_domain absent *)
    apply bool_decide_eq_false in Her.
    assert (m !! KStr "enable_root_domain" = None) as Hnone.
    { by apply eq_None_not_Some. }
    rewrite andb_true_r. destruct hasCustomDomain; simpl.
    + destruct (negb (String.eqb customDomain "") && negb (String.eqb dn ""))
        eqn:Hparse; simpl.
      * eexists. split; [done|].
        apply andb_prop in Hparse as [_ Hdn].
        apply negb_true_iff, String.eqb_neq in Hdn.
        split; [|split; [|done]].
        -- rewrite lookup_delete_ne by done.
           by destruct (negb _); rewrite ?lookup_insert_ne by done.
        -- intros kk H1 H2 H3. rewrite lookup_delete_ne by done.
           by destruct (negb _); rewrite ?lookup_insert_ne by done.
      * exists m. done.
    + exists m. done.
Qed.

Lemma migrateAmplifyApps_fst (dn env : string) (aep : bool)
    (apps : list value) :
  (migrateAmplifyApps dn env aep apps).1
  = (fun app => (migrateAmplifyApp dn env aep app).1) <$> apps.
Proof.
  induction apps as [|app apps IH]; [done|]. simpl.
  destruct (migrateAmplifyApp dn env aep app) as [app' n].
  destruct (migrateAmplifyApps dn env aep apps) as [rest' c]. simpl in *.
  by rewrite IH.
Qed.

(** On a document whose [amplify_apps] is a list, the step returns nil and
    only rewrites that list, keeping its length and order.  Afterwards no
    app mapping has [enable_root_domain]; apart from [custom_domain],
    [enable_root_domain] and [subdomain_prefix] every entry of an app is as
    before; apps that are not mappings are unchanged; and when the document
    has no base domain ([domain.domain_name] missing, empty or not a
    string), [custom_domain] and [subdomain_prefix] are left as they are. *)
Theorem migrateToV9_simplifies_apps (data : doc) (apps : list value) :
  data !! "amplify_apps" = Some (VList apps) →
  ∃ apps',
    migrateToV9 data = Returned (<["amplify_apps" := VList apps']> data) None ∧
    length apps' = length apps ∧
    ∀ i app, apps !! i = Some app →
      ∃ app', apps' !! i = Some app' ∧ appSimplified (baseDomain data) app app'.
Proof.
  intros Ha. unfold migrateToV9. rewrite Ha. fold (baseDomain data).
  set (aep := match data !! "domain" with Some (VMap _) => _ | _ => false end).
  set (env := match data !! "env" with Some (VStr e) => e | _ => ""%string end).
  pose proof (migrateAmplifyApps_fst (baseDomain data) env aep apps) as Hfst.
  destruct (migrateAmplifyApps (baseDomain data) env aep apps) as [apps' c].
  simpl in Hfst. subst apps'. eexists. split; [reflexivity|].
  split; [by rewrite length_fmap|].
  intros i app Hi. rewrite list_lookup_fmap, Hi. simpl.
  eexists. split; [done|]. apply migrateAmplifyApp_spec.
Qed.

Lemma migrateToV9_simplifies_apps_witness :
  ∃ apps',
    migrateToV9 doc_no_base_domain
      = Returned (<["amplify_apps" := VList apps']> doc_no_base_domain) None ∧
    length apps' = 1%nat ∧
    ∃ app', apps' !! 0%nat = Some app' ∧
      appSimplified ""
        (VMap {[ KStr "custom_domain" := VStr "app.sava-p.com";
                 KStr "enable_root_domain" := VBool true ]}) app'.
Proof.
  destruct (migrateToV9_simplifies_apps doc_no_base_domain
              [ VMap {[ KStr "custom_domain" := VStr "app.sava-p.com";
                        KStr "enable_root_domain" := VBool true ]} ] eq_refl)
    as (apps' & Hrun & Hlen & Hitems).
  exists apps'. split; [exact Hrun|]. split; [exact Hlen|].
  apply (Hitems 0%nat). reflexivity.
Defined.

(** On a document whose [amplify_apps] is missing, null or not a list, the
    step returns nil and changes nothing. *)
Theorem migrateToV9_without_app_list (data : doc) :
  (∀ apps, data !! "amplify_apps" ≠ Some (VList apps)) →
  migrateToV9 data = Returned data None.
Proof.
  intros Ha. unfold migrateToV9.
  destruct (data !! "amplify_apps") as [[]|] eqn:Happs; try done.
  by destruct (Ha l).
Qed.

Lemma migrateToV9_without_app_list_witness :
  migrateToV9 doc_with_project = Returned doc_with_project None.
Proof.
  apply (migrateToV9_without_app_list doc_with_project).
  intros apps. vm_compute. discriminate.
Defined.

(** ** Extracting the prefix when no environment label is in play *)

Lemma append_nil (s : string) : "" +:+ s = s.
Proof. reflexivity. Qed.

Lemma append_cons (c : Ascii.ascii) (s1 s2 : string) :
  String c s1 +:+ s2 = String c (s1 +:+ s2).
Proof. reflexivity. Qed.

Lemma string_length_app (s1 s2 : string) :
  String.length (s1 +:+ s2) = (String.length s1 + String.length s2)%nat.
Proof.
  induction s1 as [|c s1 IH]; [done|].
  rewrite append_cons. simpl. by rewrite IH.
Qed.

Lemma string_app_assoc (s1 s2 s3 : string) :
  (s1 +:+ s2) +:+ s3 = s1 +:+ (s2 +:+ s3).
Proof.
  induction s1 as [|c s1 IH]; [done|].
  rewrite !append_cons. by f_equal.
Qed.

Lemma substring_all (s : string) : String.substring 0 (String.length s) s = s.
Proof. induction s as [|c s IH]; simpl; [done|]. by rewrite IH. Qed.

Lemma substring_0_app (p s : string) :
  String.substring 0 (String.length p) (p +:+ s) = p.
Proof.
  induction p as [|c p IH]; [by destruct s|].
  rewrite append_cons. simpl. by rewrite IH.
Qed.

Lemma substring_skip_app (p s : string) (m : nat) :
  String.substring (String.length p) m (p +:+ s) = String.substring 0 m s.
Proof.
  induction p as [|c p IH]; [done|]. rewrite append_cons. simpl. apply IH.
Qed.

(** For a legacy domain of the form [<p>.<base domain>] and no environment
    label in play (the prefix flag is off, or [env] is empty or [prod]),
    the computed prefix is exactly [p]. *)
Lemma subdomainPrefix_plain (p dn env : string) (aep : bool) :
  aep && negb (String.eqb env "") && negb (String.eqb env "prod") = false →
  subdomainPrefix (p +:+ "." +:+ dn) dn env aep = p.
Proof.
  intros Hoff. unfold subdomainPrefix. rewrite Hoff.
  assert (String.length (p +:+ "." +:+ dn)
          = (String.length (p +:+ ".") + String.length dn)%nat) as Hlen.
  { rewrite !string_length_app. simpl. lia. }
  assert ((String.length dn <? String.length (p +:+ "." +:+ dn))%nat = true)
    as Hlt.
  { apply Nat.ltb_lt. rewrite Hlen, string_length_app. simpl. lia. }
  rewrite Hlt. unfold slice_from, slice_to.
  replace (String.length (p +:+ "." +:+ dn) - String.length dn)%nat
    with (String.length (p +:+ ".")) by lia.
  replace (String.length (p +:+ "." +:+ dn) - String.length (p +:+ "."))%nat
    with (String.length dn) by lia.
  rewrite <- (string_app_assoc p "." dn) at 1.
  rewrite substring_skip_app, substring_all, String.eqb_refl. simpl.
  replace (String.length (p +:+ ".") - 1)%nat with (String.length p)
    by (rewrite string_length_app; simpl; lia).
  apply substring_0_app.
Qed.

(** On a document with a non-empty base domain and no environment label in
    play, an app whose [custom_domain] is [<p>.<base domain>] with a
    non-empty [p] ends with [subdomain_prefix] equal to [p] and without
    [custom_domain]. *)
Theorem migrateToV9_extracts_plain_prefix (data : doc) (apps : list value)
    (i : nat) (m : gmap key value) (p : string) :
  data !! "amplify_apps" = Some (VList apps) →
  apps !! i = Some (VMap m) →
  m !! KStr "custom_domain" = Some (VStr (p +:+ "." +:+ baseDomain data)) →
  p ≠ ""%string → baseDomain data ≠ ""%string → envPrefixOn data = false →
  ∃ apps' m',
    migrateToV9 data = Returned (<["amplify_apps" := VList apps']> data) None ∧
    apps' !! i = Some (VMap m') ∧
    m' !! KStr "subdomain_prefix" = Some (VStr p) ∧
    m' !! KStr "custom_domain" = None.
Proof.
  intros Ha Hi Hcd Hp Hdn Hoff.
  unfold migrateToV9. rewrite Ha. fold (baseDomain data).
  set (aep := match data !! "domain" with Some (VMap _) => _ | _ => false end).
  set (env := match data !! "env" with Some (VStr e) => e | _ => ""%string end).
  assert (aep && negb (String.eqb env "") && negb (String.eqb env "prod")
          = false) as Hoff'.
  { unfold envPrefixOn in Hoff. fold aep in Hoff. subst env.
    destruct aep; [|done]. simpl in *.
    by destruct (data !! "env") as [[]|]. }
  pose proof (migrateAmplifyApps_fst (baseDomain data) env aep apps) as Hfst.
  destruct (migrateAmplifyApps (baseDomain data) env aep apps) as [apps' c].
  simpl in Hfst. subst apps'. eexists _, _. split; [reflexivity|].
  rewrite list_lookup_fmap, Hi. simpl. rewrite Hcd.
  assert (String.eqb (p +:+ "." +:+ baseDomain data) "" = false) as Hne.
  { apply String.eqb_neq. by destruct p. }
  apply String.eqb_neq in Hp, Hdn.
  rewrite Hne, Hdn, subdomainPrefix_plain, Hp by done. simpl.
  split; [reflexivity|]. split.
  - rewrite lookup_delete_ne by done. apply lookup_insert_eq.
  - apply lookup_delete_eq.
Qed.

Lemma migrateToV9_extracts_plain_prefix_witness :
  ∃ apps' m',
    migrateToV9 doc_plain_amplify
      = Returned (<["amplify_apps" := VList apps']> doc_plain_amplify) None ∧
    apps' !! 0%nat = Some (VMap m') ∧
    m' !! KStr "subdomain_prefix" = Some (VStr "app") ∧
    m' !! KStr "custom_domain" = None.
Proof.
  apply (migrateToV9_extracts_plain_prefix doc_plain_amplify
           [ VMap {[ KStr "custom_domain" := VStr "app.sava-p.com";
                     KStr "enable_root_domain" := VBool true ]} ]
           0%nat
           {[ KStr "custom_domain" := VStr "app.sava-p.com";
              KStr "enable_root_domain" := VBool true ]}
           "app").
  - reflexivity.
  - reflexivity.
  - reflexivity.
  - discriminate.
  - vm_compute. discriminate.
  - reflexivity.
Defined.

(** ** Applying a step twice *)

Section settled.
Context `{Countable K}.
Implicit Types (m : gmap K value) (ops : list (K * (gmap K value → gmap K value))).

Lemma runOps_other ops m k :
  Forall (fun op => settles op.1 op.2) ops → k ∉ ops.*1 →
  runOps ops m !! k = m !! k.
Proof.
  unfold runOps. intros Hops. revert m.
  induction Hops as [|[k0 f] ops [Hother _] _ IH]; intros m Hk; simpl; [done|].
  simpl in Hk. apply not_elem_of_cons in Hk as [Hne Hk].
  rewrite IH by done. by apply Hother.
Qed.

Lemma runOps_stable ops m' :
  Forall (fun op => ∃ m0, settles op.1 op.2 ∧ m' !! op.1 = op.2 m0 !! op.1) ops →
  runOps ops m' = m'.
Proof.
  unfold runOps. induction 1 as [|[k f] ops (m0 & [_ Hstable] & Hm0) _ IH];
    simpl; [done|].
  simpl in *. by rewrite (Hstable m0 m' Hm0).
Qed.

Lemma runOps_idemp ops m :
  NoDup ops.*1 → Forall (fun op => settles op.1 op.2) ops →
  runOps ops (runOps ops m) = runOps ops m.
Proof.
  intros Hnd Hops. apply runOps_stable. revert m Hnd.
  induction Hops as [|[k f] ops Hset Hops IH]; intros m Hnd; [done|].
  simpl in Hnd. apply NoDup_cons in Hnd as [Hk Hnd].
  constructor.
  - exists m. split; [done|]. simpl.
    change (runOps ((k, f) :: ops) m) with (runOps ops (f m)).
    by apply runOps_other.
  - change (runOps ((k, f) :: ops) m) with (runOps ops (f m)). by apply IH.
Qed.

Lemma settles_setIfAbsent (k : K) (v : value) : settles k (setIfAbsent k v).
Proof.
  split.
  - intros m k' Hne. by apply lookup_setIfAbsent_ne.
  - intros m m' Hm'. rewrite lookup_setIfAbsent_eq in Hm'.
    unfold setIfAbsent. by rewrite Hm'.
Qed.

Lemma settles_deleteIfPresent (k : K) : settles k (deleteIfPresent k).
Proof.
  split.
  - intros m k' Hne. by apply lookup_deleteIfPresent_ne.
  - intros m m' Hm'. rewrite lookup_deleteIfPresent_eq in Hm'.
    unfold deleteIfPresent. by rewrite Hm'.
Qed.
End settled.

Lemma settles_fixZeroInt (k : key) (d : Z) :
  d ≠ 0 → settles k (fixZeroInt k d).
Proof.
  intros Hd. split.
  - intros m k' Hne. unfold fixZeroInt.
    destruct (m !! k) as [[| |[]| | | | |]|]; try done;
      by rewrite lookup_insert_ne.
  - intros m m' Hm'. unfold fixZeroInt in *.
    destruct (m !! k) as [[| |[]| | | | |]|] eqn:Hk;
      rewrite ?lookup_insert_eq, ?Hk in Hm'; rewrite Hm'; try done;
      by destruct d.
Qed.

Lemma settles_fixEmptyString (k : key) (d : string) :
  d ≠ ""%string → settles k (fixEmptyString k d).
Proof.
  intros Hd. split.
  - intros m k' Hne. unfold fixEmptyString.
    destruct (m !! k) as [x|]; [destruct (eq_string x "")|];
      try done; by rewrite lookup_insert_ne.
  - intros m m' Hm'. unfold fixEmptyString in *.
    assert (eq_string (VStr d) "" = false) as Hnon.
    { simpl. by apply String.eqb_neq. }
    destruct (m !! k) as [x|] eqn:Hk; [destruct (eq_string x "") eqn:Hx|];
      rewrite ?lookup_insert_eq, ?Hk in Hm'; rewrite Hm';
      by rewrite ?Hnon, ?Hx.
Qed.

Lemma lookup_withMap_eq (data : doc) (k : string) body :
  withMap k body data !! k =
  match data !! k with
  | Some (VMap sub) => Some (VMap (body sub))
  | other => other
  end.
Proof.
  unfold withMap. destruct (data !! k) as [[]|] eqn:Hk; try done.
  apply lookup_insert_eq.
Qed.

Lemma settles_withMap (k : string) body :
  (∀ sub, body (body sub) = body sub) → settles k (withMap k body).
Proof.
  intros Hidemp. split.
  - intros m k' Hne. by apply lookup_withMap_ne.
  - intros m m' Hm'. rewrite lookup_withMap_eq in Hm'. unfold withMap.
    destruct (m !! k) as [[]|]; rewrite Hm'; try done.
    rewrite Hidemp. by apply insert_id.
Qed.

Lemma ensureECRConfig_idemp (item : value) :
  (ensureECRConfig (ensureECRConfig item).1).1 = (ensureECRConfig item).1.
Proof.
  destruct item; try done. simpl.
  destruct (m !! KStr "ecr_config") eqn:Hecr; simpl; [by rewrite Hecr|].
  by rewrite lookup_insert_eq.
Qed.

Lemma settles_migrateECRList (k : string) :
  settles k (fun data => (migrateECRList k data).1).
Proof.
  split.
  - intros m k' Hne. by apply lookup_migrateECRList_ne.
  - intros m m' Hm'. rewrite lookup_migrateECRList_eq in Hm'.
    unfold migrateECRList.
    destruct (m !! k) as [[]|]; rewrite Hm'; try done.
    pose proof (addDefaultECRConfig_fst (addDefaultECRConfig l).1) as Hfst.
    destruct (addDefaultECRConfig (addDefaultECRConfig l).1) as [items2 c].
    simpl in *. subst items2. apply insert_id. rewrite Hm'. do 2 f_equal.
    rewrite addDefaultECRConfig_fst, <- list_fmap_compose.
    apply list_fmap_ext. intros i item _. simpl.
    symmetry. apply ensureECRConfig_idemp.
Qed.

Lemma idemp_of_ops (f : doc → outcome)
    (ops : list (string * (doc → doc))) :
  (∀ d, f d = Returned (runOps ops d) None) →
  NoDup ops.*1 → Forall (fun op => settles op.1 op.2) ops →
  ∀ d d' e, f d = Returned d' e → f d' = Returned d' None.
Proof.
  intros Hshape Hnd Hops d d' e Hd. rewrite Hshape in Hd.
  injection Hd as <- _. rewrite Hshape. by rewrite runOps_idemp.
Qed.

Lemma migrateToV2_idemp (d d' : doc) (e : error) :
  migrateToV2 d = Returned d' e → migrateToV2 d' = Returned d' None.
Proof.
  set (body := fun postgres : gmap key value =>
    match postgres !! KStr "aurora" with
    | None =>
        <[KStr "max_capacity" := VFloat f64_one]>
          (<[KStr "min_capacity" := VFloat f64_half]>
             (<[KStr "aurora" := VBool false]> postgres))
    | Some _ => postgres
    end).
  apply (idemp_of_ops migrateToV2
           [ ("postgres", withMap "postgres" body);
             ("alb", setIfAbsent "alb" (VStrMap {["enabled" := VBool false]})) ]).
  - done.
  - apply (bool_decide_unpack _). by vm_compute.
  - split_ops; [|apply settles_setIfAbsent].
    apply settles_withMap. intros sub. unfold body.
    destruct (sub !! KStr "aurora") eqn:Ha; [by rewrite Ha|].
    by rewrite !lookup_insert_ne, lookup_insert_eq by done.
Qed.

Lemma migrateToV3_idemp (d d' : doc) (e : error) :
  migrateToV3 d = Returned d' e → migrateToV3 d' = Returned d' None.
Proof.
  set (dns := [ (KStr "root_zone_id", setIfAbsent (KStr "root_zone_id") (VStr ""));
                (KStr "root_account_id", setIfAbsent (KStr "root_account_id") (VStr ""));
                (KStr "is_dns_root", setIfAbsent (KStr "is_dns_root") (VBool false));
                (KStr "dns_root_account_id", setIfAbsent (KStr "dns_root_account_id") (VStr ""));
                (KStr "delegation_role_arn", setIfAbsent (KStr "delegation_role_arn") (VStr ""));
                (KStr "api_domain_prefix", setIfAbsent (KStr "api_domain_prefix") (VStr ""));
                (KStr "add_env_domain_prefix", setIfAbsent (KStr "add_env_domain_prefix") (VBool false)) ]).
  set (ops := fun domain : gmap key value =>
    if negb (createDomainZone domain)
    then (KStr "zone_id", setIfAbsent (KStr "zone_id") (VStr "")) :: dns
    else dns).
  set (body := fun domain => runOps (ops domain) domain).
  assert (∀ domain, Forall (fun op => settles op.1 op.2) (ops domain)) as Hset.
  { intros domain. unfold ops.
    destruct (negb _); split_ops; apply settles_setIfAbsent. }
  assert (∀ domain, NoDup (ops domain).*1) as Hnd.
  { intros domain. unfold ops.
    destruct (negb _); apply (bool_decide_unpack _); by vm_compute. }
  apply (idemp_of_ops migrateToV3 [("domain", withMap "domain" body)]).
  - intros d0. unfold migrateToV3, runOps, withMap. simpl.
    destruct (d0 !! "domain") as [[]|]; try done.
    do 3 f_equal. unfold body, ops, createDomainZone.
    by destruct (negb _).
  - apply (bool_decide_unpack _). by vm_compute.
  - split_ops. apply settles_withMap. intros sub. unfold body.
    assert (ops (runOps (ops sub) sub) = ops sub) as ->.
    { unfold ops at 1 3. unfold createDomainZone.
      rewrite runOps_other; [done|apply Hset|].
      unfold ops. destruct (negb _); apply (bool_decide_unpack _);
        by vm_compute. }
    by apply runOps_idemp.
Qed.

Lemma migrateToV4_idemp (d d' : doc) (e : error) :
  migrateToV4 d = Returned d' e → migrateToV4 d' = Returned d' None.
Proof.
  set (ops :=
    [ (KStr "backend_desired_count", fixZeroInt (KStr "backend_desired_count") 1);
      (KStr "backend_autoscaling_enabled",
       setIfAbsent (KStr "backend_autoscaling_enabled") (VBool false));
      (KStr "backend_autoscaling_min_capacity",
       fixZeroInt (KStr "backend_autoscaling_min_capacity") 1);
      (KStr "backend_autoscaling_max_capacity",
       fixZeroInt (KStr "backend_autoscaling_max_capacity") 4);
      (KStr "backend_cpu", fixEmptyString (KStr "backend_cpu") "256");
      (KStr "backend_memory", fixEmptyString (KStr "backend_memory") "512");
      (KStr "backend_alb_domain_name",
       setIfAbsent (KStr "backend_alb_domain_name") (VStr "")) ]).
  apply (idemp_of_ops migrateToV4 [("workload", withMap "workload" (runOps ops))]).
  - done.
  - apply (bool_decide_unpack _). by vm_compute.
  - split_ops. apply settles_withMap. intros sub.
    apply runOps_idemp.
    + apply (bool_decide_unpack _). by vm_compute.
    + split_ops;
        first [ apply settles_setIfAbsent
              | by apply settles_fixZeroInt
              | by apply settles_fixEmptyString ].
Qed.

Lemma migrateToV5_idemp (d d' : doc) (e : error) :
  migrateToV5 d = Returned d' e → migrateToV5 d' = Returned d' None.
Proof.
  apply (idemp_of_ops migrateToV5
           [ ("account_id", setIfAbsent "account_id" (VStr ""));
             ("aws_profile", setIfAbsent "aws_profile" (VStr "")) ]).
  - done.
  - apply (bool_decide_unpack _). by vm_compute.
  - split_ops; apply settles_setIfAbsent.
Qed.

Lemma migrateToV6_idemp (d d' : doc) (e : error) :
  migrateToV6 d = Returned d' e → migrateToV6 d' = Returned d' None.
Proof.
  set (fixCidr := fun data : doc =>
    match data !! "vpc_cidr" with
    | Some vpcCIDR =>
        if eq_string vpcCIDR "" then <["vpc_cidr" := VStr "10.0.0.0/16"]> data
        else data
    | None => data
    end).
  apply (idemp_of_ops migrateToV6
           [ ("use_default_vpc", setIfAbsent "use_default_vpc" (VBool true));
             ("vpc_cidr", fixCidr);
             ("az_count", deleteIfPresent "az_count");
             ("create_private_subnets", deleteIfPresent "create_private_subnets");
             ("enable_nat_gateway", deleteIfPresent "enable_nat_gateway") ]).
  - done.
  - apply (bool_decide_unpack _). by vm_compute.
  - split_ops;
      try apply settles_setIfAbsent; try apply settles_deleteIfPresent.
    split.
    + intros m k' Hne. unfold fixCidr.
      destruct (m !! "vpc_cidr") as [x|]; [destruct (eq_string x "")|];
        try done; by rewrite lookup_insert_ne.
    + intros m m' Hm'. unfold fixCidr in *.
      destruct (m !! "vpc_cidr") as [x|] eqn:Hk;
        [destruct (eq_string x "") eqn:Hx|];
        rewrite ?lookup_insert_eq, ?Hk in Hm'; rewrite Hm'; try done.
      by rewrite Hx.
Qed.

Lemma migrateToV7_idemp (d d' : doc) (e : error) :
  migrateToV7 d = Returned d' e → migrateToV7 d' = Returned d' None.
Proof.
  set (choose := fun data : doc =>
    match data !! "ecr_strategy" with
    | None =>
        let env := match data !! "env" with Some (VStr s) => s | _ => ""%string end in
        if String.eqb env "dev" then <["ecr_strategy" := VStr "local"]> data
        else
          match data !! "ecr_account_id" with
          | Some ecrAccountID =>
              if negb (is_nil ecrAccountID) && negb (eq_string ecrAccountID "")
              then <["ecr_strategy" := VStr "cross_account"]> data
              else <["ecr_strategy" := VStr "local"]> data
          | None => <["ecr_strategy" := VStr "local"]> data
          end
    | Some _ => data
    end).
  apply (idemp_of_ops migrateToV7
           [ ("ecr_strategy", choose);
             ("ecr_account_id", setIfAbsent "ecr_account_id" VNil);
             ("ecr_account_region", setIfAbsent "ecr_account_region" VNil) ]).
  - done.
  - apply (bool_decide_unpack _). by vm_compute.
  - split_ops; try apply settles_setIfAbsent.
    split.
    + intros m k' Hne. unfold choose. cbv zeta.
      repeat case_match; try done; by rewrite lookup_insert_ne.
    + intros m m' Hm'. unfold choose in *. cbv zeta in *.
      destruct (m !! "ecr_strategy") eqn:Hs; [by rewrite Hm', Hs|].
      assert (is_Some (m' !! "ecr_strategy")) as [x Hx].
      { rewrite Hm'. repeat case_match; rewrite lookup_insert_eq; eauto. }
      by rewrite Hx.
Qed.

Lemma migrateToV8_idemp (d d' : doc) (e : error) :
  migrateToV8 d = Returned d' e → migrateToV8 d' = Returned d' None.
Proof.
  apply (idemp_of_ops migrateToV8
           [ ("ecr_trusted_accounts",
              setIfAbsent "ecr_trusted_accounts" (VList [])) ]).
  - done.
  - apply (bool_decide_unpack _). by vm_compute.
  - split_ops. apply settles_setIfAbsent.
Qed.

Lemma migrateV8ToV9_idemp (d d' : doc) (e : error) :
  migrateV8ToV9 d = Returned d' e → migrateV8ToV9 d' = Returned d' None.
Proof.
  apply (idemp_of_ops migrateV8ToV9
           [ ("services", fun data => (migrateECRList "services" data).1);
             ("event_processor_tasks",
              fun data => (migrateECRList "event_processor_tasks" data).1);
             ("scheduled_tasks",
              fun data => (migrateECRList "scheduled_tasks" data).1) ]).
  - intros d0. unfold migrateV8ToV9, runOps. simpl.
    destruct (migrateECRList "services" d0) as [d1 c1]. simpl.
    destruct (migrateECRList "event_processor_tasks" d1) as [d2 c2]. simpl.
    by destruct (migrateECRList "scheduled_tasks" d2) as [d3 c3].
  - apply (bool_decide_unpack _). by vm_compute.
  - split_ops; apply settles_migrateECRList.
Qed.

Lemma migrateToV12_idemp (d d' : doc) (e : error) :
  migrateToV12 d = Returned d' e → migrateToV12 d' = Returned d' None.
Proof.
  set (ops :=
    [ (KStr "multi_az", setIfAbsent (KStr "multi_az") (VBool false));
      (KStr "storage_encrypted", setIfAbsent (KStr "storage_encrypted") (VBool true));
      (KStr "deletion_protection", setIfAbsent (KStr "deletion_protection") (VBool false));
      (KStr "skip_final_snapshot", setIfAbsent (KStr "skip_final_snapshot") (VBool true));
      (KStr "iam_database_authentication_enabled",
       setIfAbsent (KStr "iam_database_authentication_enabled") (VBool false)) ]).
  apply (idemp_of_ops migrateToV12 [("postgres", withMap "postgres" (runOps ops))]).
  - intros d0. by rewrite migrateToV12_withMap.
  - apply (bool_decide_unpack _). by vm_compute.
  - split_ops. apply settles_withMap. intros sub.
    apply runOps_idemp.
    + apply (bool_decide_unpack _). by vm_compute.
    + split_ops; apply settles_setIfAbsent.
Qed.

Lemma migrateAmplifyApp_new_format (dn env : string) (aep : bool)
    (m : gmap key value) :
  m !! KStr "custom_domain" = None →
  m !! KStr "enable_root_domain" = None →
  migrateAmplifyApp dn env aep (VMap m) = (VMap m, 0).
Proof.
  intros Hcd Her. unfold migrateAmplifyApp. rewrite Hcd, Her.
  by rewrite bool_decide_eq_false_2 by (by intros [? ?]).
Qed.

Lemma migrateAmplifyApp_kept (dn env : string) (aep : bool)
    (m : gmap key value) :
  m !! KStr "enable_root_domain" = None →
  negb (String.eqb
          match m !! KStr "custom_domain" with
          | Some (VStr s) => s
          | _ => ""%string
          end "") && negb (String.eqb dn "") = false →
  migrateAmplifyApp dn env aep (VMap m) = (VMap m, 0).
Proof.
  intros Her Hparse. unfold migrateAmplifyApp. rewrite Her.
  rewrite bool_decide_eq_false_2 by (by intros [? ?]).
  destruct (m !! KStr "custom_domain") as [[]|]; simpl in *; try done.
  by rewrite Hparse.
Qed.

Lemma migrateAmplifyApp_idemp (dn env : string) (aep : bool) (app : value) :
  (migrateAmplifyApp dn env aep (migrateAmplifyApp dn env aep app).1).1
  = (migrateAmplifyApp dn env aep app).1.
Proof.
  destruct app; try done.
  assert (∀ m1 n,
            migrateAmplifyApp dn env aep (VMap m) = (VMap m1, n) →
            migrateAmplifyApp dn env aep (VMap m1) = (VMap m1, 0)) as Hfix.
  { intros m1 n. unfold migrateAmplifyApp at 1.
    set (customDomain := match m !! KStr "custom_domain" with
                         | Some (VStr s) => s
                         | _ => ""%string
                         end).
    assert (∀ hasCD,
              match m !! KStr "custom_domain" with
              | Some (VStr s) => (s, true)
              | _ => (""%string, false)
              end = (customDomain, hasCD) →
              hasCD = false → m !! KStr "custom_domain" = None ∨
                              customDomain = ""%string) as Hshape.
    { intros hasCD. subst customDomain.
      destruct (m !! KStr "custom_domain") as [[]|]; intros [= <-]; auto;
        done. }
    destruct (match m !! KStr "custom_domain" with
              | Some (VStr s) => (s, true)
              | _ => (""%string, false)
              end) as [cd hasCD] eqn:Hcd.
    assert (cd = customDomain) as ->.
    { subst customDomain. by destruct (m !! KStr "custom_domain") as [[]|];
        injection Hcd as <- _. }
    destruct (bool_decide (is_Some (m !! KStr "enable_root_domain"))) eqn:Her.
    - rewrite andb_false_r. cbv iota.
      destruct (negb (String.eqb customDomain "") && negb (String.eqb dn ""))
        eqn:Hparse; intros [= <- _].
      + apply migrateAmplifyApp_new_format.
        * apply lookup_delete_eq.
        * rewrite lookup_delete_ne by done.
          destruct (negb (String.eqb (subdomainPrefix _ _ _ _) ""));
            rewrite ?lookup_insert_ne by done; apply lookup_delete_eq.
      + apply migrateAmplifyApp_kept; [apply lookup_delete_eq|].
        rewrite lookup_delete_ne by done. by fold customDomain.
    - apply bool_decide_eq_false in Her.
      assert (m !! KStr "enable_root_domain" = None) as Hnone.
      { by apply eq_None_not_Some. }
      rewrite andb_true_r. destruct hasCD; cbv iota.
      + destruct (negb (String.eqb customDomain "") && negb (String.eqb dn ""))
          eqn:Hparse; intros [= <- _].
        * apply migrateAmplifyApp_new_format.
          -- apply lookup_delete_eq.
          -- rewrite lookup_delete_ne by done.
             by destruct (negb (String.eqb (subdomainPrefix _ _ _ _) ""));
               rewrite ?lookup_insert_ne by done.
        * apply migrateAmplifyApp_kept; [done|]. by fold customDomain.
      + intros [= <- _]. apply migrateAmplifyApp_kept; [done|].
        fold customDomain.
        destruct (Hshape false eq_refl eq_refl) as [Hc| ->]; [|done].
        subst customDomain. by rewrite Hc. }
  destruct (migrateAmplifyApp dn env aep (VMap m)) as [app1 n] eqn:Hfirst.
  assert (∃ m1, app1 = VMap m1) as [m1 ->].
  { revert Hfirst. unfold migrateAmplifyApp.
    repeat case_match; intros [= <- _]; eauto. }
  cbn [fst]. by rewrite (Hfix m1 n eq_refl).
Qed.

Lemma migrateToV9_idemp (d d' : doc) (e : error) :
  migrateToV9 d = Returned d' e → migrateToV9 d' = Returned d' None.
Proof.
  unfold migrateToV9 at 1.
  destruct (d !! "amplify_apps") as [[| | | | |apps| |]|] eqn:Ha;
    try (intros [= <- _]; unfold migrateToV9; by rewrite Ha).
  set (dn := match d !! "domain" with
             | Some (VMap domainMap) =>
                 match domainMap !! KStr "domain_name" with
                 | Some (VStr x) => x
                 | _ => ""%string
                 end
             | _ => ""%string
             end).
  set (aep := match d !! "domain" with Some (VMap _) => _ | _ => false end).
  set (env := match d !! "env" with Some (VStr x) => x | _ => ""%string end).
  pose proof (migrateAmplifyApps_fst dn env aep apps) as Hfst.
  destruct (migrateAmplifyApps dn env aep apps) as [apps' c].
  simpl in Hfst. intros [= <- _].
  unfold migrateToV9. rewrite lookup_insert_eq.
  rewrite !lookup_insert_ne by done. fold dn aep env.
  pose proof (migrateAmplifyApps_fst dn env aep apps') as Hfst2.
  destruct (migrateAmplifyApps dn env aep apps') as [apps2 c2].
  simpl in Hfst2. f_equal. rewrite insert_insert_eq. do 2 f_equal.
  subst apps2 apps'. rewrite <- list_fmap_compose.
  apply list_fmap_ext. intros i app _. simpl.
  apply migrateAmplifyApp_idemp.
Qed.

(** Every registered step other than the one for version 11 is idempotent:
    applied to a document it has just returned, it returns nil and that
    same document. *)
Theorem steps_idempotent (m : Migration) (data data' : doc) (err : error) :
  m ∈ AllMigrations → Version m ≠ 11 →
  Apply m data = Returned data' err →
  Apply m data' = Returned data' None.
Proof.
  intros Hm Hv. registry_cases Hm; try done.
  - apply migrateToV2_idemp.
  - apply migrateToV3_idemp.
  - apply migrateToV4_idemp.
  - apply migrateToV5_idemp.
  - apply migrateToV6_idemp.
  - apply migrateToV7_idemp.
  - apply migrateToV8_idemp.
  - apply migrateToV9_idemp.
  - apply migrateV8ToV9_idemp.
  - apply migrateToV12_idemp.
Qed.

Lemma steps_idempotent_witness :
  ∃ data',
    migrateToV4 doc_zero_count = Returned data' None ∧
    migrateToV4 data' = Returned data' None.
Proof.
  pose (data' := match migrateToV4 doc_zero_count with
                 | Returned d _ => d
                 | Panicked => ∅
                 end).
  assert (migrateToV4 doc_zero_count = Returned data' None) as Hrun.
  { vm_compute. reflexivity. }
  exists data'. split; [exact Hrun|].
  apply (steps_idempotent
           {| Version := 4;
              Description := "Add backend scaling configuration";
              Apply := migrateToV4 |} doc_zero_count data' None).
  - unfold AllMigrations. do 2 apply list_elem_of_further.
    apply list_elem_of_here.
  - simpl. lia.
  - exact Hrun.
Defined.

Lemma iface_eq_scalar (h c : value) :
  isScalar c = true → is_Some (iface_eq h c).
Proof. destruct h, c; simpl; eauto; done. Qed.

Lemma fixHostPort_scalar (s : value) :
  scalarPort s = true →
  ∃ s' n n', fixHostPort s = Some (s', n) ∧ fixHostPort s' = Some (s', n') ∧
             scalarPort s' = true.
Proof.
  destruct s; simpl; eauto 6.
  destruct (m !! KStr "container_port") as [c|] eqn:Hc; simpl.
  - intros Hsc.
    assert (∃ n',
              fixHostPort (VMap (<[KStr "host_port" := c]> m))
              = Some (VMap (<[KStr "host_port" := c]> m), n') ∧
              scalarPort (VMap (<[KStr "host_port" := c]> m)) = true)
      as (n' & H1 & H2).
    { simpl. rewrite lookup_insert_ne, Hc, lookup_insert_eq by done.
      destruct (iface_eq_scalar c c Hsc) as [[] ->]; eauto.
      rewrite insert_insert_eq. eauto. }
    destruct (m !! KStr "host_port") as [h|] eqn:Hh.
    + destruct (iface_eq_scalar h c Hsc) as [[] Heq]; rewrite Heq.
      * exists (VMap m), 0, 0. simpl. by rewrite Hc, Hh, Heq.
      * eauto 6.
    + eauto 6.
  - intros _. exists (VMap m), 0, 0. simpl. by rewrite Hc.
Qed.

Lemma fixHostPorts_scalar (services : list value) :
  forallb scalarPort services = true →
  ∃ services' n n',
    fixHostPorts services = Some (services', n) ∧
    fixHostPorts services' = Some (services', n').
Proof.
  induction services as [|s services IH]; simpl.
  - intros _. by exists [], 0, 0.
  - intros [Hs Hrest]%andb_prop.
    destruct (fixHostPort_scalar s Hs) as (s' & n & n' & H1 & H2 & _).
    destruct (IH Hrest) as (rest' & c & c' & R1 & R2).
    exists (s' :: rest'), (n + c), (n' + c'). rewrite H1, R1. simpl.
    by rewrite H2, R2.
Qed.

(** On a document in which every service that is a mapping has a scalar
    [container_port] (null, boolean, number or string), the step for
    version 11 returns nil, and applied again to its own result it returns
    nil and that same document. *)
Theorem migrateToV11_idempotent_on_scalar_ports (data : doc) :
  scalarPorts data = true →
  ∃ data',
    migrateToV11 data = Returned data' None ∧
    migrateToV11 data' = Returned data' None.
Proof.
  unfold scalarPorts, migrateToV11.
  destruct (data !! "services") as [[| | | | |services| |]|] eqn:Hs;
    try (intros _; exists data; by rewrite Hs).
  intros (services' & n & n' & H1 & H2)%fixHostPorts_scalar.
  rewrite H1. eexists. split; [reflexivity|].
  rewrite lookup_insert_eq, H2. by rewrite insert_insert_eq.
Qed.

Lemma migrateToV11_idempotent_on_scalar_ports_witness :
  ∃ data',
    migrateToV11 doc_int_ports = Returned data' None ∧
    migrateToV11 data' = Returned data' None.
Proof.
  apply (migrateToV11_idempotent_on_scalar_ports doc_int_ports).
  reflexivity.
Defined.

(** ** Resolution, loading and the migrate commands *)

Section CommandFacts.
Context `{Host}.

Lemma readFirst_reads (w : FS) (paths : list string) (lastErr : error)
    (path : string) (raw : bytes) :
  readFirst w paths lastErr = inl (path, raw) → os_ReadFile w path = Ok raw.
Proof.
  revert lastErr. induction paths as [|p paths IH]; intros lastErr; [done|].
  simpl. destruct (os_ReadFile w p) eqn:Hread; [|by apply IH].
  by intros [= <- <-].
Qed.

(** The resolution loop answers with a path exactly when that path is the
    first candidate, in list order, that can be read: every candidate
    before it failed, and the later ones were not consulted.  It answers
    with an error exactly when every candidate failed, and the error is the
    one of the last candidate. *)
Theorem readFirst_first_readable (w : FS) (paths : list string)
    (lastErr : error) :
  (∀ path raw,
     readFirst w paths lastErr = inl (path, raw) ↔
     ∃ pre post,
       paths = pre ++ path :: post ∧
       Forall (fun q => ∃ e, os_ReadFile w q = Err e) pre ∧
       os_ReadFile w path = Ok raw) ∧
  (∀ err,
     readFirst w paths lastErr = inr err ↔
     Forall (fun q => ∃ e, os_ReadFile w q = Err e) paths ∧
     err = match last paths with
           | Some q => match os_ReadFile w q with
                       | Err e => Some e
                       | Ok _ => None
                       end
           | None => lastErr
           end).
Proof.
  revert lastErr. induction paths as [|p paths IH]; intros lastErr.
  - split.
    + intros path raw. simpl. split; [done|].
      intros (pre & post & Hp & _). by destruct pre.
    + intros err. simpl. split.
      * intros [= <-]. by split.
      * by intros [_ ->].
  - simpl. destruct (os_ReadFile w p) as [data|e0] eqn:Hread.
    + split.
      * intros path raw. split.
        -- intros [= <- <-]. exists [], paths. by repeat split.
        -- intros (pre & post & Hp & Hpre & Hok).
           destruct pre as [|q pre]; simpl in Hp.
           ++ injection Hp as <- <-. congruence.
           ++ injection Hp as <- _. apply Forall_cons in Hpre as [[e He] _].
              congruence.
      * intros err. split; [done|].
        intros [Hall _]. apply Forall_cons in Hall as [[e He] _]. congruence.
    + destruct (IH (Some e0)) as [IHok IHerr]. split.
      * intros path raw. rewrite IHok. split.
        -- intros (pre & post & -> & Hpre & Hok).
           exists (p :: pre), post. repeat split; [|done].
           apply Forall_cons. eauto.
        -- intros (pre & post & Hp & Hpre & Hok).
           destruct pre as [|q pre]; simpl in Hp.
           ++ injection Hp as <- <-. congruence.
           ++ injection Hp as <- ->. apply Forall_cons in Hpre as [_ Hpre].
              eauto.
      * intros err. rewrite IHerr. split.
        -- intros [Hall ->]. split; [apply Forall_cons; eauto|].
           destruct paths as [|q paths]; [simpl; by rewrite Hread|].
           rewrite last_cons_cons.
           destruct (last (q :: paths)) eqn:Hlast; [done|].
           by apply last_None in Hlast.
        -- intros [Hall ->]. apply Forall_cons in Hall as [_ Hall].
           split; [done|].
           destruct paths as [|q paths]; [simpl; by rewrite Hread|].
           rewrite last_cons_cons.
           destruct (last (q :: paths)) eqn:Hlast; [done|].
           by apply last_None in Hlast.
Qed.

(** A file that is already at the current version (or above) is loaded
    without any effect on the file system: no backup is taken and nothing
    is written; the result is the typed decoding of the bytes that were
    read. *)
Theorem load_current_touches_nothing (w : FS) (name path : string)
    (raw : bytes) (dataMap : doc) :
  readFirst w (possiblePaths name) None = inl (path, raw) →
  yaml_Unmarshal_map raw = Ok dataMap →
  CurrentSchemaVersion ≤ detectSchemaVersion dataMap →
  loadEnvWithMigration w name = decodeEnv w raw ∧
  loadedFS (loadEnvWithMigration w name) = w.
Proof.
  intros Hread Hdec Hcur.
  assert (loadEnvWithMigration w name = decodeEnv w raw) as Hload.
  { unfold loadEnvWithMigration, loadEnvWithMigrationWith.
    rewrite Hread, Hdec. by destruct (Z.ltb_spec (detectSchemaVersion dataMap)
                                        CurrentSchemaVersion); [lia|]. }
  split; [done|]. rewrite Hload. unfold decodeEnv.
  by destruct (yaml_Unmarshal_Env raw) as [e [msg|]].
Qed.

(** When the backup fails, the loader gives up before any step runs and
    before anything is written: it returns the zero configuration and an
    error that carries the backup prefix twice (once from [backupFile],
    once from the loader), and the file system is as the failed backup left
    it. *)
Theorem load_stops_when_backup_fails (registry : list Migration) (w w1 : FS)
    (name path : string) (raw : bytes) (dataMap : doc) (e : string) :
  readFirst w (possiblePaths name) None = inl (path, raw) →
  yaml_Unmarshal_map raw = Ok dataMap →
  detectSchemaVersion dataMap < CurrentSchemaVersion →
  CreateProjectBackup w path = (w1, Err e) →
  loadEnvWithMigrationWith registry w name
  = Loaded w1 zeroEnv
      (Some ("failed to create backup: failed to create backup: " +:+ e)).
Proof.
  intros Hread Hdec Hcur Hbak. unfold loadEnvWithMigrationWith.
  rewrite Hread, Hdec.
  destruct (Z.ltb_spec (detectSchemaVersion dataMap) CurrentSchemaVersion);
    [|lia].
  unfold backupFile. by rewrite Hbak.
Qed.

(** Whatever the loader returns, the file system it leaves is one of three:
    the one it found; the one a backup left (and nothing else happened to
    it); or the one left by writing, to the resolved path and after a
    backup that succeeded, the encoding of the document that a run of the
    steps returned with a nil error.  So the configuration file is never
    overwritten with anything but a fully migrated document. *)
Theorem load_writes_only_migrated_document (registry : list Migration)
    (w : FS) (name : string) :
  let w' := loadedFS (loadEnvWithMigrationWith registry w name) in
  w' = w ∨
  (∃ path backup, CreateProjectBackup w path = (w', backup)) ∨
  (∃ path raw dataMap w1 backupPath dataMap' migratedData err,
     readFirst w (possiblePaths name) None = inl (path, raw) ∧
     yaml_Unmarshal_map raw = Ok dataMap ∧
     CreateProjectBackup w path = (w1, Ok backupPath) ∧
     applyMigrationsWith registry dataMap (detectSchemaVersion dataMap)
       = Returned dataMap' None ∧
     yaml_Marshal dataMap' = Ok migratedData ∧
     os_WriteFile w1 path migratedData = (w', err)).
Proof.
  unfold loadEnvWithMigrationWith.
  destruct (readFirst w (possiblePaths name) None) as [[path raw]|lastErr]
    eqn:Hread; [|by left].
  destruct (yaml_Unmarshal_map raw) as [dataMap|e] eqn:Hdec; [|by left].
  cbv zeta.
  destruct (detectSchemaVersion dataMap <? CurrentSchemaVersion).
  2: { left. unfold decodeEnv. by destruct (yaml_Unmarshal_Env raw) as [? [|]]. }
  unfold backupFile.
  destruct (CreateProjectBackup w path) as [w1 [backupPath|e]] eqn:Hbak;
    [|right; left; eauto].
  destruct (applyMigrationsWith registry dataMap (detectSchemaVersion dataMap))
    as [dataMap' [e|]|] eqn:Hrun; [right; left; eauto| |right; left; eauto].
  destruct (yaml_Marshal dataMap') as [migratedData|e] eqn:Hmar;
    [|right; left; eauto].
  destruct (os_WriteFile w1 path migratedData) as [w2 err] eqn:Hwrite.
  right. right.
  exists path, raw, dataMap, w1, backupPath, dataMap', migratedData, err.
  repeat split; try done.
  destruct err; [done|]. unfold decodeEnv.
  by destruct (yaml_Unmarshal_Env migratedData) as [? [|]].
Qed.

(** Loading again after a load that migrated: if the host reads back what
    was written (the resolution finds the same path, now with the written
    bytes) and the codec keeps the stamp, then the second load finds the
    file at the current version, leaves the file system as it is, and
    returns the same configuration as the first load. *)
Theorem second_load_is_stable (w w2 : FS) (name path : string) (raw : bytes)
    (dataMap : doc) (e : Env) :
  readFirst w (possiblePaths name) None = inl (path, raw) →
  yaml_Unmarshal_map raw = Ok dataMap →
  detectSchemaVersion dataMap < CurrentSchemaVersion →
  loadEnvWithMigration w name = Loaded w2 e None →
  (∀ w1 migratedData,
     os_WriteFile w1 path migratedData = (w2, None) →
     readFirst w2 (possiblePaths name) None = inl (path, migratedData)) →
  (∀ dataMap' migratedData,
     yaml_Marshal dataMap' = Ok migratedData →
     dataMap' !! "schema_version" = Some (VInt CurrentSchemaVersion) →
     ∃ dataMap2,
       yaml_Unmarshal_map migratedData = Ok dataMap2 ∧
       dataMap2 !! "schema_version" = Some (VInt CurrentSchemaVersion)) →
  loadEnvWithMigration w2 name = Loaded w2 e None.
Proof.
  intros Hread Hdec Hcur Hload Hback Hcodec.
  unfold loadEnvWithMigration, loadEnvWithMigrationWith in Hload.
  rewrite Hread, Hdec in Hload. cbv zeta in Hload.
  destruct (Z.ltb_spec (detectSchemaVersion dataMap) CurrentSchemaVersion);
    [|lia].
  destruct (backupFile w path) as [w1 [msg|]]; [done|].
  fold (applyMigrations dataMap (detectSchemaVersion dataMap)) in Hload.
  destruct (applyMigrations dataMap (detectSchemaVersion dataMap))
    as [dataMap' [msg|]|] eqn:Hrun; try done.
  destruct (yaml_Marshal dataMap') as [migratedData|msg] eqn:Hmar; [|done].
  destruct (os_WriteFile w1 path migratedData) as [w2' [msg|]] eqn:Hwrite;
    [done|].
  assert (w2' = w2) as ->.
  { unfold decodeEnv in Hload.
    destruct (yaml_Unmarshal_Env migratedData) as [? [|]];
      by injection Hload as ->. }
  apply applyMigrations_stamps in Hrun; [|done].
  destruct (Hcodec dataMap' migratedData Hmar Hrun) as (dataMap2 & Hdec2 & Hs2).
  apply detect_stamped in Hs2; [|done].
  unfold loadEnvWithMigration, loadEnvWithMigrationWith.
  rewrite (Hback w1 migratedData Hwrite), Hdec2, Hs2.
  by rewrite Z.ltb_irrefl.
Qed.

(** The single-file command and the loader agree: when the loader resolves
    [name] to [path], both leave the same file system; an error of the
    command is the error of the loader, word for word; a panic of one is a
    panic of the other. *)
Theorem MigrateYAMLFile_agrees_with_loader (w : FS) (name path : string)
    (raw : bytes) :
  readFirst w (possiblePaths name) None = inl (path, raw) →
  loadedFS (loadEnvWithMigration w name) = ranFS (MigrateYAMLFile w path) ∧
  (∀ w' msg,
     MigrateYAMLFile w path = Ran w' (Some msg) →
     loadEnvWithMigration w name = Loaded w' zeroEnv (Some msg)) ∧
  (∀ w',
     MigrateYAMLFile w path = RanPanicked w' ↔
     loadEnvWithMigration w name = LoadPanicked w').
Proof.
  intros Hread. pose proof (readFirst_reads _ _ _ _ _ Hread) as Hok.
  unfold loadEnvWithMigration, loadEnvWithMigrationWith, MigrateYAMLFile.
  rewrite Hread, Hok.
  destruct (yaml_Unmarshal_map raw) as [dataMap|e]; [|same_outcome].
  cbv zeta. fold (applyMigrations dataMap (detectSchemaVersion dataMap)).
  destruct (Z.ltb_spec (detectSchemaVersion dataMap) CurrentSchemaVersion);
    destruct (Z.leb_spec CurrentSchemaVersion (detectSchemaVersion dataMap));
    try lia.
  2: { unfold decodeEnv. destruct (yaml_Unmarshal_Env raw) as [? [|]];
       same_outcome. }
  destruct (backupFile w path) as [w1 [msg|]]; [same_outcome|].
  destruct (applyMigrations dataMap (detectSchemaVersion dataMap))
    as [dataMap' [msg|]|]; [same_outcome| |same_outcome].
  destruct (yaml_Marshal dataMap') as [migratedData|msg]; [|same_outcome].
  destruct (os_WriteFile w1 path migratedData) as [w2 [msg|]];
    [same_outcome|].
  unfold decodeEnv. destruct (yaml_Unmarshal_Env migratedData) as [? [|]];
    same_outcome.
Qed.

(** The single-file command leaves the file system untouched, and takes no
    backup, when the file cannot be read (error), cannot be decoded (error)
    or is already at the current version (nil). *)
Theorem MigrateYAMLFile_early_exits (w : FS) (path : string) :
  (∀ e, os_ReadFile w path = Err e →
        MigrateYAMLFile w path = Ran w (Some ("failed to read file: " +:+ e))) ∧
  (∀ raw e, os_ReadFile w path = Ok raw → yaml_Unmarshal_map raw = Err e →
        MigrateYAMLFile w path
        = Ran w (Some ("error unmarshaling YAML: " +:+ e))) ∧
  (∀ raw dataMap,
        os_ReadFile w path = Ok raw → yaml_Unmarshal_map raw = Ok dataMap →
        CurrentSchemaVersion ≤ detectSchemaVersion dataMap →
        MigrateYAMLFile w path = Ran w None).
Proof.
  unfold MigrateYAMLFile. repeat split.
  - by intros e ->.
  - by intros raw e -> ->.
  - intros raw dataMap -> -> Hcur.
    by destruct (Z.leb_spec CurrentSchemaVersion (detectSchemaVersion dataMap));
      [|lia].
Qed.

(** The loop over the files never returns an error: whatever the single
    files answer, it ends with nil, unless a step panics. *)
Lemma migrateFiles_swallows_errors (w : FS) (files : list string) :
  (∃ w', migrateFiles w files = Ran w' None) ∨
  (∃ w', migrateFiles w files = RanPanicked w').
Proof.
  revert w. induction files as [|file files IH]; intros w; simpl; [eauto|].
  destruct (MigrateYAMLFile w file) as [w' err|w']; eauto.
Qed.

Lemma migrateFiles_all_unreadable (w : FS) (files : list string) :
  Forall (fun file => ∃ e, os_ReadFile w file = Err e) files →
  migrateFiles w files = Ran w None.
Proof.
  induction 1 as [|file files [e He] _ IH]; simpl; [done|].
  unfold MigrateYAMLFile. by rewrite He.
Qed.
End CommandFacts.

(** Once the glob has answered, the batch command returns nil whatever the
    single files do (their errors are only printed), unless a step panics;
    in particular it returns nil, with the file system untouched, when no
    file matched or when none of the matched files can be read. *)
Theorem MigrateAllYAMLFiles_swallows_errors `{BatchHost} (w : FS)
    (files : list string) :
  filepath_Glob w (filepath_Join
                     (if os_Stat_notExist w "project" then "." else "project")
                     "*.yaml") = Ok files →
  ((∃ w', MigrateAllYAMLFiles w = Ran w' None) ∨
   (∃ w', MigrateAllYAMLFiles w = RanPanicked w')) ∧
  (Forall (fun file => ∃ e, os_ReadFile w file = Err e) files →
   MigrateAllYAMLFiles w = Ran w None).
Proof.
  intros Hglob. unfold MigrateAllYAMLFiles. rewrite Hglob.
  destruct files as [|file files]; [by eauto|]. split.
  - apply migrateFiles_swallows_errors.
  - apply migrateFiles_all_unreadable.
Qed.

Lemma load_current_touches_nothing_witness :
  @loadEnvWithMigration stampHost {[ "dev.yaml" := [Byte.x01] ]} "dev"
  = @Loaded stampHost {[ "dev.yaml" := [Byte.x01] ]} 1%nat None ∧
  @loadedFS stampHost
    (@loadEnvWithMigration stampHost {[ "dev.yaml" := [Byte.x01] ]} "dev")
  = ({[ "dev.yaml" := [Byte.x01] ]} : gmap string bytes).
Proof.
  apply (@load_current_touches_nothing stampHost
           ({[ "dev.yaml" := [Byte.x01] ]} : gmap string bytes)
           "dev" "dev.yaml" [Byte.x01] {[ "schema_version" := VInt 12 ]}).
  - vm_compute. reflexivity.
  - reflexivity.
  - vm_compute. discriminate.
Defined.

Lemma load_stops_when_backup_fails_witness :
  @loadEnvWithMigrationWith noBackupHost AllMigrations
     {[ "dev.yaml" := [] ]} "dev"
  = @Loaded noBackupHost {[ "dev.yaml" := [] ]} 0%nat
      (Some "failed to create backup: failed to create backup: mkdir backup: permission denied").
Proof.
  apply (@load_stops_when_backup_fails noBackupHost AllMigrations
           ({[ "dev.yaml" := [] ]} : gmap string bytes)
           ({[ "dev.yaml" := [] ]} : gmap string bytes)
           "dev" "dev.yaml" [] ∅ "mkdir backup: permission denied").
  - vm_compute. reflexivity.
  - reflexivity.
  - vm_compute. reflexivity.
  - reflexivity.
Defined.

Lemma second_load_is_stable_witness :
  @loadEnvWithMigration stampHost
     {[ "dev.yaml" := [Byte.x01]; "backup/dev.yaml" := [] ]} "dev"
  = @Loaded stampHost
      {[ "dev.yaml" := [Byte.x01]; "backup/dev.yaml" := [] ]} 1%nat None.
Proof.
  apply (@second_load_is_stable stampHost
           ({[ "dev.yaml" := [] ]} : gmap string bytes)
           ({[ "dev.yaml" := [Byte.x01]; "backup/dev.yaml" := [] ]}
              : gmap string bytes)
           "dev" "dev.yaml" [] ∅ 1%nat).
  - vm_compute. reflexivity.
  - reflexivity.
  - vm_compute. reflexivity.
  - vm_compute. reflexivity.
  - intros w1 migratedData Hwrite.
    cbv [os_WriteFile stampHost] in Hwrite. injection Hwrite as Hwrite.
    change (gmap string bytes) in (type of w1).
    assert ((<["dev.yaml" := migratedData]> w1 : gmap string bytes)
              !! "dev.yaml" = Some migratedData) as Hback
      by apply lookup_insert_eq.
    rewrite Hwrite in Hback. vm_compute in Hback. injection Hback as <-.
    vm_compute. reflexivity.
  - intros dataMap' migratedData Hmar _.
    cbv [yaml_Marshal stampHost] in Hmar. injection Hmar as <-.
    exists {[ "schema_version" := VInt 12 ]}. split; [reflexivity|].
    vm_compute. reflexivity.
Defined.

Lemma MigrateYAMLFile_agrees_with_loader_witness :
  @loadedFS stampHost (@loadEnvWithMigration stampHost {[ "dev.yaml" := [] ]} "dev")
  = @ranFS stampHost (@MigrateYAMLFile stampHost {[ "dev.yaml" := [] ]} "dev.yaml") ∧
  @MigrateYAMLFile stampHost {[ "dev.yaml" := [] ]} "dev.yaml"
  = @Ran stampHost {[ "dev.yaml" := [Byte.x01]; "backup/dev.yaml" := [] ]} None.
Proof.
  destruct (@MigrateYAMLFile_agrees_with_loader stampHost
              ({[ "dev.yaml" := [] ]} : gmap string bytes)
              "dev" "dev.yaml" []) as (Hfs & _ & _).
  - vm_compute. reflexivity.
  - split; [exact Hfs|]. vm_compute. reflexivity.
Defined.

Lemma MigrateAllYAMLFiles_swallows_errors_witness :
  ((∃ w', @MigrateAllYAMLFiles stampBatchHost {[ "dev.yaml" := [] ]}
          = @Ran stampHost w' None) ∨
   (∃ w', @MigrateAllYAMLFiles stampBatchHost {[ "dev.yaml" := [] ]}
          = @RanPanicked stampHost w')) ∧
  (Forall (fun file => ∃ e, @os_ReadFile stampHost {[ "dev.yaml" := [] ]} file
                            = Err e) ["dev.yaml"; "prod.yaml"] →
   @MigrateAllYAMLFiles stampBatchHost {[ "dev.yaml" := [] ]}
   = @Ran stampHost {[ "dev.yaml" := [] ]} None).
Proof.
  apply (@MigrateAllYAMLFiles_swallows_errors stampBatchHost
           ({[ "dev.yaml" := [] ]} : gmap string bytes)
           ["dev.yaml"; "prod.yaml"]).
  reflexivity.
Defined.
